(** * Zone-based price-action strategy: a shallow embedding of
      [modules/strategies.py] and the properties of its signal pipeline.

    Conventions of the embedding.

    - A pandas/numpy float cell is an [fnum]: [Some q] for a finite number
      (an exact rational; rounding of IEEE doubles is not modelled) and
      [None] for NaN.  Arithmetic propagates NaN, every comparison with NaN
      is false, and a division by zero yields NaN (IEEE infinities are not
      modelled).
    - A DataFrame is kept as parallel lists, one per group of columns that a
      stage writes: the candles, the indicator columns, the zone counters,
      the pattern flags, the signal columns.  A loop
      [for i in range(a, n): df.at[i, col] = ...] runs over [seq a (n - a)]
      and overwrites position [i] of the list it writes.
    - Python exceptions are values of [exn]; [try ... except Exception] is
      [try_except]. *)

From Stdlib Require Import String ZArith QArith Qabs List Bool Lia Lqa.
Import ListNotations.

Set Implicit Arguments.

(** ** Floats with NaN *)

Definition fnum : Type := option Q.

Module F.

Definition nan : fnum := None.

Definition isna (x : fnum) : bool :=
  match x with None => true | Some _ => false end.

Definition lift2 (f : Q -> Q -> Q) (x y : fnum) : fnum :=
  match x, y with
  | Some a, Some b => Some (f a b)
  | _, _ => None
  end.

Definition add := lift2 Qplus.
Definition sub := lift2 Qminus.
Definition mul := lift2 Qmult.

Definition div (x y : fnum) : fnum :=
  match x, y with
  | Some a, Some b => if Qeq_bool b 0 then None else Some (a / b)%Q
  | _, _ => None
  end.

Definition abs (x : fnum) : fnum := option_map Qabs x.

Definition Qltb (a b : Q) : bool := negb (Qle_bool b a).

Definition cmp (f : Q -> Q -> bool) (x y : fnum) : bool :=
  match x, y with
  | Some a, Some b => f a b
  | _, _ => false
  end.

Definition lt := cmp Qltb.
Definition le := cmp Qle_bool.
Definition gt (x y : fnum) := lt y x.
Definition ge (x y : fnum) := le y x.
Definition eq := cmp Qeq_bool.
(** [x != y] is true as soon as one side is NaN. *)
Definition ne (x y : fnum) := negb (eq x y).

(** Python's built-in [max(a, b)] and [min(a, b)]: the first argument is
    kept unless the second one beats it. *)
Definition max (a b : fnum) : fnum := if gt b a then b else a.
Definition min (a b : fnum) : fnum := if lt b a then b else a.

(** [np.where(cond, x, y)] on one cell. *)
Definition where_ (c : bool) (x y : fnum) : fnum := if c then x else y.

(** [Series.max()] and [Series.min()]: NaN cells are skipped, the result
    is NaN when nothing is left. *)
Fixpoint series_max (l : list fnum) : fnum :=
  match l with
  | [] => None
  | None :: t => series_max t
  | Some a :: t =>
      match series_max t with
      | None => Some a
      | Some b => if Qltb a b then Some b else Some a
      end
  end.

Fixpoint series_min (l : list fnum) : fnum :=
  match l with
  | [] => None
  | None :: t => series_min t
  | Some a :: t =>
      match series_min t with
      | None => Some a
      | Some b => if Qltb b a then Some b else Some a
      end
  end.

Fixpoint series_sum (l : list Q) : Q :=
  match l with
  | [] => 0
  | a :: t => a + series_sum t
  end.

End F.

(** ** Exceptions *)

Inductive exn : Type :=
| TypeError
| ValueError (msg : string)
| IndexError
| OtherError.

Inductive pyres (A : Type) : Type :=
| Ok (a : A)
| Raise (e : exn).

Arguments Ok {A} a.
Arguments Raise {A} e.

Definition bind {A B} (m : pyres A) (k : A -> pyres B) : pyres B :=
  match m with
  | Ok a => k a
  | Raise e => Raise e
  end.

Notation "x <- m ;; k" := (bind m (fun x => k))
  (at level 61, m at next level, right associativity).

(** [try: body except Exception: handler]. *)
Definition try_except {A} (body : pyres A) (handler : exn -> A) : A :=
  match body with
  | Ok a => a
  | Raise e => handler e
  end.

(** ** Python list helpers *)

(** [l[-k]] for [1 <= k]. *)
Definition neg_index {A} (l : list A) (k : nat) : pyres A :=
  match nth_error l (length l - k) with
  | Some a => if (k <=? length l)%nat then Ok a else Raise IndexError
  | None => Raise IndexError
  end.

(** [l[-w:]]; [l[-0:]] is the whole list. *)
Definition last_slice {A} (w : nat) (l : list A) : list A :=
  match w with
  | O => l
  | _ => skipn (length l - w) l
  end.

(** [df.at[i, col] = v] on the list that holds the column group. *)
Fixpoint set_at {A} (i : nat) (v : A) (l : list A) : list A :=
  match l, i with
  | [], _ => []
  | _ :: t, O => v :: t
  | a :: t, S j => a :: set_at j v t
  end.

(** A loop that may raise keeps what it has written so far: the table is
    mutated in place and the exception ends the loop. *)
Fixpoint run_loop {T} (body : nat -> T -> pyres T) (idx : list nat) (st : T)
  : T * option exn :=
  match idx with
  | [] => (st, None)
  | i :: rest =>
      match body i st with
      | Ok st' => run_loop body rest st'
      | Raise e => (st, Some e)
      end
  end.

(** The loops of the pipeline have the shape
    [for i in range(a, n): ...; df.at[i, col] = ...]: iteration [i] reads the
    columns written by earlier stages and writes row [i] only.  [fault i]
    says that the iteration raises on entry, [write i row] is the row it
    writes, or [None] when it leaves the row alone ([continue]). *)
Definition row_step {R} (d : R) (fault : nat -> bool)
  (write : nat -> R -> option R) (i : nat) (tbl : list R) : pyres (list R) :=
  if fault i then Raise OtherError
  else
    match write i (nth i tbl d) with
    | Some r => Ok (set_at i r tbl)
    | None => Ok tbl
    end.

Definition row_loop {R} (d : R) (fault : nat -> bool)
  (write : nat -> R -> option R) (a n : nat) (init : list R) : list R :=
  fst (run_loop (row_step d fault write) (seq a (n - a)) init).

(** The fault plan of a loop that cannot raise. *)
Definition never (_ : nat) : bool := false.

(** ** Base class [TradingStrategy]: price-action arithmetic *)

Section BaseMath.

(** [np.std]: the population standard deviation of a non-empty list.  It
    is a library function whose value is irrational in general, so it is
    left abstract. *)
Variable np_std : list Q -> Q.

(** A price in a plain Python list: a number or [None]. *)
Definition price := option Q.

Definition is_zero_or_none (p : price) : bool :=
  match p with
  | None => true
  | Some q => Qeq_bool q 0
  end.

(** [a - b] and [a / b] on Python values: [None] operands raise. *)
Definition py_rel_change (curr prev : price) : pyres Q :=
  match curr, prev with
  | Some c, Some p => Ok ((c - p) / p)%Q
  | _, _ => Raise TypeError
  end.

Definition calculate_price_momentum (prices : list price) (window : nat)
  : pyres Q :=
  if (length prices <? window + 1)%nat then Ok 0%Q
  else
    current_price <- neg_index prices 1 ;;
    past_price <- neg_index prices (window + 1) ;;
    if is_zero_or_none past_price then Ok 0%Q
    else py_rel_change current_price past_price.

(** The loop [for i in range(1, len(recent_prices))] over consecutive
    pairs. *)
Fixpoint collect_returns (recent : list price) : pyres (list Q) :=
  match recent with
  | prev_price :: ((curr_price :: _) as rest) =>
      if is_zero_or_none prev_price then collect_returns rest
      else
        return_val <- py_rel_change curr_price prev_price ;;
        returns <- collect_returns rest ;;
        Ok (return_val :: returns)
  | _ => Ok []
  end.

Definition calculate_volatility (prices : list price) (window : nat)
  : pyres Q :=
  if (length prices <? window)%nat then Ok 0%Q
  else
    returns <- collect_returns (last_slice window prices) ;;
    match returns with
    | [] => Ok 0%Q
    | _ => Ok (np_std returns)
    end.

End BaseMath.

(** A candle given as a dict; a missing key and a [None] value are both
    [None]. *)
Record ohlc : Type := {
  d_open : option Q;
  d_high : option Q;
  d_low : option Q;
  d_close : option Q
}.

Definition positive_value (v : option Q) : bool :=
  match v with
  | Some q => F.Qltb 0 q
  | None => false
  end.

Definition Qmaxb (a b : Q) : Q := if F.Qltb a b then b else a.
Definition Qminb (a b : Q) : Q := if F.Qltb b a then b else a.

(** [l <= min(o, c) <= max(o, c) <= h]. *)
Definition ohlc_ordered (o h l c : Q) : bool :=
  Qle_bool l (Qminb o c) && Qle_bool (Qminb o c) (Qmaxb o c)
  && Qle_bool (Qmaxb o c) h.

Definition classify_candle (o h l c prev_o prev_h prev_l prev_c : Q)
  : option string :=
  if negb (ohlc_ordered o h l c) then None
  else if negb (ohlc_ordered prev_o prev_h prev_l prev_c) then None
  else
    let body_size := Qabs (c - o) in
    let prev_body_size := Qabs (prev_c - prev_o) in
    let total_range := (h - l)%Q in
    if Qeq_bool total_range 0 then None
    else
      let lower_shadow := (Qminb o c - l)%Q in
      let upper_shadow := (h - Qmaxb o c)%Q in
      let doji :=
        if F.Qltb 0 total_range && F.Qltb body_size (total_range * 0.1)
        then Some "DOJI"%string else None in
      if F.Qltb o c then
        if F.Qltb 0 body_size && F.Qltb (2 * body_size) lower_shadow
           && F.Qltb upper_shadow (body_size * 0.2)
        then Some "BULLISH_HAMMER"%string
        else if F.Qltb 0 prev_body_size && F.Qltb prev_c prev_o
                && F.Qltb prev_o c && F.Qltb o prev_c
                && F.Qltb prev_body_size body_size
        then Some "BULLISH_ENGULFING"%string
        else doji
      else if F.Qltb c o then
        if F.Qltb 0 body_size && F.Qltb (2 * body_size) lower_shadow
           && F.Qltb upper_shadow (body_size * 0.2)
        then Some "BEARISH_HANGING_MAN"%string
        else if F.Qltb 0 prev_body_size && F.Qltb prev_o prev_c
                && F.Qltb c prev_o && F.Qltb prev_c o
                && F.Qltb prev_body_size body_size
        then Some "BEARISH_ENGULFING"%string
        else doji
      else doji.

Definition detect_candlestick_patterns (ohlc_data : list ohlc)
  : option string :=
  match rev ohlc_data with
  | current :: prev :: _ =>
      if forallb positive_value
           [d_open current; d_open prev; d_high current; d_high prev;
            d_low current; d_low prev; d_close current; d_close prev]
      then
        match d_open current, d_high current, d_low current, d_close current,
              d_open prev, d_high prev, d_low prev, d_close prev with
        | Some o, Some h, Some l, Some c, Some po, Some ph, Some pl, Some pc =>
            classify_candle o h l c po ph pl pc
        | _, _, _, _, _, _, _, _ => None
        end
      else None
  | _ => None
  end.

(** ** Notation for float expressions *)

Definition k (q : Q) : fnum := Some q.
Arguments k q%_Q.

Declare Scope fnum_scope.
Delimit Scope fnum_scope with F.
Notation "x + y" := (F.add x y) : fnum_scope.
Notation "x - y" := (F.sub x y) : fnum_scope.
Notation "x * y" := (F.mul x y) : fnum_scope.
Notation "x / y" := (F.div x y) : fnum_scope.
Notation "x <? y" := (F.lt x y) (at level 70) : fnum_scope.
Notation "x <=? y" := (F.le x y) (at level 70) : fnum_scope.
Notation "x >? y" := (F.gt x y) (at level 70) : fnum_scope.
Notation "x >=? y" := (F.ge x y) (at level 70) : fnum_scope.
Notation "x =? y" := (F.eq x y) (at level 70) : fnum_scope.

(** ** The strategy instance *)

Inductive reason : Type :=
| ZoneReason (text : string) (strength : Z)
    (* f"{text} (Strength: {strength})" *)
| LevelReason (text : string) (level : fnum)
    (* f"{text} (Level: {level:.6f})" *)
| PlainReason (text : string)
| MomentumReason (text : string) (momentum : fnum).
    (* f"{text} ({momentum*100:.2f}%)" *)

Record HistoryEntry : Type := {
  h_timestamp : fnum;
  h_signal : string;
  h_price : fnum;
  h_momentum : fnum;
  h_signal_strength : Z;
  h_signal_reason : list reason
}.

Record Strategy : Type := {
  lookback_period : nat;
  breakout_threshold : Q;
  volatility_window : nat;
  momentum_window : nat;
  sr_strength : nat;
  warning_count : nat;
  last_signal : option string;
  signal_history : list HistoryEntry
}.

(** [PurePriceActionStrategy.__init__]. *)
Definition init (lookback_n : Z) (breakout : Q)
  (volatility momentum strength : Z) : pyres Strategy :=
  if (lookback_n <=? 0)%Z then
    Raise (ValueError "Lookback period must be positive")
  else if Qle_bool breakout 0 then
    Raise (ValueError "Breakout threshold must be positive")
  else if (volatility <=? 0)%Z then
    Raise (ValueError "Volatility window must be positive")
  else if (momentum <=? 0)%Z then
    Raise (ValueError "Momentum window must be positive")
  else if (strength <=? 0)%Z then
    Raise (ValueError "Support/resistance strength must be positive")
  else
    Ok {| lookback_period := Z.to_nat lookback_n;
          breakout_threshold := breakout;
          volatility_window := Z.to_nat volatility;
          momentum_window := Z.to_nat momentum;
          sr_strength := Z.to_nat strength;
          warning_count := 0;
          last_signal := None;
          signal_history := [] |}.

Definition min_required (self : Strategy) : nat :=
  Nat.max (Nat.max (lookback_period self) (volatility_window self))
          (momentum_window self) + 5.

(** ** Candles and the cleaning of a column *)

Record Candle : Type := {
  timestamp : fnum;
  open : fnum;
  high : fnum;
  low : fnum;
  close : fnum;
  volume : fnum
}.

Definition nan_candle : Candle :=
  {| timestamp := None; open := None; high := None; low := None;
     close := None; volume := None |}.

(** Distance to, and value of, the next valid cell. *)
Fixpoint next_valid (l : list fnum) : option (nat * Q) :=
  match l with
  | [] => None
  | Some v :: _ => Some (O, v)
  | None :: t =>
      match next_valid t with
      | Some (d, v) => Some (S d, v)
      | None => None
      end
  end.

(** [Series.interpolate(method='linear')]: cells are equally spaced; a gap
    between two valid cells is filled on the straight line between them, a
    trailing gap repeats the last valid cell, a leading gap is left as it
    is.  [prev] is the last valid cell and its distance to the head. *)
Fixpoint interpolate_from (prev : option (nat * Q)) (l : list fnum)
  : list fnum :=
  match l with
  | [] => []
  | Some v :: t => Some v :: interpolate_from (Some (1%nat, v)) t
  | None :: t =>
      match prev with
      | None => None :: interpolate_from None t
      | Some (d0, v0) =>
          let filled :=
            match next_valid t with
            | Some (d1, v1) =>
                (v0 + (v1 - v0) * (inject_Z (Z.of_nat d0)
                                   / inject_Z (Z.of_nat (d0 + d1 + 1))))%Q
            | None => v0
            end in
          Some filled :: interpolate_from (Some (S d0, v0)) t
      end
  end.

Definition interpolate (col : list fnum) : list fnum :=
  interpolate_from None col.

Fixpoint bfill (col : list fnum) : list fnum :=
  match col with
  | [] => []
  | Some v :: t => Some v :: bfill t
  | None :: t =>
      match bfill t with
      | (Some v :: _) as t' => Some v :: t'
      | t' => None :: t'
      end
  end.

Fixpoint ffill_from (prev : fnum) (col : list fnum) : list fnum :=
  match col with
  | [] => []
  | Some v :: t => Some v :: ffill_from (Some v) t
  | None :: t => prev :: ffill_from prev t
  end.

Definition ffill (col : list fnum) : list fnum := ffill_from None col.

(** [col.interpolate(method='linear').bfill().ffill()]. *)
Definition repair (col : list fnum) : list fnum :=
  ffill (bfill (interpolate col)).

Definition has_nan (col : list fnum) : bool := existsb F.isna col.

(** The columns of a frame of candles, and the frame of five columns. *)
Definition set_open (v : fnum) (c : Candle) : Candle :=
  {| timestamp := timestamp c; open := v; high := high c; low := low c;
     close := close c; volume := volume c |}.
Definition set_high (v : fnum) (c : Candle) : Candle :=
  {| timestamp := timestamp c; open := open c; high := v; low := low c;
     close := close c; volume := volume c |}.
Definition set_low (v : fnum) (c : Candle) : Candle :=
  {| timestamp := timestamp c; open := open c; high := high c; low := v;
     close := close c; volume := volume c |}.
Definition set_close (v : fnum) (c : Candle) : Candle :=
  {| timestamp := timestamp c; open := open c; high := high c; low := low c;
     close := v; volume := volume c |}.
Definition set_volume (v : fnum) (c : Candle) : Candle :=
  {| timestamp := timestamp c; open := open c; high := high c; low := low c;
     close := close c; volume := v |}.

(** [df[col] = new_col], the new column having one cell per row. *)
Fixpoint assign (set : fnum -> Candle -> Candle) (new_col : list fnum)
  (df : list Candle) : list Candle :=
  match df, new_col with
  | c :: df', v :: col' => set v c :: assign set col' df'
  | _, _ => df
  end.

(** One pass of a cleaning loop over a column: [get] reads it, [set] writes
    it back, [dirty] decides whether the column is touched at all. *)
Definition clean_with (dirty : list fnum -> bool)
  (fix_ : list fnum -> list fnum)
  (get : Candle -> fnum) (set : fnum -> Candle -> Candle)
  (df : list Candle) : list Candle :=
  let col := map get df in
  if dirty col then assign set (fix_ col) df else df.

(** ** Indicator columns of [add_indicators] *)

Definition nth_cell (i : nat) (col : list fnum) : fnum := nth i col None.

(** [col.rolling(window=w).agg()]: NaN until [w] rows are available and
    whenever the window holds a NaN. *)
Definition window_at {A} (w i : nat) (col : list A) : list A :=
  firstn w (skipn (i + 1 - w) col).

Definition rolling (agg : list fnum -> fnum) (w : nat) (col : list fnum)
  : list fnum :=
  map (fun i =>
         let win := window_at w i col in
         if (w <=? i + 1)%nat && negb (has_nan win) then agg win else None)
      (seq 0 (length col)).

Definition values (l : list fnum) : list Q :=
  flat_map (fun x => match x with Some q => [q] | None => [] end) l.

Definition mean (l : list fnum) : fnum :=
  (k (F.series_sum (values l)) / k (inject_Z (Z.of_nat (length l))))%F.

(** [col.pct_change(periods=n)] on a column without NaN:
    [col / col.shift(n) - 1]. *)
Definition pct_change (n : nat) (col : list fnum) : list fnum :=
  map (fun i =>
         if (n <=? i)%nat
         then (nth_cell i col / nth_cell (i - n) col - k 1)%F
         else None)
      (seq 0 (length col)).

Record Ind : Type := {
  price_momentum : fnum;
  resistance : fnum;
  support : fnum;
  dist_from_resistance : fnum;
  dist_from_support : fnum;
  volume_ratio : fnum;
  in_resistance_zone : bool;
  in_support_zone : bool
}.

Definition nan_ind : Ind :=
  {| price_momentum := None; resistance := None; support := None;
     dist_from_resistance := None; dist_from_support := None;
     volume_ratio := None; in_resistance_zone := false;
     in_support_zone := false |}.

Definition zone_width : Q := 0.006.

Definition indicators (self : Strategy) (df : list Candle) : list Ind :=
  let closes := map close df in
  let momentum_col := pct_change (momentum_window self) closes in
  let resistance_col :=
    rolling F.series_max (lookback_period self) (map high df) in
  let support_col :=
    rolling F.series_min (lookback_period self) (map low df) in
  let avg_volume_col := rolling mean (lookback_period self) (map volume df) in
  map (fun i =>
         let c := nth i df nan_candle in
         let res := nth_cell i resistance_col in
         let sup := nth_cell i support_col in
         let avg_volume := nth_cell i avg_volume_col in
         {| price_momentum := nth_cell i momentum_col;
            resistance := res;
            support := sup;
            dist_from_resistance :=
              F.where_ (F.ne (close c) (k 0))
                       ((res - close c) / close c)%F (k 0);
            dist_from_support :=
              F.where_ (F.ne (close c) (k 0))
                       ((close c - sup) / close c)%F (k 0);
            volume_ratio :=
              F.where_ (F.ne avg_volume (k 0))
                       (volume c / avg_volume)%F (k 1);
            in_resistance_zone :=
              (close c >=? res * k (1 - zone_width))%F
              && (close c <=? res * k (1 + zone_width))%F;
            in_support_zone :=
              (close c >=? sup * k (1 - zone_width))%F
              && (close c <=? sup * k (1 + zone_width))%F |})
      (seq 0 (length df)).

(** ** Zone engine: the loop of [add_indicators] over
       [range(lookback_period, len(df))] *)

Record ZoneCount : Type := {
  resistance_touches : Z;
  support_touches : Z;
  resistance_zone_strength : Z;
  support_zone_strength : Z
}.

Definition zero_zone : ZoneCount :=
  {| resistance_touches := 0; support_touches := 0;
     resistance_zone_strength := 0; support_zone_strength := 0 |}.

(** [l[a:b]] for [a <= b]. *)
Definition slice {A} (a b : nat) (l : list A) : list A :=
  firstn (b - a) (skipn a l).

(** [(mask).sum()] over the rows of a slice. *)
Definition count_rows {A} (mask : A -> bool) (rows : list A) : Z :=
  Z.of_nat (length (filter mask rows)).

Definition valid_level (level : fnum) : bool :=
  negb (F.isna level) && (level >? k 0)%F.

(** The strength written by the loop:
    [touches + time_in_zone + (rejections * 2)]. *)
Definition strength_of (touches time_in_zone rejections : Z) : Z :=
  touches + time_in_zone + rejections * 2.

Definition resistance_counts (level : fnum) (recent : list Candle)
  : Z * Z :=
  let zone_upper := (level * k (1 + zone_width))%F in
  let zone_lower := (level * k (1 - zone_width))%F in
  let touches :=
    count_rows (fun c => (high c >=? zone_lower)%F
                         && (high c <=? zone_upper)%F) recent in
  let time_in_zone :=
    count_rows (fun c => (close c >=? zone_lower)%F
                         && (close c <=? zone_upper)%F) recent in
  let rejections :=
    count_rows (fun c => (high c >=? zone_lower)%F
                         && (close c <? zone_lower)%F) recent in
  (touches, strength_of touches time_in_zone rejections).

Definition support_counts (level : fnum) (recent : list Candle)
  : Z * Z :=
  let zone_upper := (level * k (1 + zone_width))%F in
  let zone_lower := (level * k (1 - zone_width))%F in
  let touches :=
    count_rows (fun c => (low c >=? zone_lower)%F
                         && (low c <=? zone_upper)%F) recent in
  let time_in_zone :=
    count_rows (fun c => (close c >=? zone_lower)%F
                         && (close c <=? zone_upper)%F) recent in
  let rejections :=
    count_rows (fun c => (low c <=? zone_upper)%F
                         && (close c >? zone_upper)%F) recent in
  (touches, strength_of touches time_in_zone rejections).

(** What iteration [i] writes into its row: the resistance counters, then
    the support counters. *)
Definition zone_row (self : Strategy) (df : list Candle) (inds : list Ind)
  (i : nat) (z : ZoneCount) : ZoneCount :=
  let recent := slice (i - lookback_period self) i df in
  let resistance_level := resistance (nth i inds nan_ind) in
  let z1 :=
    if valid_level resistance_level then
      let '(touches, strength) := resistance_counts resistance_level recent in
      {| resistance_touches := touches;
         support_touches := support_touches z;
         resistance_zone_strength := strength;
         support_zone_strength := support_zone_strength z |}
    else z in
  let support_level := support (nth i inds nan_ind) in
  if valid_level support_level then
    let '(touches, strength) := support_counts support_level recent in
    {| resistance_touches := resistance_touches z1;
       support_touches := touches;
       resistance_zone_strength := resistance_zone_strength z1;
       support_zone_strength := strength |}
  else z1.

Definition zone_loop (self : Strategy) (df : list Candle) (inds : list Ind)
  : list ZoneCount :=
  row_loop zero_zone never (fun i z => Some (zone_row self df inds i z))
           (lookback_period self) (length df)
           (repeat zero_zone (length df)).

(** ** Pattern engine: [_add_price_action_patterns] *)

Record Flags : Type := {
  pin_bar_bullish : bool;
  pin_bar_bearish : bool;
  engulfing_bullish : bool;
  engulfing_bearish : bool;
  morning_star : bool;
  evening_star : bool;
  tweezer_bottom : bool;
  tweezer_top : bool;
  three_white_soldiers : bool;
  three_black_crows : bool;
  marubozu_bullish : bool;
  marubozu_bearish : bool;
  doji : bool;
  gravestone_doji : bool;
  dragonfly_doji : bool;
  spinning_top : bool;
  spinning_bottom : bool;
  inside_bar : bool;
  outside_bar : bool;
  bullish_flag : bool;
  bearish_flag : bool;
  bullish_pennant : bool;
  bearish_pennant : bool;
  bullish_breakout : bool;
  bearish_breakout : bool;
  bullish_rejection : bool;
  bearish_rejection : bool
}.

(** The row as the column initialisation leaves it. *)
Definition no_flags : Flags :=
  {| pin_bar_bullish := false; pin_bar_bearish := false;
     engulfing_bullish := false; engulfing_bearish := false;
     morning_star := false; evening_star := false;
     tweezer_bottom := false; tweezer_top := false;
     three_white_soldiers := false; three_black_crows := false;
     marubozu_bullish := false; marubozu_bearish := false;
     doji := false; gravestone_doji := false; dragonfly_doji := false;
     spinning_top := false; spinning_bottom := false;
     inside_bar := false; outside_bar := false;
     bullish_flag := false; bearish_flag := false;
     bullish_pennant := false; bearish_pennant := false;
     bullish_breakout := false; bearish_breakout := false;
     bullish_rejection := false; bearish_rejection := false |}.

Definition flag_list (f : Flags) : list bool :=
  [pin_bar_bullish f; pin_bar_bearish f; engulfing_bullish f;
   engulfing_bearish f; morning_star f; evening_star f; tweezer_bottom f;
   tweezer_top f; three_white_soldiers f; three_black_crows f;
   marubozu_bullish f; marubozu_bearish f; doji f; gravestone_doji f;
   dragonfly_doji f; spinning_top f; spinning_bottom f; inside_bar f;
   outside_bar f; bullish_flag f; bearish_flag f; bullish_pennant f;
   bearish_pennant f; bullish_breakout f; bearish_breakout f;
   bullish_rejection f; bearish_rejection f].

(** [pd.isna(val) or val <= 0]. *)
Definition invalid_price (v : fnum) : bool := F.isna v || (v <=? k 0)%F.

Definition invalid_candle (c : Candle) : bool :=
  existsb invalid_price [open c; high c; low c; close c].

Definition body_of (c : Candle) : fnum := F.abs (close c - open c)%F.
Definition range_of (c : Candle) : fnum := (high c - low c)%F.
Definition upper_shadow_of (c : Candle) : fnum :=
  (high c - F.max (open c) (close c))%F.
Definition lower_shadow_of (c : Candle) : fnum :=
  (F.min (open c) (close c) - low c)%F.

(** [c_body < c_range * 0.1 and c_range > 0]. *)
Definition small_body_of (c : Candle) : bool :=
  (body_of c <? range_of c * k 0.1)%F && (range_of c >? k 0)%F.

(** The two tests that make the loop [continue]. *)
Definition skipped (df : list Candle) (i : nat) : bool :=
  let current := nth i df nan_candle in
  let prev := nth (i - 1) df nan_candle in
  let prev2 := nth (i - 2) df nan_candle in
  let prev3 := nth (i - 3) df nan_candle in
  existsb invalid_candle [current; prev; prev2; prev3]
  || (range_of current =? k 0)%F || (range_of prev =? k 0)%F
  || (range_of prev2 =? k 0)%F.

(** Flag detector, section 13. *)
Definition flag_pattern (df : list Candle) (i : nat) : bool * bool :=
  let current := nth i df nan_candle in
  let prev := nth (i - 1) df nan_candle in
  if (5 <=? i)%nat then
    let flag_candles := slice (i - 4) (i + 1) df in
    let trend_start :=
      if (7 <=? i)%nat then nth (i - 7) df nan_candle
      else nth 0 df nan_candle in
    let pre_flag_move :=
      ((close prev - close trend_start) / close trend_start)%F in
    if (F.abs pre_flag_move >? k 0.02)%F then
      let flag_high := F.series_max (map high flag_candles) in
      let flag_low := F.series_min (map low flag_candles) in
      let flag_range := (flag_high - flag_low)%F in
      if (flag_range <? F.abs (pre_flag_move * close prev) * k 0.5)%F then
        if (pre_flag_move >? k 0)%F && (close current >? open current)%F
           && (close current >? flag_high)%F
        then (true, false)
        else if (pre_flag_move <? k 0)%F && (close current <? open current)%F
                && (close current <? flag_low)%F
        then (false, true)
        else (false, false)
      else (false, false)
    else (false, false)
  else (false, false).

(** Pennant detector, section 14. *)
Definition pennant_pattern (df : list Candle) (i : nat) : bool * bool :=
  let current := nth i df nan_candle in
  if (6 <=? i)%nat then
    let pennant_candles := slice (i - 5) (i + 1) df in
    let first := nth 0 pennant_candles nan_candle in
    let before_last :=
      nth (length pennant_candles - 2) pennant_candles nan_candle in
    let early_range := (high first - low first)%F in
    let recent_range := (high before_last - low before_last)%F in
    if (recent_range <? early_range * k 0.7)%F then
      let trend_start :=
        if (9 <=? i)%nat then nth (i - 9) df nan_candle
        else nth 0 df nan_candle in
      let pre_pennant_move :=
        ((close first - close trend_start) / close trend_start)%F in
      if (F.abs pre_pennant_move >? k 0.02)%F then
        if (pre_pennant_move >? k 0)%F && (close current >? open current)%F
           && (close current >? F.series_max (map high pennant_candles))%F
        then (true, false)
        else if (pre_pennant_move <? k 0)%F
                && (close current <? open current)%F
                && (close current
                    <? F.series_min (map low pennant_candles))%F
        then (false, true)
        else (false, false)
      else (false, false)
    else (false, false)
  else (false, false).

(** The body of the loop for a candle that is not skipped: every flag is
    the condition under which the source sets it to [True]. *)
Definition detect (df : list Candle) (inds : list Ind) (i : nat) : Flags :=
  let current := nth i df nan_candle in
  let prev := nth (i - 1) df nan_candle in
  let prev2 := nth (i - 2) df nan_candle in
  let ind := nth i inds nan_ind in
  let c_open := open current in
  let c_high := high current in
  let c_low := low current in
  let c_close := close current in
  let c_body := body_of current in
  let c_range := range_of current in
  let c_upper_shadow := upper_shadow_of current in
  let c_lower_shadow := lower_shadow_of current in
  let p_open := open prev in
  let p_high := high prev in
  let p_low := low prev in
  let p_close := close prev in
  let p_body := body_of prev in
  let p_range := range_of prev in
  let p2_open := open prev2 in
  let p2_close := close prev2 in
  let p2_body := body_of prev2 in
  (* 1. pin bars *)
  let pin_body := (c_body >? c_range * k 0.05)%F in
  let pin_bullish :=
    pin_body && (c_lower_shadow >? c_body * k 2.5)%F
    && (c_upper_shadow <? c_body * k 0.4)%F
    && (c_body >? c_range * k 0.1)%F in
  let pin_bearish :=
    pin_body && (c_upper_shadow >? c_body * k 2.5)%F
    && (c_lower_shadow <? c_body * k 0.4)%F
    && (c_body >? c_range * k 0.1)%F in
  (* 2. marubozu *)
  let marubozu := (c_body >? c_range * k 0.9)%F in
  let maru_bullish := marubozu && (c_close >? c_open)%F in
  let maru_bearish := marubozu && negb (c_close >? c_open)%F in
  (* 3. doji family: an if / elif / else chain *)
  let small_body := small_body_of current in
  let gravestone_shape :=
    (c_upper_shadow >? c_range * k 0.7)%F
    && (c_lower_shadow <? c_range * k 0.1)%F in
  let dragonfly_shape :=
    (c_lower_shadow >? c_range * k 0.7)%F
    && (c_upper_shadow <? c_range * k 0.1)%F in
  let gravestone := small_body && gravestone_shape in
  let dragonfly := small_body && negb gravestone_shape && dragonfly_shape in
  let plain_doji :=
    small_body && negb gravestone_shape && negb dragonfly_shape in
  (* 4. spinning top / bottom *)
  let spinning :=
    (c_body >? c_range * k 0.1)%F && (c_body <? c_range * k 0.3)%F
    && (c_upper_shadow >? c_body)%F && (c_lower_shadow >? c_body)%F in
  let spin_top := spinning && (c_close >? c_open)%F in
  let spin_bottom := spinning && negb (c_close >? c_open)%F in
  (* 5. engulfing: if / elif *)
  let bodies := (p_body >? k 0)%F && (c_body >? k 0)%F in
  let engulf_bull_shape :=
    (p_close <? p_open)%F && (c_close >? c_open)%F && (c_close >? p_open)%F
    && (c_open <? p_close)%F && (c_body >? p_body * k 1.1)%F in
  let engulf_bear_shape :=
    (p_close >? p_open)%F && (c_close <? c_open)%F && (c_close <? p_open)%F
    && (c_open >? p_close)%F && (c_body >? p_body * k 1.1)%F in
  let engulf_bull := bodies && engulf_bull_shape in
  let engulf_bear := bodies && negb engulf_bull_shape && engulf_bear_shape in
  (* 6. tweezers *)
  let tw_top :=
    (F.abs (c_high - p_high) <? (c_high + p_high) * k 0.002)%F
    && (c_close <? c_open)%F && (p_close <? p_open)%F
    && (c_high >=? F.max c_open c_close * k 1.005)%F in
  let tw_bottom :=
    (F.abs (c_low - p_low) <? (c_low + p_low) * k 0.002)%F
    && (c_close >? c_open)%F && (p_close >? p_open)%F
    && (c_low <=? F.min c_open c_close * k 0.995)%F in
  (* 7, 8. stars *)
  let midpoint := ((p2_open + p2_close) / k 2)%F in
  let m_star :=
    (p2_close <? p2_open)%F && (p_body <? p2_body * k 0.5)%F
    && (c_close >? c_open)%F && (c_close >? midpoint)%F in
  let e_star :=
    (p2_close >? p2_open)%F && (p_body <? p2_body * k 0.5)%F
    && (c_close <? c_open)%F && (c_close <? midpoint)%F in
  (* 9, 10. soldiers and crows *)
  let soldiers :=
    (p2_close >? p2_open)%F && (p_close >? p_open)%F
    && (c_close >? c_open)%F
    && (c_close >? p_close)%F && (p_close >? p2_close)%F
    && (c_open >? p_open * k 0.995)%F && (p_open >? p2_open * k 0.995)%F
    && (c_body >? c_range * k 0.6)%F && (p_body >? p_range * k 0.6)%F in
  let crows :=
    (p2_close <? p2_open)%F && (p_close <? p_open)%F
    && (c_close <? c_open)%F
    && (c_close <? p_close)%F && (p_close <? p2_close)%F
    && (c_open <? p_open * k 1.005)%F && (p_open <? p2_open * k 1.005)%F
    && (c_body >? c_range * k 0.6)%F && (p_body >? p_range * k 0.6)%F in
  (* 11, 12. inside and outside bar *)
  let inside := (c_high <? p_high)%F && (c_low >? p_low)%F in
  let outside :=
    (c_high >? p_high)%F && (c_low <? p_low)%F && (c_body >? p_body)%F in
  (* 13, 14. flags and pennants *)
  let '(bull_flag, bear_flag) := flag_pattern df i in
  let '(bull_pennant, bear_pennant) := pennant_pattern df i in
  (* 15. zone rejections *)
  let strong_bounce :=
    (c_low <=? low prev)%F && (c_close >? c_open)%F
    && (c_body >? c_range * k 0.6)%F in
  let bull_rejection :=
    in_support_zone ind
    && (existsb id [pin_bullish; engulf_bull; tw_bottom; m_star; dragonfly]
        || strong_bounce) in
  let strong_rejection :=
    (c_high >=? high prev)%F && (c_close <? c_open)%F
    && (c_body >? c_range * k 0.6)%F in
  let bear_rejection :=
    in_resistance_zone ind
    && (existsb id [pin_bearish; engulf_bear; tw_top; e_star; gravestone]
        || strong_rejection) in
  (* 16. breakouts *)
  let strong_breakout :=
    (c_close >? resistance ind * k 1.003)%F && (c_close >? c_open)%F
    && (c_body >? c_range * k 0.7)%F && (volume_ratio ind >? k 1.3)%F in
  let bull_breakout :=
    (resistance ind >? k 0)%F
    && (existsb id [maru_bullish; engulf_bull; soldiers; bull_flag;
                    bull_pennant]
        || strong_breakout) in
  let strong_breakdown :=
    (c_close <? support ind * k 0.997)%F && (c_close <? c_open)%F
    && (c_body >? c_range * k 0.7)%F && (volume_ratio ind >? k 1.3)%F in
  let bear_breakout :=
    (support ind >? k 0)%F
    && (existsb id [maru_bearish; engulf_bear; crows; bear_flag;
                    bear_pennant]
        || strong_breakdown) in
  {| pin_bar_bullish := pin_bullish; pin_bar_bearish := pin_bearish;
     engulfing_bullish := engulf_bull; engulfing_bearish := engulf_bear;
     morning_star := m_star; evening_star := e_star;
     tweezer_bottom := tw_bottom; tweezer_top := tw_top;
     three_white_soldiers := soldiers; three_black_crows := crows;
     marubozu_bullish := maru_bullish; marubozu_bearish := maru_bearish;
     doji := plain_doji; gravestone_doji := gravestone;
     dragonfly_doji := dragonfly;
     spinning_top := spin_top; spinning_bottom := spin_bottom;
     inside_bar := inside; outside_bar := outside;
     bullish_flag := bull_flag; bearish_flag := bear_flag;
     bullish_pennant := bull_pennant; bearish_pennant := bear_pennant;
     bullish_breakout := bull_breakout; bearish_breakout := bear_breakout;
     bullish_rejection := bull_rejection;
     bearish_rejection := bear_rejection |}.

(** ** Faults *)

(** Exceptions that the typed model cannot predict (a numeric fault of the
    libraries, a malformed cell) are chosen by the environment: a fault
    plan says where one is raised. *)
Record Faults : Type := {
  fault_enrich : bool;
    (* inside [add_indicators], before the pattern engine is called *)
  fault_patterns : nat -> bool;
    (* on entering iteration [i] of the pattern loop *)
  fault_signals : nat -> bool;
    (* on entering iteration [i] of the scoring loop *)
  fault_facade : bool
    (* in [get_signal], after [add_indicators] has returned *)
}.

Definition no_faults : Faults :=
  {| fault_enrich := false; fault_patterns := never;
     fault_signals := never; fault_facade := false |}.

Definition pattern_write (df : list Candle) (inds : list Ind)
  (i : nat) (_ : Flags) : option Flags :=
  if skipped df i then None else Some (detect df inds i).

(** [_add_price_action_patterns]: the handler logs and returns the frame
    as the loop left it. *)
Definition add_price_action_patterns (flt : Faults) (df : list Candle)
  (inds : list Ind) : list Flags :=
  row_loop no_flags (fault_patterns flt) (pattern_write df inds)
           3 (length df) (repeat no_flags (length df)).

(** ** Scoring: [_generate_price_action_signals] *)

Record Sig : Type := {
  buy_signal : bool;
  sell_signal : bool;
  hold_signal : bool;
  signal_strength : Z;
  signal_reason : list reason
}.

Definition initial_sig : Sig :=
  {| buy_signal := false; sell_signal := false; hold_signal := true;
     signal_strength := 0; signal_reason := [] |}.

Definition min_zone_strength : Z := 3.
Definition min_signal_strength : Z := 3.

(** [for name, detected, score in patterns: if detected: ...; break]. *)
Fixpoint first_match (patterns : list (string * bool * Z))
  : option (string * Z) :=
  match patterns with
  | [] => None
  | (name, detected, score) :: rest =>
      if detected then Some (name, score) else first_match rest
  end.

(** The same loop without [break]. *)
Definition all_matches (patterns : list (string * bool * Z))
  : list (string * Z) :=
  flat_map (fun p : string * bool * Z =>
              let '(name, detected, score) := p in
                     if detected then [(name, score)] else []) patterns.

Open Scope string_scope.

(** [any(pd.isna(val) or (isinstance(val, (int, float)) and val <= 0 and
    val != 0) for val in critical_values[:3])].  The columns are float64:
    a cell read from a row is a [np.float64], which is a Python [float],
    so the [isinstance] test holds.  (A cell of an int64 column is a
    [np.int64], which is no Python [int]; there the second test never
    fires and a negative cell is not skipped.) *)
Definition critical_missing (v : fnum) : bool :=
  F.isna v || ((v <=? k 0)%F && F.ne v (k 0)).

Definition buy_conditions (z : ZoneCount) (current prev : Candle)
  (ind prev_ind : Ind) (f prev_f : Flags) : Z * list reason :=
  let in_strong_support_zone :=
    in_support_zone ind && (min_zone_strength <=? support_zone_strength z)%Z in
  (* condition 1: support zone rejection *)
  let '(s1, r1) :=
    if in_strong_support_zone then
      let '(s, r) :=
        match first_match
                [("Strong Bullish Rejection", bullish_rejection f, 5%Z);
                 ("Bullish Pin Bar (Hammer)", pin_bar_bullish f, 4%Z);
                 ("Bullish Engulfing", engulfing_bullish f, 4%Z);
                 ("Morning Star", morning_star f, 5%Z);
                 ("Tweezer Bottom", tweezer_bottom f, 4%Z);
                 ("Dragonfly Doji", dragonfly_doji f, 3%Z);
                 ("Three White Soldiers", three_white_soldiers f, 5%Z);
                 ("Bullish Marubozu", marubozu_bullish f, 4%Z)] with
        | Some (name, score) =>
            (score, [ZoneReason (name ++ " at Support Zone")
                                (support_zone_strength z)])
        | None => (0%Z, [])
        end in
      if spinning_top f then
        ((s + 2)%Z,
         (r ++ [ZoneReason "Bullish Spinning Top at Support"
                           (support_zone_strength z)])%list)
      else (s, r)
    else (0%Z, []) in
  (* condition 2: resistance breakout *)
  let '(s2, r2) :=
    if (resistance ind >? k 0)%F then
      let '(s, r) :=
        match first_match
                [("Strong Resistance Breakout", bullish_breakout f, 5%Z);
                 ("Bullish Flag Breakout", bullish_flag f, 5%Z);
                 ("Bullish Pennant Breakout", bullish_pennant f, 5%Z);
                 ("Bullish Marubozu Breakout", marubozu_bullish f, 4%Z);
                 ("Three White Soldiers Breakout",
                  three_white_soldiers f, 5%Z)] with
        | Some (name, score) =>
            (score, [LevelReason name (resistance ind)])
        | None => (0%Z, [])
        end in
      if (close current >? resistance ind * k 1.003)%F
         && (close current >? open current)%F
         && (volume_ratio ind >? k 1.5)%F
      then ((s + 4)%Z,
            (r ++ [LevelReason "Volume-Confirmed Resistance Break"
                               (resistance ind)])%list)
      else (s, r)
    else (0%Z, []) in
  (* condition 3: continuation patterns, every match counted *)
  let cont :=
    all_matches
      [("Inside Bar Breakout", inside_bar f && bullish_breakout prev_f, 3%Z);
       ("Outside Bar Bullish",
        outside_bar f && (close current >? open current)%F, 3%Z)] in
  let s3 := fold_right Z.add 0%Z (map snd cont) in
  let r3 := map (fun p => PlainReason (fst p)) cont in
  (* momentum with zone confirmation: if / elif *)
  let momentum := price_momentum ind in
  let '(s4, r4) :=
    if negb (F.isna momentum) && (momentum >? k 0.012)%F then
      if (dist_from_support ind <? k 0.035)%F then
        (2%Z, [MomentumReason "Strong Momentum near Support" momentum])
      else if in_support_zone prev_ind && negb (in_support_zone ind)
              && (close current >? close prev)%F
      then (3%Z, [MomentumReason "Momentum Continuation after Support Bounce"
                                 momentum])
      else (0%Z, [])
    else (0%Z, []) in
  ((s1 + s2 + s3 + s4)%Z, (r1 ++ r2 ++ r3 ++ r4)%list).

Definition sell_conditions (z : ZoneCount) (current prev : Candle)
  (ind prev_ind : Ind) (f prev_f : Flags) : Z * list reason :=
  let in_strong_resistance_zone :=
    in_resistance_zone ind
    && (min_zone_strength <=? resistance_zone_strength z)%Z in
  (* condition 1: resistance zone rejection *)
  let '(s1, r1) :=
    if in_strong_resistance_zone then
      let '(s, r) :=
        match first_match
                [("Strong Bearish Rejection", bearish_rejection f, 5%Z);
                 ("Bearish Pin Bar (Shooting Star)", pin_bar_bearish f, 4%Z);
                 ("Bearish Engulfing", engulfing_bearish f, 4%Z);
                 ("Evening Star", evening_star f, 5%Z);
                 ("Tweezer Top", tweezer_top f, 4%Z);
                 ("Gravestone Doji", gravestone_doji f, 3%Z);
                 ("Three Black Crows", three_black_crows f, 5%Z);
                 ("Bearish Marubozu", marubozu_bearish f, 4%Z)] with
        | Some (name, score) =>
            (score, [ZoneReason (name ++ " at Resistance Zone")
                                (resistance_zone_strength z)])
        | None => (0%Z, [])
        end in
      if spinning_bottom f then
        ((s + 2)%Z,
         (r ++ [ZoneReason "Bearish Spinning Bottom at Resistance"
                           (resistance_zone_strength z)])%list)
      else (s, r)
    else (0%Z, []) in
  (* condition 2: support breakdown *)
  let '(s2, r2) :=
    if (support ind >? k 0)%F then
      let '(s, r) :=
        match first_match
                [("Strong Support Breakdown", bearish_breakout f, 5%Z);
                 ("Bearish Flag Breakdown", bearish_flag f, 5%Z);
                 ("Bearish Pennant Breakdown", bearish_pennant f, 5%Z);
                 ("Bearish Marubozu Breakdown", marubozu_bearish f, 4%Z);
                 ("Three Black Crows Breakdown",
                  three_black_crows f, 5%Z)] with
        | Some (name, score) => (score, [LevelReason name (support ind)])
        | None => (0%Z, [])
        end in
      if (close current <? support ind * k 0.997)%F
         && (close current <? open current)%F
         && (volume_ratio ind >? k 1.5)%F
      then ((s + 4)%Z,
            (r ++ [LevelReason "Volume-Confirmed Support Break"
                               (support ind)])%list)
      else (s, r)
    else (0%Z, []) in
  (* condition 3: continuation patterns *)
  let cont :=
    all_matches
      [("Inside Bar Breakdown", inside_bar f && bearish_breakout prev_f, 3%Z);
       ("Outside Bar Bearish",
        outside_bar f && (close current <? open current)%F, 3%Z)] in
  let s3 := fold_right Z.add 0%Z (map snd cont) in
  let r3 := map (fun p => PlainReason (fst p)) cont in
  (* momentum with zone confirmation *)
  let momentum := price_momentum ind in
  let '(s4, r4) :=
    if negb (F.isna momentum) && (momentum <? k (- 0.012)%Q)%F then
      if (dist_from_resistance ind <? k 0.025)%F then
        (2%Z, [MomentumReason "Strong Negative Momentum near Resistance"
                              momentum])
      else if in_resistance_zone prev_ind && negb (in_resistance_zone ind)
              && (close current <? close prev)%F
      then (3%Z,
            [MomentumReason "Momentum Continuation after Resistance Rejection"
                            momentum])
      else (0%Z, [])
    else (0%Z, []) in
  ((s1 + s2 + s3 + s4)%Z, (r1 ++ r2 ++ r3 ++ r4)%list).

Close Scope string_scope.

(** The final decision on one row: the [if] / [elif] that writes the signal
    columns with [df.at]; a row that takes neither branch is not written. *)
Definition decide (buy_score sell_score : Z) (signal_reasons : list reason)
  (row : Sig) : Sig :=
  if (min_signal_strength <=? buy_score)%Z && (sell_score + 1 <? buy_score)%Z
  then
    {| buy_signal := true; sell_signal := sell_signal row;
       hold_signal := false; signal_strength := buy_score;
       signal_reason := signal_reasons |}
  else if (min_signal_strength <=? sell_score)%Z
          && (buy_score + 1 <? sell_score)%Z
  then
    {| buy_signal := buy_signal row; sell_signal := true;
       hold_signal := false; signal_strength := sell_score;
       signal_reason := signal_reasons |}
  else row.

(** The rows that the first [continue] of the scoring loop lets through. *)
Definition reaches_decision (df : list Candle) (inds : list Ind) (i : nat)
  : bool :=
  let current := nth i df nan_candle in
  let ind := nth i inds nan_ind in
  negb (existsb critical_missing [close current; resistance ind; support ind]).

(** [buy_score], [sell_score] and [signal_reasons] of row [i]. *)
Definition row_scores (df : list Candle) (inds : list Ind)
  (zones : list ZoneCount) (flags : list Flags) (i : nat)
  : Z * Z * list reason :=
  let current := nth i df nan_candle in
  let prev := nth (i - 1) df nan_candle in
  let ind := nth i inds nan_ind in
  let prev_ind := nth (i - 1) inds nan_ind in
  let z := nth i zones zero_zone in
  let f := nth i flags no_flags in
  let prev_f := nth (i - 1) flags no_flags in
  let '(buy_score, buy_reasons) :=
    buy_conditions z current prev ind prev_ind f prev_f in
  let '(sell_score, sell_reasons) :=
    sell_conditions z current prev ind prev_ind f prev_f in
  (buy_score, sell_score, (buy_reasons ++ sell_reasons)%list).

Definition signal_write (df : list Candle) (inds : list Ind)
  (zones : list ZoneCount) (flags : list Flags) (i : nat) (row : Sig)
  : option Sig :=
  if negb (reaches_decision df inds i) then None
  else
    let '(buy_score, sell_score, signal_reasons) :=
      row_scores df inds zones flags i in
    Some (decide buy_score sell_score signal_reasons row).

Definition first_scored (self : Strategy) : nat :=
  Nat.max (Nat.max (lookback_period self) (momentum_window self)) 10.

(** [_generate_price_action_signals]: the handler only logs. *)
Definition generate_price_action_signals (flt : Faults) (self : Strategy)
  (df : list Candle) (inds : list Ind) (zones : list ZoneCount)
  (flags : list Flags) : list Sig :=
  row_loop initial_sig (fault_signals flt)
           (signal_write df inds zones flags)
           (first_scored self) (length df)
           (repeat initial_sig (length df)).

(** ** [add_indicators] *)

Record Frame : Type := {
  f_candles : list Candle;
  f_inds : list Ind;
  f_zones : list ZoneCount;
  f_flags : list Flags;
  f_sigs : option (list Sig)
    (* [None]: the frame has no signal column *)
}.

Definition bare_frame (df : list Candle) : Frame :=
  {| f_candles := df; f_inds := []; f_zones := []; f_flags := [];
     f_sigs := None |}.

(** [df[col].replace(0, np.nan)]. *)
Definition replace_zero (col : list fnum) : list fnum :=
  map (fun v => if (v =? k 0)%F then None else v) col.

Definition has_nonpositive (col : list fnum) : bool :=
  existsb (fun v => (v <=? k 0)%F) col.

Definition clean_nonpositive :=
  clean_with has_nonpositive (fun col => repair (replace_zero col)).

(** The cleaning pass at the head of [add_indicators]. *)
Definition clean_prices (df : list Candle) : list Candle :=
  let df := clean_with has_nan repair close set_close df in
  let df := clean_nonpositive open set_open df in
  let df := clean_nonpositive high set_high df in
  let df := clean_nonpositive low set_low df in
  clean_nonpositive close set_close df.

Definition add_indicators (flt : Faults) (self : Strategy)
  (df : list Candle) : Frame :=
  if (length df <? min_required self)%nat then bare_frame df
  else
    let df := clean_prices df in
    if fault_enrich flt then bare_frame df
    else
      let inds := indicators self df in
      let zones := zone_loop self df inds in
      let flags := add_price_action_patterns flt df inds in
      let sigs := generate_price_action_signals flt self df inds zones flags in
      {| f_candles := df; f_inds := inds; f_zones := zones;
         f_flags := flags; f_sigs := Some sigs |}.

(** ** The facade [get_signal] *)

(** A kline record after [pd.to_numeric(errors='coerce')]: every field is a
    number or NaN. *)
Definition kline : Type := list fnum.

(** The number of columns of [pd.DataFrame(klines)]: the longest record;
    shorter records are padded with NaN. *)
Definition frame_width (klines : list kline) : nat :=
  fold_right Nat.max 0%nat (map (@length fnum) klines).

Definition to_candle (r : kline) : Candle :=
  {| timestamp := nth_cell 0 r; open := nth_cell 1 r; high := nth_cell 2 r;
     low := nth_cell 3 r; close := nth_cell 4 r; volume := nth_cell 5 r |}.

(** The loop over [numeric_columns]. *)
Definition clean_numeric (df : list Candle) : list Candle :=
  let df := clean_with has_nan repair open set_open df in
  let df := clean_with has_nan repair high set_high df in
  let df := clean_with has_nan repair low set_low df in
  let df := clean_with has_nan repair close set_close df in
  clean_with has_nan repair volume set_volume df.

Definition numeric_nan (df : list Candle) : bool :=
  existsb (fun get => has_nan (map get df)) [open; high; low; close; volume].

(** [deque(maxlen=100).append]. *)
Definition history_append (e : HistoryEntry) (h : list HistoryEntry)
  : list HistoryEntry :=
  let h' := (h ++ [e])%list in skipn (length h' - 100) h'.

Definition with_warning (self : Strategy) : Strategy :=
  {| lookback_period := lookback_period self;
     breakout_threshold := breakout_threshold self;
     volatility_window := volatility_window self;
     momentum_window := momentum_window self;
     sr_strength := sr_strength self;
     warning_count := S (warning_count self);
     last_signal := last_signal self;
     signal_history := signal_history self |}.

Definition with_signal (self : Strategy) (signal : string)
  (history : list HistoryEntry) : Strategy :=
  {| lookback_period := lookback_period self;
     breakout_threshold := breakout_threshold self;
     volatility_window := volatility_window self;
     momentum_window := momentum_window self;
     sr_strength := sr_strength self;
     warning_count := warning_count self;
     last_signal := Some signal;
     signal_history := history |}.

Definition label_of (latest : Sig) : string :=
  if buy_signal latest then "BUY"%string
  else if sell_signal latest then "SELL"%string
  else "HOLD"%string.

(** The history entry of a call, when one is appended. *)
Definition entry_of (signal : string) (c : Candle) (ind : Ind) (latest : Sig)
  : option HistoryEntry :=
  if negb (F.isna (timestamp c)) && negb (F.isna (close c))
     && negb (F.isna (price_momentum ind))
  then Some {| h_timestamp := timestamp c; h_signal := signal;
               h_price := close c; h_momentum := price_momentum ind;
               h_signal_strength := signal_strength latest;
               h_signal_reason := signal_reason latest |}
  else None.

Definition get_signal_body (flt : Faults) (self : Strategy)
  (klines : list kline) : pyres (option string * Strategy) :=
  if (length klines =? 0)%nat || (length klines <? min_required self)%nat
  then Ok (None, with_warning self)
  else if negb (frame_width klines =? 12)%nat then Ok (None, self)
  else
    let df := clean_numeric (map to_candle klines) in
    if numeric_nan df then Ok (None, self)
    else
      let fr := add_indicators flt self df in
      if fault_facade flt then Raise OtherError
      else if (length (f_candles fr) <? 2)%nat then Ok (None, self)
      else
        match f_sigs fr with
        | None => Ok (None, self)
        | Some sigs =>
            let n := length (f_candles fr) in
            let latest := nth (n - 1) sigs initial_sig in
            let c := nth (n - 1) (f_candles fr) nan_candle in
            let ind := nth (n - 1) (f_inds fr) nan_ind in
            let signal := label_of latest in
            let history :=
              match entry_of signal c ind latest with
              | Some e => history_append e (signal_history self)
              | None => signal_history self
              end in
            Ok (Some signal, with_signal self signal history)
        end.

(** [get_signal]: the whole body is under [try]; the handler logs and
    returns [None]. *)
Definition get_signal (flt : Faults) (self : Strategy) (klines : list kline)
  : option string * Strategy :=
  try_except (get_signal_body flt self klines) (fun _ => (None, self)).

(** ** Sample windows

    Small instances used to exercise the definitions: a strategy with
    three-candle windows and a few twelve-candle windows of klines. *)

Module Sample.

Definition strategy : Strategy :=
  {| lookback_period := 3; breakout_threshold := 0.012;
     volatility_window := 3; momentum_window := 3; sr_strength := 3;
     warning_count := 0; last_signal := None; signal_history := [] |}.

(** A kline record of twelve fields; only the first six are read. *)
Definition kl (t o h l c v : Q) : kline :=
  [Some t; Some o; Some h; Some l; Some c; Some v;
   None; None; None; None; None; None].

Definition quiet (t : Q) : kline := kl t 100 101 99 100 10.

Definition quiet11 : list kline :=
  [quiet 0; quiet 1; quiet 2; quiet 3; quiet 4; quiet 5; quiet 6;
   quiet 7; quiet 8; quiet 9; quiet 10].

(** Eleven quiet candles, then a full-bodied rise on three times the
    volume. *)
Definition breakout : list kline := quiet11 ++ [kl 11 100 103 100 103 30].

(** Twelve quiet candles. *)
Definition flat : list kline := quiet11 ++ [quiet 11].

Definition frame_of (klines : list kline) : Frame :=
  add_indicators no_faults strategy (clean_numeric (map to_candle klines)).

Definition sigs_of (klines : list kline) : list Sig :=
  match f_sigs (frame_of klines) with
  | Some sigs => sigs
  | None => []
  end.

End Sample.

(** ** Zone strength as the specification words it

    The band of a level is [level*(1-w), level*(1+w)]; the trailing window
    of row [i] holds the [lookback] candles before it.  Touches count the
    highs (resistance) or lows (support) inside the band, time in zone the
    closes inside the band, rejections the candles that reached the band
    and closed outside it on the rejecting side. *)

Module ZoneSpec.

Definition band_lower (level : Q) : Q := level * (1 - zone_width).
Definition band_upper (level : Q) : Q := level * (1 + zone_width).

Definition inside (level : Q) (v : fnum) : bool :=
  match v with
  | Some x => Qle_bool (band_lower level) x && Qle_bool x (band_upper level)
  | None => false
  end.

Definition at_or_above_lower (level : Q) (v : fnum) : bool :=
  match v with
  | Some x => Qle_bool (band_lower level) x
  | None => false
  end.

Definition under_lower (level : Q) (v : fnum) : bool :=
  match v with
  | Some x => F.Qltb x (band_lower level)
  | None => false
  end.

Definition at_or_under_upper (level : Q) (v : fnum) : bool :=
  match v with
  | Some x => Qle_bool x (band_upper level)
  | None => false
  end.

Definition over_upper (level : Q) (v : fnum) : bool :=
  match v with
  | Some x => F.Qltb (band_upper level) x
  | None => false
  end.

Definition trailing (lookback i : nat) (df : list Candle) : list Candle :=
  map (fun j => nth j df nan_candle) (seq (i - lookback) lookback).

Definition count (p : Candle -> bool) (w : list Candle) : Z :=
  Z.of_nat (length (filter p w)).

Definition touches_of_highs (level : Q) (w : list Candle) : Z :=
  count (fun c => inside level (high c)) w.

Definition touches_of_lows (level : Q) (w : list Candle) : Z :=
  count (fun c => inside level (low c)) w.

Definition time_in_zone (level : Q) (w : list Candle) : Z :=
  count (fun c => inside level (close c)) w.

(** Resistance is rejected by a candle whose high reached the band and
    whose close is under it. *)
Definition rejections_down (level : Q) (w : list Candle) : Z :=
  count (fun c => at_or_above_lower level (high c)
                  && under_lower level (close c)) w.

(** Support is rejected by a candle whose low reached the band and whose
    close is over it. *)
Definition rejections_up (level : Q) (w : list Candle) : Z :=
  count (fun c => at_or_under_upper level (low c)
                  && over_upper level (close c)) w.

End ZoneSpec.

(** The OHLC ordering of a frame row:
    [low <= min(open, close) <= max(open, close) <= high]. *)
Definition candle_ordered (c : Candle) : bool :=
  (low c <=? F.min (open c) (close c))%F
  && (F.min (open c) (close c) <=? F.max (open c) (close c))%F
  && (F.max (open c) (close c) <=? high c)%F.

Module SampleFaulty.

Import Sample.

(** The last candle closes above its own high. *)
Definition inverted : list kline := quiet11 ++ [kl 11 100 99 98 101 10].

(** The candle three rows before the last one has no range at all. *)
Definition flat_third : list kline :=
  [quiet 0; quiet 1; quiet 2; quiet 3; quiet 4; quiet 5; quiet 6;
   quiet 7; kl 8 100 100 100 100 10; quiet 9; quiet 10;
   kl 11 100 103 100 103 30].

End SampleFaulty.

(** ** Simple returns as the specification words them

    The simple return of a cell is its change relative to the cell before
    it; a cell after a zero has none.  The trailing window holds the last
    [window] cells. *)

Module MathSpec.

(** The trailing [window] cells of a series. *)
Definition trailing {A} (window : nat) (xs : list A) : list A :=
  skipn (length xs - window) xs.

(** The consecutive pairs [(earlier, later)] of a series. *)
Definition pairs (xs : list price) : list (price * price) :=
  combine xs (tl xs).

(** A pair forms a return when its earlier price is a number other than
    zero. *)
Definition formable (pc : price * price) : bool :=
  negb (is_zero_or_none (fst pc)).

(** The later price of the pair is a number. *)
Definition defined (pc : price * price) : bool :=
  match snd pc with
  | Some _ => true
  | None => false
  end.

Definition simple_return (pc : price * price) : Q :=
  match pc with
  | (Some p, Some c) => (c - p) / p
  | _ => 0
  end.

(** The simple returns of a series: one for each pair that forms one. *)
Definition simple_returns (xs : list price) : list Q :=
  map simple_return (filter formable (pairs xs)).

End MathSpec.

(** ** The outcome of a call apart from the instance it updates

    Every exit of [get_signal] returns a value and updates the instance in
    one of three ways; [verdict_of] is the exit taken and [apply_verdict]
    the update. *)

Inductive Verdict : Type :=
| Insufficient
    (* too few klines: the warning counter is bumped *)
| NoSignal
    (* [None] is returned, the instance is left alone *)
| Answer (signal : string) (entry : option HistoryEntry).
    (* a label is returned and stored; an entry may be appended *)

Definition verdict_of (flt : Faults) (self : Strategy)
  (klines : list kline) : pyres Verdict :=
  if (length klines =? 0)%nat || (length klines <? min_required self)%nat
  then Ok Insufficient
  else if negb (frame_width klines =? 12)%nat then Ok NoSignal
  else
    let df := clean_numeric (map to_candle klines) in
    if numeric_nan df then Ok NoSignal
    else
      let fr := add_indicators flt self df in
      if fault_facade flt then Raise OtherError
      else if (length (f_candles fr) <? 2)%nat then Ok NoSignal
      else
        match f_sigs fr with
        | None => Ok NoSignal
        | Some sigs =>
            let n := length (f_candles fr) in
            let latest := nth (n - 1) sigs initial_sig in
            let c := nth (n - 1) (f_candles fr) nan_candle in
            let ind := nth (n - 1) (f_inds fr) nan_ind in
            Ok (Answer (label_of latest)
                       (entry_of (label_of latest) c ind latest))
        end.

Definition apply_verdict (self : Strategy) (v : Verdict)
  : option string * Strategy :=
  match v with
  | Insufficient => (None, with_warning self)
  | NoSignal => (None, self)
  | Answer signal entry =>
      (Some signal,
       with_signal self signal
         match entry with
         | Some e => history_append e (signal_history self)
         | None => signal_history self
         end)
  end.

(** ** [find_support_resistance]

    A high is a resistance level when no other high of the window of
    radius [strength] around it reaches it; lows are treated the other way
    round.  [reaches a b] is the test that ends the inner loop: [a >= b] on
    highs, [a <= b] on lows. *)

Definition reaches_high (a b : Q) : bool := Qle_bool b a.
Definition reaches_low (a b : Q) : bool := Qle_bool a b.

(** The inner loop [for j in range(i - strength, i + strength + 1)]. *)
Definition is_level (reaches : Q -> Q -> bool) (xs : list Q)
  (strength i : nat) : bool :=
  forallb (fun j => (j =? i)%nat || negb (reaches (nth j xs 0%Q) (nth i xs 0%Q)))
          (seq (i - strength) (i + strength + 1 - (i - strength))).

(** The outer loop [for i in range(strength, len(xs) - strength)]. *)
Definition level_indices (reaches : Q -> Q -> bool) (xs : list Q)
  (strength : nat) : list nat :=
  filter (is_level reaches xs strength)
         (seq strength (length xs - strength - strength)).

Definition levels (reaches : Q -> Q -> bool) (xs : list Q) (strength : nat)
  : list Q :=
  map (fun i => nth i xs 0%Q) (level_indices reaches xs strength).

Definition find_support_resistance (highs lows : list Q) (strength : nat)
  : list Q * list Q :=
  if (length highs <? strength * 2 + 1)%nat
     || (length lows <? strength * 2 + 1)%nat
  then ([], [])
  else (levels reaches_high highs strength, levels reaches_low lows strength).

(** ** [analyze_support_resistance_action] *)

Record Analysis : Type := {
  resistance_breakout : bool;
  resistance_rejection : bool;
  support_breakdown : bool;
  support_rejection : bool;
  action_type : string;
  strength : Z
}.

Definition no_action : Analysis :=
  {| resistance_breakout := false; resistance_rejection := false;
     support_breakdown := false; support_rejection := false;
     action_type := "none"; strength := 0 |}.

(** [int(x)] on a float: truncation towards zero. *)
Definition py_int (x : Q) : Z := Z.quot (Qnum x) (Zpos (Qden x)).

(** [min(5, int(move / level * 500))]. *)
Definition action_strength (move level : Q) : Z :=
  Z.min 5 (py_int (move / level * 500)%Q).

(** The resistance half: an [if] / [elif] on the dict. *)
Definition resistance_action (c r : Q) (high_price prev_close : fnum)
  (a : Analysis) : Analysis :=
  if F.Qltb 0 r then
    if F.Qltb (r * 1.002) c then
      {| resistance_breakout := true;
         resistance_rejection := resistance_rejection a;
         support_breakdown := support_breakdown a;
         support_rejection := support_rejection a;
         action_type := "resistance_breakout";
         strength := action_strength (c - r) r |}
    else if (high_price >=? k (r * 0.998))%F && F.Qltb c (r * 0.995)
            && (prev_close <? k r)%F
    then
      {| resistance_breakout := resistance_breakout a;
         resistance_rejection := true;
         support_breakdown := support_breakdown a;
         support_rejection := support_rejection a;
         action_type := "resistance_rejection";
         strength := action_strength (r - c) r |}
    else a
  else a.

(** The support half. *)
Definition support_action (c s : Q) (low_price prev_close : fnum)
  (a : Analysis) : Analysis :=
  if F.Qltb 0 s then
    if F.Qltb c (s * 0.998) then
      {| resistance_breakout := resistance_breakout a;
         resistance_rejection := resistance_rejection a;
         support_breakdown := true;
         support_rejection := support_rejection a;
         action_type := "support_breakdown";
         strength := action_strength (s - c) s |}
    else if (low_price <=? k (s * 1.002))%F && F.Qltb (s * 1.005) c
            && (prev_close >? k s)%F
    then
      {| resistance_breakout := resistance_breakout a;
         resistance_rejection := resistance_rejection a;
         support_breakdown := support_breakdown a;
         support_rejection := true;
         action_type := "support_rejection";
         strength := action_strength (c - s) s |}
    else a
  else a.

(** [None] is the empty dict returned for an index out of range. *)
Definition analyze_support_resistance_action (df : list Candle)
  (inds : list Ind) (index : nat) : option Analysis :=
  if (index <? 1)%nat || (length df <=? index)%nat then None
  else
    let current := nth index df nan_candle in
    let previous := nth (index - 1) df nan_candle in
    let ind := nth index inds nan_ind in
    if existsb invalid_price [close current; resistance ind; support ind]
    then Some no_action
    else
      match close current, resistance ind, support ind with
      | Some c, Some r, Some s =>
          Some (support_action c s (low current) (close previous)
                  (resistance_action c r (high current) (close previous)
                     no_action))
      | _, _, _ => Some no_action
      end.

(** ** Polling

    The caller invokes [get_signal] once per cycle on the instance as the
    previous cycle left it; [poll] runs the instance through a list of
    windows, oldest first. *)

Definition poll (flt : Faults) (self : Strategy)
  (windows : list (list kline)) : Strategy :=
  fold_left (fun s klines => snd (get_signal flt s klines)) windows self.

(** Two instances with the same tuning parameters. *)
Definition same_parameters (s s' : Strategy) : Prop :=
  lookback_period s' = lookback_period s
  /\ breakout_threshold s' = breakout_threshold s
  /\ volatility_window s' = volatility_window s
  /\ momentum_window s' = momentum_window s
  /\ sr_strength s' = sr_strength s.

(** A part of a score: nothing, or a positive amount with its reasons. *)
Definition score_part (hi : Z) (p : Z * list reason) : Prop :=
  (0 <= fst p <= hi)%Z
  /\ (fst p = 0%Z <-> snd p = [])
  /\ (fst p = 0 \/ 2 <= fst p)%Z.

(** A column with no number in it. *)
Definition all_nan (col : list fnum) : bool := forallb F.isna col.

(** A set of numbers closed under taking a point between two of its
    members. *)
Definition convex (P : Q -> Prop) : Prop :=
  forall a b t : Q, P a -> P b -> (0 <= t <= 1)%Q -> P (a + (b - a) * t)%Q.

(** The column that a NaN-cleaning pass leaves. *)
Definition cleaned (col : list fnum) : list fnum :=
  if has_nan col then repair col else col.

(** A report with some flag set, and what every report satisfies. *)
Definition flagged (a : Analysis) : bool :=
  resistance_breakout a || resistance_rejection a
  || support_breakdown a || support_rejection a.

Definition sound_report (a : Analysis) : Prop :=
  resistance_breakout a && resistance_rejection a = false
  /\ support_breakdown a && support_rejection a = false
  /\ (0 <= strength a <= 5)%Z
  /\ (flagged a = false -> a = no_action)
  /\ (flagged a = true ->
      (1 <= strength a)%Z /\ action_type a <> "none"%string).

(** A frame in which the cleaning pass of [add_indicators] finds nothing
    to repair: no NaN close, and no open, high, low or close that is
    [<= 0]. *)
Definition tidy (df : list Candle) : bool :=
  negb (has_nan (map close df))
  && forallb (fun get => negb (has_nonpositive (map get df)))
             [open; high; low; close].

(** ** Windows at the edges of the facade's checks *)

Module SampleEdge.

(** Eleven quiet candles and one far below them. *)
Definition dip : list Candle :=
  map to_candle (Sample.quiet11 ++ [Sample.kl 11 94.5 95 94 94.5 10]).

(** A quiet candle: its high, 101, is the resistance level of the rows
    around it. *)
Definition touch : Candle := to_candle (Sample.quiet 12).

(** The window [Sample.breakout] with the first eleven records cut down to
    their first six fields. *)
Definition ragged : list kline :=
  map (firstn 6) Sample.quiet11 ++ [Sample.kl 11 100 103 100 103 30].

(** Twelve records whose close is 0. *)
Definition zero_close : list kline :=
  map (fun t => Sample.kl (inject_Z (Z.of_nat t)) 100 101 99 0 10)
      (seq 0 12).

End SampleEdge.

(** * Properties *)

(** ** Writing a row and running a row loop *)

Section RowLoop.

Context {R : Type}.
Variable d : R.
Variable fault : nat -> bool.
Variable write : nat -> R -> option R.

Lemma length_set_at (i : nat) (v : R) (l : list R) :
  length (set_at i v l) = length l.
Proof.
  revert i; induction l as [|a l IH]; intros [|i]; simpl; auto.
Qed.

Lemma nth_set_at_same (i : nat) (v : R) (l : list R) :
  (i < length l)%nat -> nth i (set_at i v l) d = v.
Proof.
  revert i; induction l as [|a l IH]; intros [|i] H; simpl in *;
    try lia; auto.
  apply IH; lia.
Qed.

Lemma nth_set_at_other (i j : nat) (v : R) (l : list R) :
  i <> j -> nth j (set_at i v l) d = nth j l d.
Proof.
  revert i j; induction l as [|a l IH]; intros [|i] [|j] H; simpl;
    auto; try congruence.
Qed.

Lemma nth_set_at_beyond (i : nat) (v : R) (l : list R) :
  (length l <= i)%nat -> set_at i v l = l.
Proof.
  revert i; induction l as [|a l IH]; intros [|i] H; simpl in *;
    auto; try lia.
  f_equal; apply IH; lia.
Qed.

Let step := row_step d fault write.

Lemma row_step_length (i : nat) (tbl tbl' : list R) :
  step i tbl = Ok tbl' -> length tbl' = length tbl.
Proof.
  unfold step, row_step.
  destruct (fault i); [discriminate|].
  destruct (write i (nth i tbl d)); intros H; inversion H; subst; auto.
  apply length_set_at.
Qed.

Lemma run_loop_length (idx : list nat) (tbl : list R) :
  length (fst (run_loop step idx tbl)) = length tbl.
Proof.
  revert tbl; induction idx as [|i idx IH]; intros tbl; simpl; auto.
  destruct (step i tbl) as [tbl'|e] eqn:E; simpl; auto.
  rewrite IH. eapply row_step_length; eauto.
Qed.

(** A row of the result is the row of the input, or what its own
    iteration wrote from the row of the input. *)
Lemma run_loop_cases (idx : list nat) :
  NoDup idx -> forall (tbl : list R) (i : nat),
  nth i (fst (run_loop step idx tbl)) d = nth i tbl d
  \/ (In i idx /\ (i < length tbl)%nat /\ fault i = false
      /\ write i (nth i tbl d)
         = Some (nth i (fst (run_loop step idx tbl)) d)).
Proof.
  induction idx as [|a idx IH]; intros ND tbl i; simpl; auto.
  inversion ND as [|? ? Hnotin ND']; subst.
  unfold step at 1 3, row_step.
  destruct (fault a) eqn:Fa; simpl; auto.
  destruct (write a (nth a tbl d)) as [r|] eqn:W.
  - destruct (IH ND' (set_at a r tbl) i) as [H|(Hin & Hlen & Hf & Hw)].
    + destruct (Nat.eq_dec a i) as [->|Hne].
      * destruct (Nat.lt_ge_cases i (length tbl)) as [Hlt|Hge].
        -- right. rewrite H, nth_set_at_same by assumption. auto.
        -- left. rewrite H, nth_set_at_beyond by assumption. reflexivity.
      * left. rewrite H. apply nth_set_at_other; assumption.
    + right. assert (a <> i) by (intros ->; contradiction).
      rewrite length_set_at in Hlen.
      rewrite nth_set_at_other in Hw by assumption. auto.
  - destruct (IH ND' tbl i) as [H|(Hin & Hlen & Hf & Hw)];
      [left|right]; auto.
Qed.

(** When no iteration up to [i] raises, row [i] is written by its own
    iteration, whatever happens later. *)
Lemma run_loop_at (pre : list nat) (i : nat) (post : list nat) :
  NoDup (pre ++ i :: post) ->
  forall tbl : list R,
  (i < length tbl)%nat ->
  (forall j, In j pre -> fault j = false) -> fault i = false ->
  nth i (fst (run_loop step (pre ++ i :: post) tbl)) d
  = match write i (nth i tbl d) with
    | Some r => r
    | None => nth i tbl d
    end.
Proof.
  induction pre as [|a pre IH]; intros ND tbl Hlen Hpre Hi; simpl.
  - inversion ND as [|? ? Hnotin ND']; subst.
    unfold step at 1, row_step. rewrite Hi.
    destruct (write i (nth i tbl d)) as [r|] eqn:W.
    + destruct (run_loop_cases ND' (set_at i r tbl) i)
        as [H|(Hin & _)]; [|contradiction].
      rewrite H. apply nth_set_at_same; assumption.
    + destruct (run_loop_cases ND' tbl i) as [H|(Hin & _)];
        [assumption|contradiction].
  - simpl in ND. inversion ND as [|? ? Hnotin ND']; subst.
    assert (a <> i) by (intros ->; apply Hnotin, in_elt).
    unfold step at 1, row_step. rewrite (Hpre a) by (left; reflexivity).
    destruct (write a (nth a tbl d)) as [r|] eqn:W.
    + rewrite IH; auto.
      * rewrite nth_set_at_other by assumption. reflexivity.
      * rewrite length_set_at; assumption.
      * intros j Hj; apply Hpre; right; assumption.
    + apply IH; auto. intros j Hj; apply Hpre; right; assumption.
Qed.

Lemma row_loop_length (a n : nat) (init : list R) :
  length (row_loop d fault write a n init) = length init.
Proof. apply run_loop_length. Qed.

Lemma row_loop_cases (a n : nat) (init : list R) (i : nat) :
  nth i (row_loop d fault write a n init) d = nth i init d
  \/ ((a <= i < n)%nat /\ (i < length init)%nat /\ fault i = false
      /\ write i (nth i init d)
         = Some (nth i (row_loop d fault write a n init) d)).
Proof.
  unfold row_loop.
  destruct (run_loop_cases (seq_NoDup (n - a) a) init i)
    as [H|(Hin & Hlen & Hf & Hw)]; auto.
  right. apply in_seq in Hin. repeat split; auto; lia.
Qed.

Lemma row_loop_at (a n : nat) (init : list R) (i : nat) :
  (a <= i < n)%nat -> (i < length init)%nat ->
  (forall j, (a <= j <= i)%nat -> fault j = false) ->
  nth i (row_loop d fault write a n init) d
  = match write i (nth i init d) with
    | Some r => r
    | None => nth i init d
    end.
Proof.
  intros Hi Hlen Hf. unfold row_loop.
  assert (E : seq a (n - a)
              = seq a (i - a) ++ i :: seq (S i) (n - S i)).
  { replace (n - a)%nat with ((i - a) + S (n - S i))%nat by lia.
    rewrite seq_app. simpl. repeat f_equal; lia. }
  pose proof (seq_NoDup (n - a) a) as ND. rewrite E in ND |- *.
  apply run_loop_at; auto.
  - intros j Hj. apply in_seq in Hj. apply Hf; lia.
  - apply Hf; lia.
Qed.

Lemma row_loop_before (a n : nat) (init : list R) (i : nat) :
  (i < a)%nat \/ (n <= i)%nat ->
  nth i (row_loop d fault write a n init) d = nth i init d.
Proof.
  intros Hi. destruct (row_loop_cases a n init i) as [H|(Hr & _)];
    [assumption|lia].
Qed.

End RowLoop.

Lemma nth_repeat_same {A} (a : A) (n i : nat) : nth i (repeat a n) a = a.
Proof.
  revert i; induction n as [|n IH]; intros [|i]; simpl; auto.
Qed.

(** ** The decision rule *)

Lemma generated_row (flt : Faults) (self : Strategy) (df : list Candle)
  (inds : list Ind) (zones : list ZoneCount) (flags : list Flags) (i : nat) :
  (first_scored self <= i < length df)%nat ->
  (forall j, (first_scored self <= j <= i)%nat -> fault_signals flt j = false) ->
  nth i (generate_price_action_signals flt self df inds zones flags)
      initial_sig
  = match signal_write df inds zones flags i initial_sig with
    | Some r => r
    | None => initial_sig
    end.
Proof.
  intros Hi Hf. unfold generate_price_action_signals.
  rewrite row_loop_at; auto.
  - rewrite nth_repeat_same. reflexivity.
  - rewrite repeat_length. lia.
Qed.

Lemma decide_initial (b s : Z) (rs : list reason) :
  let row := decide b s rs initial_sig in
  (buy_signal row = true <-> (min_signal_strength <= b /\ b > s + 1)%Z)
  /\ (sell_signal row = true <-> (min_signal_strength <= s /\ s > b + 1)%Z)
  /\ (hold_signal row = true
      <-> ~ (min_signal_strength <= b /\ b > s + 1)%Z
          /\ ~ (min_signal_strength <= s /\ s > b + 1)%Z).
Proof.
  unfold decide.
  destruct (Z.leb_spec min_signal_strength b);
    destruct (Z.ltb_spec (s + 1) b);
    destruct (Z.leb_spec min_signal_strength s);
    destruct (Z.ltb_spec (b + 1) s); simpl;
    repeat split; intros; try discriminate; try lia; try tauto.
Qed.

(** C1.  A row that reaches the decision stage (it lies in the range of the
    scoring loop, no earlier iteration raised, and its close, resistance and
    support pass the first test) is marked BUY exactly when
    [buy_score >= min_signal_strength] and [buy_score > sell_score + 1],
    SELL exactly under the symmetric condition, and stays HOLD in every
    other case; the threshold is 3, and a 3-3 tie is HOLD. *)
Theorem decision_rule (flt : Faults) (self : Strategy) (df : list Candle)
  (inds : list Ind) (zones : list ZoneCount) (flags : list Flags) (i : nat)
  (buy_score sell_score : Z) (signal_reasons : list reason) :
  (first_scored self <= i < length df)%nat ->
  (forall j, (first_scored self <= j <= i)%nat ->
             fault_signals flt j = false) ->
  reaches_decision df inds i = true ->
  row_scores df inds zones flags i = (buy_score, sell_score, signal_reasons) ->
  let row :=
    nth i (generate_price_action_signals flt self df inds zones flags)
        initial_sig in
  let buy_wins := (min_signal_strength <= buy_score
                   /\ buy_score > sell_score + 1)%Z in
  let sell_wins := (min_signal_strength <= sell_score
                    /\ sell_score > buy_score + 1)%Z in
  min_signal_strength = 3%Z
  /\ (buy_signal row = true <-> buy_wins)
  /\ (sell_signal row = true <-> sell_wins)
  /\ (hold_signal row = true <-> ~ buy_wins /\ ~ sell_wins)
  /\ (buy_score = 3%Z -> sell_score = 3%Z ->
      buy_signal row = false /\ sell_signal row = false
      /\ hold_signal row = true).
Proof.
  intros Hi Hf Hreach Hscores row buy_wins sell_wins.
  assert (E : row = decide buy_score sell_score signal_reasons initial_sig).
  { unfold row. rewrite generated_row by assumption.
    unfold signal_write. rewrite Hreach, Hscores. reflexivity. }
  destruct (decide_initial buy_score sell_score signal_reasons)
    as (Hb & Hs & Hh).
  rewrite <- E in Hb, Hs, Hh.
  split; [reflexivity|].
  split; [exact Hb|]. split; [exact Hs|]. split; [exact Hh|].
  intros -> ->. unfold min_signal_strength in *.
  destruct (buy_signal row); destruct (sell_signal row);
    destruct (hold_signal row); repeat split; auto;
    try (exfalso; lia); try (apply Hh; lia);
    try (destruct Hb as [Hb _]; specialize (Hb eq_refl); lia);
    try (destruct Hs as [Hs _]; specialize (Hs eq_refl); lia).
Qed.

Lemma decision_rule_witness :
  let fr := Sample.frame_of Sample.breakout in
  let row :=
    nth 11 (generate_price_action_signals no_faults Sample.strategy
              (f_candles fr) (f_inds fr) (f_zones fr) (f_flags fr))
        initial_sig in
  row_scores (f_candles fr) (f_inds fr) (f_zones fr) (f_flags fr) 11
  = (5%Z, 0%Z, [LevelReason "Strong Resistance Breakout" (Some 103%Q)])
  /\ buy_signal row = true /\ sell_signal row = false.
Proof.
  intros fr row.
  assert (Hs : row_scores (f_candles fr) (f_inds fr) (f_zones fr)
                 (f_flags fr) 11
               = (5%Z, 0%Z,
                  [LevelReason "Strong Resistance Breakout" (Some 103%Q)]))
    by (vm_compute; reflexivity).
  split; [exact Hs|].
  assert (Hlen : (first_scored Sample.strategy <= 11
                  < length (f_candles fr))%nat) by (vm_compute; lia).
  assert (Hreach : reaches_decision (f_candles fr) (f_inds fr) 11 = true)
    by (vm_compute; reflexivity).
  destruct (@decision_rule no_faults Sample.strategy (f_candles fr)
              (f_inds fr) (f_zones fr) (f_flags fr) 11 5%Z 0%Z _
              Hlen (fun _ _ => eq_refl) Hreach Hs)
    as (_ & Hb & Hsell & _).
  split.
  - apply Hb. unfold min_signal_strength. lia.
  - destruct Hsell as [Hsell _].
    destruct (sell_signal _); [|reflexivity].
    specialize (Hsell eq_refl). lia.
Defined.

(** ** One signal flag per row *)

Definition exactly_one (a b c : bool) : Prop :=
  (a = true /\ b = false /\ c = false)
  \/ (a = false /\ b = true /\ c = false)
  \/ (a = false /\ b = false /\ c = true).

Lemma decide_initial_one_hot (b s : Z) (rs : list reason) :
  let row := decide b s rs initial_sig in
  exactly_one (buy_signal row) (sell_signal row) (hold_signal row).
Proof.
  unfold decide, exactly_one.
  destruct (_ && _); simpl; [tauto|].
  destruct (_ && _); simpl; tauto.
Qed.

Lemma generated_rows_one_hot (flt : Faults) (self : Strategy)
  (df : list Candle) (inds : list Ind) (zones : list ZoneCount)
  (flags : list Flags) (i : nat) :
  let row :=
    nth i (generate_price_action_signals flt self df inds zones flags)
        initial_sig in
  exactly_one (buy_signal row) (sell_signal row) (hold_signal row).
Proof.
  intros row. unfold row, generate_price_action_signals.
  destruct (row_loop_cases initial_sig (fault_signals flt)
              (signal_write df inds zones flags) (first_scored self)
              (length df) (repeat initial_sig (length df)) i)
    as [H|(_ & _ & _ & H)].
  - rewrite H, nth_repeat_same. unfold exactly_one; simpl; tauto.
  - rewrite nth_repeat_same in H.
    set (r := nth i _ initial_sig) in *. clearbody r.
    unfold signal_write in H.
    destruct (negb _); [discriminate|].
    destruct (row_scores df inds zones flags i) as [[b s] rs].
    injection H as <-. apply decide_initial_one_hot.
Qed.

(** C2.  In the table that signal generation leaves in the enriched frame,
    whatever iteration raised or not, every row has exactly one of
    [buy_signal], [sell_signal], [hold_signal] set, and [hold_signal] is the
    negation of [buy_signal or sell_signal]. *)
Theorem one_signal_per_row (flt : Faults) (self : Strategy)
  (df : list Candle) (sigs : list Sig) (row : Sig) :
  f_sigs (add_indicators flt self df) = Some sigs ->
  In row sigs ->
  exactly_one (buy_signal row) (sell_signal row) (hold_signal row)
  /\ hold_signal row = negb (buy_signal row || sell_signal row).
Proof.
  intros Hfr Hin.
  assert (H1 : exactly_one (buy_signal row) (sell_signal row)
                           (hold_signal row)).
  { unfold add_indicators in Hfr.
    destruct (_ <? _)%nat; [discriminate|].
    destruct (fault_enrich flt); [discriminate|].
    simpl in Hfr. injection Hfr as <-.
    destruct (In_nth _ _ initial_sig Hin) as (i & _ & <-).
    apply generated_rows_one_hot. }
  split; [exact H1|].
  destruct H1 as [(-> & -> & ->)|[(-> & -> & ->)|(-> & -> & ->)]];
    reflexivity.
Qed.

Lemma one_signal_per_row_witness :
  let row := nth 11 (Sample.sigs_of Sample.breakout) initial_sig in
  f_sigs (Sample.frame_of Sample.breakout)
  = Some (Sample.sigs_of Sample.breakout)
  /\ In row (Sample.sigs_of Sample.breakout)
  /\ exactly_one (buy_signal row) (sell_signal row) (hold_signal row)
  /\ hold_signal row = negb (buy_signal row || sell_signal row).
Proof.
  intros row.
  assert (E : f_sigs (Sample.frame_of Sample.breakout)
              = Some (Sample.sigs_of Sample.breakout))
    by (vm_compute; reflexivity).
  assert (Hin : In row (Sample.sigs_of Sample.breakout))
    by (apply nth_In; vm_compute; lia).
  split; [exact E|]. split; [exact Hin|].
  exact (@one_signal_per_row no_faults Sample.strategy
           (clean_numeric (map to_candle Sample.breakout))
           (Sample.sigs_of Sample.breakout) row E Hin).
Defined.

(** ** Zone strength *)

Lemma Qltb_lt (a b : Q) : F.Qltb a b = true <-> (a < b)%Q.
Proof.
  unfold F.Qltb. rewrite negb_true_iff.
  destruct (Qle_bool b a) eqn:E.
  - apply Qle_bool_iff in E. split; [discriminate|].
    intros H. exfalso. apply (Qlt_not_le _ _ H). exact E.
  - split; [|reflexivity]. intros _. apply Qnot_le_lt.
    intros H. apply Qle_bool_iff in H. congruence.
Qed.

Lemma valid_level_pos (level : Q) :
  (0 < level)%Q -> valid_level (Some level) = true.
Proof.
  intros H. unfold valid_level, F.gt, F.lt, F.cmp, k. simpl.
  apply Qltb_lt. exact H.
Qed.

Lemma firstn_nth {A} (d : A) (n : nat) (l : list A) :
  (n <= length l)%nat ->
  firstn n l = map (fun j => nth j l d) (seq 0 n).
Proof.
  revert l. induction n as [|n IH]; intros l H; [reflexivity|].
  destruct l as [|x l]; simpl in H; [lia|].
  cbn [firstn seq map nth]. f_equal.
  rewrite <- seq_shift, map_map. cbn [nth]. apply IH. lia.
Qed.

Lemma firstn_skipn_nth {A} (d : A) (n a : nat) (l : list A) :
  (a + n <= length l)%nat ->
  firstn n (skipn a l) = map (fun j => nth j l d) (seq a n).
Proof.
  revert l. induction a as [|a IH]; intros l H.
  - apply firstn_nth. simpl in H. exact H.
  - destruct l as [|x l]; simpl in H; [lia|].
    cbn [skipn]. rewrite IH by lia.
    rewrite <- (seq_shift n a), map_map. reflexivity.
Qed.

Lemma slice_trailing (lookback i : nat) (df : list Candle) :
  (lookback <= i <= length df)%nat ->
  slice (i - lookback) i df = ZoneSpec.trailing lookback i df.
Proof.
  intros H. unfold slice, ZoneSpec.trailing.
  replace (i - (i - lookback))%nat with lookback by lia.
  apply firstn_skipn_nth. lia.
Qed.

Lemma count_rows_ext (p q : Candle -> bool) (w : list Candle) :
  (forall c, p c = q c) -> count_rows p w = ZoneSpec.count q w.
Proof.
  intros H. unfold count_rows, ZoneSpec.count.
  rewrite (filter_ext _ _ H). reflexivity.
Qed.

Section BandTests.

Variable level : Q.
Variable w : list Candle.

Let zone_lower : fnum := (Some level * k (1 - zone_width))%F.
Let zone_upper : fnum := (Some level * k (1 + zone_width))%F.

Lemma inside_test (get : Candle -> fnum) :
  count_rows (fun c => (get c >=? zone_lower)%F
                       && (get c <=? zone_upper)%F) w
  = ZoneSpec.count (fun c => ZoneSpec.inside level (get c)) w.
Proof.
  apply count_rows_ext. intros c. destruct (get c); reflexivity.
Qed.

Lemma rejection_down_test :
  count_rows (fun c => (high c >=? zone_lower)%F
                       && (close c <? zone_lower)%F) w
  = ZoneSpec.rejections_down level w.
Proof.
  apply count_rows_ext. intros c.
  destruct (high c), (close c); reflexivity.
Qed.

Lemma rejection_up_test :
  count_rows (fun c => (low c <=? zone_upper)%F
                       && (close c >? zone_upper)%F) w
  = ZoneSpec.rejections_up level w.
Proof.
  apply count_rows_ext. intros c.
  destruct (low c), (close c); reflexivity.
Qed.

Lemma resistance_counts_spec :
  resistance_counts (Some level) w
  = (ZoneSpec.touches_of_highs level w,
     (ZoneSpec.touches_of_highs level w + ZoneSpec.time_in_zone level w
      + 2 * ZoneSpec.rejections_down level w)%Z).
Proof.
  unfold resistance_counts. cbv zeta.
  fold zone_lower zone_upper.
  rewrite (inside_test high), (inside_test close), rejection_down_test.
  unfold ZoneSpec.touches_of_highs, ZoneSpec.time_in_zone, strength_of.
  f_equal. lia.
Qed.

Lemma support_counts_spec :
  support_counts (Some level) w
  = (ZoneSpec.touches_of_lows level w,
     (ZoneSpec.touches_of_lows level w + ZoneSpec.time_in_zone level w
      + 2 * ZoneSpec.rejections_up level w)%Z).
Proof.
  unfold support_counts. cbv zeta.
  fold zone_lower zone_upper.
  rewrite (inside_test low), (inside_test close), rejection_up_test.
  unfold ZoneSpec.touches_of_lows, ZoneSpec.time_in_zone, strength_of.
  f_equal. lia.
Qed.

End BandTests.

Lemma count_rows_nonneg {A} (p : A -> bool) (w : list A) :
  (0 <= count_rows p w)%Z.
Proof. unfold count_rows. lia. Qed.

Definition nonneg_zone (z : ZoneCount) : Prop :=
  (0 <= resistance_touches z /\ 0 <= support_touches z
   /\ 0 <= resistance_zone_strength z /\ 0 <= support_zone_strength z)%Z.

Lemma zone_row_nonneg (self : Strategy) (df : list Candle) (inds : list Ind)
  (i : nat) (z : ZoneCount) :
  nonneg_zone z -> nonneg_zone (zone_row self df inds i z).
Proof.
  intros (H1 & H2 & H3 & H4). unfold zone_row, nonneg_zone.
  unfold resistance_counts, support_counts, strength_of.
  pose proof (@count_rows_nonneg Candle) as P.
  destruct (valid_level (resistance _)), (valid_level (support _)); simpl;
    repeat split; auto;
    repeat match goal with
           | |- context [count_rows ?p ?w] =>
               let H := fresh in
               pose proof (P p w) as H; generalize dependent (count_rows p w);
               intros
           end; lia.
Qed.

Lemma zone_loop_row (self : Strategy) (df : list Candle) (inds : list Ind)
  (i : nat) :
  (lookback_period self <= i < length df)%nat ->
  nth i (zone_loop self df inds) zero_zone
  = zone_row self df inds i zero_zone.
Proof.
  intros H. unfold zone_loop.
  rewrite row_loop_at; auto.
  - rewrite nth_repeat_same. reflexivity.
  - rewrite repeat_length. lia.
Qed.

Lemma zone_loop_nonneg (self : Strategy) (df : list Candle)
  (inds : list Ind) (j : nat) :
  nonneg_zone (nth j (zone_loop self df inds) zero_zone).
Proof.
  unfold zone_loop.
  destruct (row_loop_cases zero_zone never
              (fun i z => Some (zone_row self df inds i z))
              (lookback_period self) (length df)
              (repeat zero_zone (length df)) j)
    as [H|(_ & _ & _ & H)].
  - rewrite H, nth_repeat_same. unfold nonneg_zone; simpl; lia.
  - rewrite nth_repeat_same in H. injection H as H. rewrite <- H.
    apply zone_row_nonneg. unfold nonneg_zone; simpl; lia.
Qed.

(** C3.  For every row [i] from [lookback_period] onward whose level is a
    positive number, the strength that the zone loop stores is
    [touches + time_in_zone + 2 * rejections], each counted over the
    trailing window of [i] against the band of the level: highs inside the
    band for resistance, lows for support, closes inside the band, candles
    that reached the band and closed outside on the rejecting side.  Every
    stored strength is non-negative. *)
Theorem zone_strength_formula (self : Strategy) (df : list Candle)
  (i : nat) :
  (lookback_period self <= i < length df)%nat ->
  let inds := indicators self df in
  let zones := zone_loop self df inds in
  let z := nth i zones zero_zone in
  let w := ZoneSpec.trailing (lookback_period self) i df in
  (forall level : Q,
      resistance (nth i inds nan_ind) = Some level -> (0 < level)%Q ->
      resistance_touches z = ZoneSpec.touches_of_highs level w
      /\ resistance_zone_strength z
         = (ZoneSpec.touches_of_highs level w + ZoneSpec.time_in_zone level w
            + 2 * ZoneSpec.rejections_down level w)%Z)
  /\ (forall level : Q,
         support (nth i inds nan_ind) = Some level -> (0 < level)%Q ->
         support_touches z = ZoneSpec.touches_of_lows level w
         /\ support_zone_strength z
            = (ZoneSpec.touches_of_lows level w
               + ZoneSpec.time_in_zone level w
               + 2 * ZoneSpec.rejections_up level w)%Z)
  /\ (forall j : nat,
         (0 <= resistance_zone_strength (nth j zones zero_zone))%Z
         /\ (0 <= support_zone_strength (nth j zones zero_zone))%Z).
Proof.
  intros Hi inds zones z w.
  assert (Ez : z = zone_row self df inds i zero_zone)
    by (apply zone_loop_row; exact Hi).
  assert (Ew : slice (i - lookback_period self) i df = w)
    by (apply slice_trailing; lia).
  split; [|split].
  - intros level Hl Hpos. rewrite Ez. unfold zone_row.
    rewrite Ew, Hl, (valid_level_pos Hpos), resistance_counts_spec.
    destruct (valid_level (support _));
      [destruct (support_counts _ _)|]; simpl; auto.
  - intros level Hl Hpos. rewrite Ez. unfold zone_row.
    rewrite Ew, Hl, (valid_level_pos Hpos), support_counts_spec.
    simpl; auto.
  - intros j. destruct (zone_loop_nonneg self df inds j) as (_ & _ & H3 & H4).
    split; assumption.
Qed.

Lemma zone_strength_formula_witness :
  let df := clean_numeric (map to_candle Sample.breakout) in
  let inds := indicators Sample.strategy df in
  let z := nth 10 (zone_loop Sample.strategy df inds) zero_zone in
  (lookback_period Sample.strategy <= 10 < length df)%nat
  /\ resistance (nth 10 inds nan_ind) = Some 101%Q
  /\ resistance_touches z = 3%Z
  /\ resistance_zone_strength z = 9%Z.
Proof.
  intros df inds z.
  assert (Hi : (lookback_period Sample.strategy <= 10 < length df)%nat)
    by (vm_compute; lia).
  assert (Hl : resistance (nth 10 inds nan_ind) = Some 101%Q)
    by (vm_compute; reflexivity).
  split; [exact Hi|]. split; [exact Hl|].
  destruct (@zone_strength_formula Sample.strategy df 10 Hi) as (Hr & _ & _).
  destruct (Hr 101%Q Hl) as (Ht & Hs); [reflexivity|].
  split.
  - etransitivity; [exact Ht|]. vm_compute. reflexivity.
  - etransitivity; [exact Hs|]. vm_compute. reflexivity.
Defined.

(** ** Zone strength under added candles *)

Lemma count_rows_insert {A} (p : A -> bool) (pre post : list A) (c : A) :
  count_rows p (pre ++ c :: post)
  = (count_rows p (pre ++ post) + (if p c then 1 else 0))%Z.
Proof.
  unfold count_rows. rewrite !filter_app. simpl.
  destruct (p c); rewrite !length_app; simpl; lia.
Qed.

Lemma firstn_skipn_app {A} (n a : nat) (l l' : list A) :
  (a + n <= length l)%nat ->
  firstn n (skipn a (l ++ l')) = firstn n (skipn a l).
Proof.
  revert l. induction a as [|a IH]; intros l H.
  - simpl in *. rewrite firstn_app.
    replace (n - length l)%nat with 0%nat by lia.
    simpl. apply app_nil_r.
  - destruct l as [|x l]; simpl in H; [lia|].
    simpl. apply IH. lia.
Qed.

Lemma nth_map_seq {A} (f : nat -> A) (d : A) (n i : nat) :
  (i < n)%nat -> nth i (map f (seq 0 n)) d = f i.
Proof.
  intros H.
  rewrite (nth_indep _ d (f 0%nat)) by (rewrite length_map, length_seq; lia).
  rewrite map_nth, seq_nth by lia. reflexivity.
Qed.

Lemma rolling_prefix (agg : list fnum -> fnum) (w : nat) (col : list fnum)
  (x : fnum) (i : nat) :
  (i < length col)%nat ->
  nth_cell i (rolling agg w (col ++ [x])) = nth_cell i (rolling agg w col).
Proof.
  intros H. unfold nth_cell, rolling.
  rewrite !nth_map_seq by (rewrite ?length_app; simpl; lia).
  destruct (w <=? i + 1)%nat eqn:E; [|reflexivity].
  apply Nat.leb_le in E.
  unfold window_at. rewrite firstn_skipn_app by lia. reflexivity.
Qed.

Lemma slice_prefix {A} (a b : nat) (l l' : list A) :
  (b <= length l)%nat -> slice a b (l ++ l') = slice a b l.
Proof.
  intros H. unfold slice.
  destruct (Nat.le_gt_cases a b) as [Hab|Hab].
  - apply firstn_skipn_app. lia.
  - replace (b - a)%nat with 0%nat by lia. reflexivity.
Qed.

Lemma levels_prefix (self : Strategy) (df : list Candle) (c : Candle)
  (i : nat) :
  (i < length df)%nat ->
  resistance (nth i (indicators self (df ++ [c])) nan_ind)
  = resistance (nth i (indicators self df) nan_ind)
  /\ support (nth i (indicators self (df ++ [c])) nan_ind)
     = support (nth i (indicators self df) nan_ind).
Proof.
  intros H. unfold indicators.
  rewrite !nth_map_seq by (rewrite ?length_app; simpl; lia).
  cbn [resistance support]. rewrite !map_app. simpl map.
  split; apply rolling_prefix; rewrite length_map; exact H.
Qed.

Lemma zone_row_prefix (self : Strategy) (df : list Candle) (c : Candle)
  (i : nat) (z : ZoneCount) :
  (i < length df)%nat ->
  zone_row self (df ++ [c]) (indicators self (df ++ [c])) i z
  = zone_row self df (indicators self df) i z.
Proof.
  intros H. unfold zone_row.
  destruct (levels_prefix self df c H) as (-> & ->).
  rewrite slice_prefix by lia. reflexivity.
Qed.

Lemma zone_row_resistance (self : Strategy) (df : list Candle)
  (inds : list Ind) (i : nat) (z : ZoneCount) (level : Q) :
  resistance (nth i inds nan_ind) = Some level -> (0 < level)%Q ->
  resistance_zone_strength (zone_row self df inds i z)
  = snd (resistance_counts (Some level)
           (slice (i - lookback_period self) i df)).
Proof.
  intros Hl Hpos. unfold zone_row.
  rewrite Hl, (valid_level_pos Hpos).
  destruct (resistance_counts _ _) as (t, s).
  destruct (valid_level (support _));
    [destruct (support_counts _ _)|]; reflexivity.
Qed.

Lemma zone_row_support (self : Strategy) (df : list Candle)
  (inds : list Ind) (i : nat) (z : ZoneCount) (level : Q) :
  support (nth i inds nan_ind) = Some level -> (0 < level)%Q ->
  support_zone_strength (zone_row self df inds i z)
  = snd (support_counts (Some level)
           (slice (i - lookback_period self) i df)).
Proof.
  intros Hl Hpos. unfold zone_row.
  rewrite Hl, (valid_level_pos Hpos).
  destruct (support_counts _ _) as (t, s). reflexivity.
Qed.

Lemma count_rows_app {A} (p : A -> bool) (u v : list A) :
  count_rows p (u ++ v) = (count_rows p u + count_rows p v)%Z.
Proof. unfold count_rows. rewrite filter_app, length_app. lia. Qed.

Lemma resistance_counts_app (level : fnum) (u v : list Candle) :
  snd (resistance_counts level (u ++ v))
  = (snd (resistance_counts level u) + snd (resistance_counts level v))%Z.
Proof.
  unfold resistance_counts, strength_of. cbn [snd].
  rewrite !count_rows_app. lia.
Qed.

Lemma support_counts_app (level : fnum) (u v : list Candle) :
  snd (support_counts level (u ++ v))
  = (snd (support_counts level u) + snd (support_counts level v))%Z.
Proof.
  unfold support_counts, strength_of. cbn [snd].
  rewrite !count_rows_app. lia.
Qed.

Lemma firstn_snoc {A} (d : A) (j : nat) (l : list A) :
  (j < length l)%nat -> firstn (S j) l = (firstn j l ++ [nth j l d])%list.
Proof.
  revert l. induction j as [|j IH]; intros [|x l] H; simpl in H; try lia.
  - reflexivity.
  - cbn [firstn nth app]. rewrite <- IH by lia. reflexivity.
Qed.

Lemma skipn_nth {A} (d : A) (a j : nat) (l : list A) :
  nth j (skipn a l) d = nth (a + j) l d.
Proof.
  revert l. induction a as [|a IH]; intros l; [reflexivity|].
  destruct l as [|x l]; [destruct j; reflexivity|]. apply IH.
Qed.

Lemma skipn_cons {A} (d : A) (a : nat) (l : list A) :
  (a < length l)%nat -> skipn a l = nth a l d :: skipn (S a) l.
Proof.
  revert l. induction a as [|a IH]; intros [|x l] H; simpl in H; try lia.
  - reflexivity.
  - apply IH. lia.
Qed.

(** A window that moves one row on: [l[a:b+1]] is [l[a:b]] with row [b]
    behind it, and row [a] with [l[a+1:b+1]] behind it. *)
Lemma slice_moves {A} (d : A) (a b : nat) (l : list A) :
  (a <= b < length l)%nat ->
  (slice a b l ++ [nth b l d])%list = nth a l d :: slice (S a) (S b) l.
Proof.
  intros H. unfold slice.
  replace (nth b l d) with (nth (b - a) (skipn a l) d)
    by (rewrite skipn_nth; f_equal; lia).
  rewrite <- firstn_snoc by (rewrite length_skipn; lia).
  rewrite (skipn_cons d) by lia.
  replace (S (b - a)) with (S (S b - S a)) by lia. reflexivity.
Qed.

(** C9.  The stored strength [touches + time_in_zone + 2 * rejections] is
    non-decreasing in each of its three counts, and for a fixed level one
    more candle among the counted ones never lowers the strength, and
    raises it when the candle qualifies as a touch (its high, for
    resistance, or its low, for support, lies in the band).  In the frame,
    appending a candle changes no strength stored at a row that was already
    there.  The strength of the new last row counts the [lookback_period]
    rows before it against its own level: the appended candle is not one of
    them, and when the level is the one of the row before, the strength
    moves by the weight of the candle that enters the counted rows (the
    former last row) less the weight of the candle that leaves them, the
    weight of a candle being the strength of that candle alone. *)
Theorem zone_strength_monotone (self : Strategy) (df : list Candle)
  (c : Candle) :
  let L := lookback_period self in
  let n := length df in
  let zones := zone_loop self df (indicators self df) in
  let zones' := zone_loop self (df ++ [c]) (indicators self (df ++ [c])) in
  (forall t t' z z' r r' : Z,
      (t <= t')%Z -> (z <= z')%Z -> (r <= r')%Z ->
      (strength_of t z r <= strength_of t' z' r')%Z)
  /\ (forall (level : fnum) (pre post : list Candle),
         (snd (resistance_counts level (pre ++ post))
          <= snd (resistance_counts level (pre ++ c :: post)))%Z
         /\ (snd (support_counts level (pre ++ post))
             <= snd (support_counts level (pre ++ c :: post)))%Z)
  /\ (forall (level : Q) (pre post : list Candle),
         (ZoneSpec.inside level (high c) = true ->
          (snd (resistance_counts (Some level) (pre ++ post)) + 1
           <= snd (resistance_counts (Some level) (pre ++ c :: post)))%Z)
         /\ (ZoneSpec.inside level (low c) = true ->
             (snd (support_counts (Some level) (pre ++ post)) + 1
              <= snd (support_counts (Some level) (pre ++ c :: post)))%Z))
  /\ (forall i : nat,
         (i < n)%nat -> nth i zones' zero_zone = nth i zones zero_zone)
  /\ (forall level : Q,
         (L <= n)%nat -> (0 < level)%Q ->
         (resistance (nth n (indicators self (df ++ [c])) nan_ind)
          = Some level ->
          resistance_zone_strength (nth n zones' zero_zone)
          = snd (resistance_counts (Some level) (slice (n - L) n df)))
         /\ (support (nth n (indicators self (df ++ [c])) nan_ind)
             = Some level ->
             support_zone_strength (nth n zones' zero_zone)
             = snd (support_counts (Some level) (slice (n - L) n df))))
  /\ (forall level : Q,
         (L + 1 <= n)%nat -> (0 < level)%Q ->
         let entering := [nth (n - 1) df nan_candle] in
         let leaving := [nth (n - 1 - L) df nan_candle] in
         (resistance (nth (n - 1) (indicators self df) nan_ind)
          = Some level ->
          resistance (nth n (indicators self (df ++ [c])) nan_ind)
          = Some level ->
          (resistance_zone_strength (nth n zones' zero_zone)
           + snd (resistance_counts (Some level) leaving)
           = resistance_zone_strength (nth (n - 1) zones zero_zone)
             + snd (resistance_counts (Some level) entering))%Z)
         /\ (support (nth (n - 1) (indicators self df) nan_ind)
             = Some level ->
             support (nth n (indicators self (df ++ [c])) nan_ind)
             = Some level ->
             (support_zone_strength (nth n zones' zero_zone)
              + snd (support_counts (Some level) leaving)
              = support_zone_strength (nth (n - 1) zones zero_zone)
                + snd (support_counts (Some level) entering))%Z)).
Proof.
  intros L n zones zones'.
  assert (Hnew : (L <= n)%nat ->
                 nth n zones' zero_zone
                 = zone_row self (df ++ [c]) (indicators self (df ++ [c]))
                     n zero_zone).
  { intros H. apply zone_loop_row. rewrite length_app. simpl.
    fold n. fold L. lia. }
  assert (Hold : (L + 1 <= n)%nat ->
                 nth (n - 1) zones zero_zone
                 = zone_row self df (indicators self df) (n - 1) zero_zone).
  { intros H. apply zone_loop_row. fold n. fold L. lia. }
  split; [|split; [|split; [|split; [|split]]]].
  - intros. unfold strength_of. lia.
  - intros level pre post.
    unfold resistance_counts, support_counts, strength_of. cbn [snd].
    rewrite !count_rows_insert.
    split; repeat match goal with |- context [if ?b then _ else _] =>
                    destruct b end; lia.
  - intros level pre post.
    unfold resistance_counts, support_counts, strength_of. cbn [snd].
    rewrite !count_rows_insert.
    split; intros Hin.
    + replace ((high c >=? Some level * k (1 - zone_width))%F
               && (high c <=? Some level * k (1 + zone_width))%F)
        with true
        by (symmetry; rewrite <- Hin; destruct (high c); reflexivity).
      repeat match goal with |- context [if ?b then _ else _] =>
               destruct b end; lia.
    + replace ((low c >=? Some level * k (1 - zone_width))%F
               && (low c <=? Some level * k (1 + zone_width))%F)
        with true
        by (symmetry; rewrite <- Hin; destruct (low c); reflexivity).
      repeat match goal with |- context [if ?b then _ else _] =>
               destruct b end; lia.
  - intros i Hi. unfold zones, zones'.
    destruct (Nat.le_gt_cases (lookback_period self) i) as [Hl|Hl].
    + rewrite !zone_loop_row by (rewrite ?length_app; simpl; fold n; lia).
      apply zone_row_prefix. exact Hi.
    + unfold zone_loop. rewrite !row_loop_before by lia.
      rewrite !nth_repeat_same. reflexivity.
  - intros level HL Hpos. rewrite (Hnew HL). split; intros Hl.
    + rewrite (zone_row_resistance _ _ _ _ _ Hl Hpos).
      fold L. rewrite slice_prefix by (fold n; lia). reflexivity.
    + rewrite (zone_row_support _ _ _ _ _ Hl Hpos).
      fold L. rewrite slice_prefix by (fold n; lia). reflexivity.
  - intros level HL Hpos entering leaving.
    rewrite (Hnew ltac:(lia)), (Hold HL).
    assert (Hmove : (slice (n - 1 - L) (n - 1) df ++ entering)%list
                    = (leaving ++ slice (n - L) n df)%list).
    { unfold entering, leaving.
      rewrite (slice_moves nan_candle) by (fold n; lia).
      replace (S (n - 1 - L)) with (n - L)%nat by lia.
      replace (S (n - 1)) with n by lia. reflexivity. }
    split; intros Hl Hl'.
    + rewrite (zone_row_resistance _ _ _ _ _ Hl' Hpos).
      rewrite (zone_row_resistance _ _ _ _ _ Hl Hpos).
      fold L. rewrite slice_prefix by (fold n; lia).
      rewrite Z.add_comm, <- !resistance_counts_app, Hmove. reflexivity.
    + rewrite (zone_row_support _ _ _ _ _ Hl' Hpos).
      rewrite (zone_row_support _ _ _ _ _ Hl Hpos).
      fold L. rewrite slice_prefix by (fold n; lia).
      rewrite Z.add_comm, <- !support_counts_app, Hmove. reflexivity.
Qed.

Lemma zone_strength_monotone_witness :
  (lookback_period Sample.strategy + 1 <= length SampleEdge.dip)%nat
  /\ (0 < 101)%Q
  /\ resistance
       (nth 11 (indicators Sample.strategy SampleEdge.dip) nan_ind)
     = Some 101%Q
  /\ resistance
       (nth 12 (indicators Sample.strategy
                  (SampleEdge.dip ++ [SampleEdge.touch])) nan_ind)
     = Some 101%Q
  /\ (resistance_zone_strength
        (nth 12 (zone_loop Sample.strategy
                   (SampleEdge.dip ++ [SampleEdge.touch])
                   (indicators Sample.strategy
                      (SampleEdge.dip ++ [SampleEdge.touch]))) zero_zone)
      + 3
      = resistance_zone_strength
          (nth 11 (zone_loop Sample.strategy SampleEdge.dip
                     (indicators Sample.strategy SampleEdge.dip))
               zero_zone)
        + 0)%Z.
Proof.
  assert (HL : (lookback_period Sample.strategy + 1
                <= length SampleEdge.dip)%nat) by (vm_compute; lia).
  assert (Hpos : (0 < 101)%Q) by reflexivity.
  assert (Hl : resistance
                 (nth 11 (indicators Sample.strategy SampleEdge.dip) nan_ind)
               = Some 101%Q) by (vm_compute; reflexivity).
  assert (Hl' : resistance
                  (nth 12 (indicators Sample.strategy
                             (SampleEdge.dip ++ [SampleEdge.touch]))
                       nan_ind)
                = Some 101%Q) by (vm_compute; reflexivity).
  split; [exact HL|]. split; [exact Hpos|].
  split; [exact Hl|]. split; [exact Hl'|].
  exact (proj1 (proj2 (proj2 (proj2 (proj2 (proj2
    (@zone_strength_monotone Sample.strategy SampleEdge.dip
       SampleEdge.touch))))) 101%Q HL Hpos) Hl Hl').
Defined.

(** The appended candle touches the band of the level, 101 before and
    after, and the strength of the last row falls from 9 to 6: the row that
    enters the counted rows is the former last one, which is far below the
    band, and a row that touched the band leaves them. *)
Lemma touch_counterexample :
  resistance
    (nth 11 (f_inds (add_indicators no_faults Sample.strategy
                       SampleEdge.dip)) nan_ind) = Some 101%Q
  /\ resistance
       (nth 12 (f_inds (add_indicators no_faults Sample.strategy
                          (SampleEdge.dip ++ [SampleEdge.touch])))
            nan_ind) = Some 101%Q
  /\ ZoneSpec.inside 101 (high SampleEdge.touch) = true
  /\ resistance_zone_strength
       (nth 11 (f_zones (add_indicators no_faults Sample.strategy
                           SampleEdge.dip)) zero_zone) = 9%Z
  /\ resistance_zone_strength
       (nth 12 (f_zones (add_indicators no_faults Sample.strategy
                           (SampleEdge.dip ++ [SampleEdge.touch])))
            zero_zone) = 6%Z.
Proof. vm_compute. repeat split; reflexivity. Qed.

(** ** Rows of the pattern engine *)

Lemma pattern_row_cases (flt : Faults) (df : list Candle) (inds : list Ind)
  (i : nat) :
  let row := nth i (add_price_action_patterns flt df inds) no_flags in
  row = no_flags
  \/ ((3 <= i < length df)%nat /\ skipped df i = false
      /\ row = detect df inds i).
Proof.
  intros row. unfold row, add_price_action_patterns.
  destruct (row_loop_cases no_flags (fault_patterns flt)
              (pattern_write df inds) 3 (length df)
              (repeat no_flags (length df)) i)
    as [H|(Hi & _ & _ & H)].
  - left. rewrite H. apply nth_repeat_same.
  - unfold pattern_write in H at 1.
    destruct (skipped df i) eqn:E; [discriminate|].
    right. injection H as H. auto.
Qed.

Lemma pattern_row_processed (flt : Faults) (df : list Candle)
  (inds : list Ind) (i : nat) :
  (3 <= i < length df)%nat ->
  (forall j, (3 <= j <= i)%nat -> fault_patterns flt j = false) ->
  skipped df i = false ->
  nth i (add_price_action_patterns flt df inds) no_flags = detect df inds i.
Proof.
  intros Hi Hf Hs. unfold add_price_action_patterns.
  rewrite row_loop_at; auto.
  - unfold pattern_write. rewrite Hs. reflexivity.
  - rewrite repeat_length. lia.
Qed.

Lemma not_invalid_price (v : fnum) :
  invalid_price v = false -> exists q, v = Some q /\ (0 < q)%Q.
Proof.
  destruct v as [q|]; [|discriminate].
  unfold invalid_price, F.le, F.cmp, k. simpl. intros H.
  exists q. split; [reflexivity|].
  apply Qltb_lt. unfold F.Qltb. rewrite H. reflexivity.
Qed.

Lemma not_invalid_candle (c : Candle) :
  invalid_candle c = false ->
  exists o h l cl,
    open c = Some o /\ high c = Some h /\ low c = Some l /\ close c = Some cl
    /\ (0 < o /\ 0 < h /\ 0 < l /\ 0 < cl)%Q.
Proof.
  unfold invalid_candle. cbn [existsb]. rewrite !orb_false_iff.
  intros (Ho & Hh & Hl & Hc & _).
  destruct (not_invalid_price _ Ho) as (o & -> & ?).
  destruct (not_invalid_price _ Hh) as (h & -> & ?).
  destruct (not_invalid_price _ Hl) as (l & -> & ?).
  destruct (not_invalid_price _ Hc) as (cl & -> & ?).
  exists o, h, l, cl. auto 10.
Qed.

(** The tests that let a row through, one by one. *)
Lemma not_skipped (df : list Candle) (i : nat) :
  skipped df i = false ->
  invalid_candle (nth i df nan_candle) = false
  /\ invalid_candle (nth (i - 1) df nan_candle) = false
  /\ invalid_candle (nth (i - 2) df nan_candle) = false
  /\ invalid_candle (nth (i - 3) df nan_candle) = false
  /\ (range_of (nth i df nan_candle) =? k 0)%F = false
  /\ (range_of (nth (i - 1) df nan_candle) =? k 0)%F = false
  /\ (range_of (nth (i - 2) df nan_candle) =? k 0)%F = false.
Proof.
  unfold skipped. cbn [existsb]. rewrite !orb_false_iff. tauto.
Qed.

Lemma detect_doji_family (df : list Candle) (inds : list Ind) (i : nat) :
  exists gravestone_shape dragonfly_shape : bool,
    let small_body := small_body_of (nth i df nan_candle) in
    gravestone_doji (detect df inds i) = small_body && gravestone_shape
    /\ dragonfly_doji (detect df inds i)
       = small_body && negb gravestone_shape && dragonfly_shape
    /\ doji (detect df inds i)
       = small_body && negb gravestone_shape && negb dragonfly_shape.
Proof.
  unfold detect.
  destruct (flag_pattern df i), (pennant_pattern df i).
  cbn [gravestone_doji dragonfly_doji doji].
  eexists; eexists; cbv zeta; repeat split.
Qed.

Lemma small_body_iff (cur : Candle) (o h l c : Q) :
  open cur = Some o -> high cur = Some h -> low cur = Some l ->
  close cur = Some c ->
  small_body_of cur = true <-> (Qabs (c - o) < (h - l) * 0.1)%Q.
Proof.
  intros Ho Hh Hl Hc. unfold small_body_of, body_of, range_of.
  rewrite Ho, Hh, Hl, Hc.
  cbv beta iota delta
    [F.gt F.lt F.cmp F.abs F.sub F.mul F.lift2 k option_map].
  rewrite andb_true_iff, !Qltb_lt.
  pose proof (Qabs_nonneg (c - o)) as Hb.
  set (b := Qabs (c - o)) in *. clearbody b.
  split; [tauto|]. intros Hlt. split; [exact Hlt|]. lra.
Qed.

(** C10.  On every processed candle (a row of the loop that no fault
    stopped and that was not skipped) at most one of [gravestone_doji],
    [dragonfly_doji] and [doji] is set, and one of them is set exactly when
    the body of the candle is smaller than 10% of its range. *)
Theorem doji_family_exclusive (flt : Faults) (df : list Candle)
  (inds : list Ind) (i : nat) :
  (3 <= i < length df)%nat ->
  (forall j, (3 <= j <= i)%nat -> fault_patterns flt j = false) ->
  skipped df i = false ->
  let f := nth i (add_price_action_patterns flt df inds) no_flags in
  exists o h l c : Q,
    open (nth i df nan_candle) = Some o
    /\ high (nth i df nan_candle) = Some h
    /\ low (nth i df nan_candle) = Some l
    /\ close (nth i df nan_candle) = Some c
    /\ gravestone_doji f && dragonfly_doji f = false
    /\ gravestone_doji f && doji f = false
    /\ dragonfly_doji f && doji f = false
    /\ (gravestone_doji f || dragonfly_doji f || doji f = true
        <-> (Qabs (c - o) < (h - l) * 0.1)%Q).
Proof.
  intros Hi Hf Hs f.
  assert (Ef : f = detect df inds i)
    by (apply pattern_row_processed; assumption).
  destruct (not_skipped _ _ Hs) as (Hv & _).
  destruct (not_invalid_candle _ Hv) as (o & h & l & c & Ho & Hh & Hl & Hc & _).
  exists o, h, l, c. repeat (split; [assumption|]).
  destruct (detect_doji_family df inds i) as (gs & ds & Eg & Ed & Ej).
  pose proof (small_body_iff _ Ho Hh Hl Hc) as Esb.
  rewrite Ef, Eg, Ed, Ej.
  destruct (small_body_of (nth i df nan_candle)).
  - destruct gs, ds; simpl; repeat split; auto; intros; tauto.
  - simpl. repeat split; auto; try discriminate.
    intros Hlt. apply Esb in Hlt. discriminate.
Qed.

Lemma doji_family_exclusive_witness :
  let df := f_candles (Sample.frame_of Sample.breakout) in
  let inds := f_inds (Sample.frame_of Sample.breakout) in
  let f := nth 10 (add_price_action_patterns no_faults df inds) no_flags in
  (3 <= 10 < length df)%nat
  /\ skipped df 10 = false
  /\ gravestone_doji f || dragonfly_doji f || doji f = true
  /\ gravestone_doji f && doji f = false.
Proof.
  intros df inds f.
  assert (Hi : (3 <= 10 < length df)%nat) by (vm_compute; lia).
  assert (Hs : skipped df 10 = false) by (vm_compute; reflexivity).
  split; [exact Hi|]. split; [exact Hs|].
  destruct (@doji_family_exclusive no_faults df inds 10 Hi
              (fun _ _ => eq_refl) Hs)
    as (o & h & l & c & Ho & Hh & Hl & Hc & _ & Hgd & _ & Hiff).
  split; [|exact Hgd].
  apply Hiff.
  assert (Eo : Some o = Some 100%Q) by (rewrite <- Ho; vm_compute; reflexivity).
  assert (Eh : Some h = Some 101%Q) by (rewrite <- Hh; vm_compute; reflexivity).
  assert (El : Some l = Some 99%Q) by (rewrite <- Hl; vm_compute; reflexivity).
  assert (Ec : Some c = Some 100%Q) by (rewrite <- Hc; vm_compute; reflexivity).
  injection Eo as ->. injection Eh as ->. injection El as ->.
  injection Ec as ->. reflexivity.
Defined.

(** ** What the pattern engine skips *)

Lemma last_four (i j : nat) :
  (i - 3 <= j <= i)%nat ->
  j = i \/ j = (i - 1)%nat \/ j = (i - 2)%nat \/ j = (i - 3)%nat.
Proof. lia. Qed.

Lemma last_three (i j : nat) :
  (i - 2 <= j <= i)%nat -> j = i \/ j = (i - 1)%nat \/ j = (i - 2)%nat.
Proof. lia. Qed.

Lemma valid_range (c : Candle) :
  invalid_candle c = false -> (range_of c =? k 0)%F = false ->
  exists r, range_of c = Some r /\ ~ (r == 0)%Q.
Proof.
  intros Hv Hr.
  destruct (not_invalid_candle _ Hv) as (o & h & l & cl & _ & Hh & Hl & _).
  unfold range_of in *. rewrite Hh, Hl in *.
  exists (h - l)%Q. split; [reflexivity|].
  intros E. apply Qeq_bool_iff in E.
  cbv beta iota delta [F.eq F.cmp F.sub F.lift2 k] in Hr. congruence.
Qed.

(** C5, as the code has it.  The pattern engine writes rows from index 3
    onward only.  It leaves all 27 pattern flags of a row false whenever one
    of the last four candles has a missing or non-positive open, high, low
    or close, or the range of the candle or of one of the two candles
    before it is zero.  So a row with a flag set has a non-zero range, as
    have the two rows before it. *)
Theorem pattern_skip_rule (flt : Faults) (df : list Candle)
  (inds : list Ind) (i : nat) :
  let row := nth i (add_price_action_patterns flt df inds) no_flags in
  ((i < 3)%nat -> row = no_flags)
  /\ (forall j, (i - 3 <= j <= i)%nat ->
                invalid_candle (nth j df nan_candle) = true ->
                row = no_flags)
  /\ (forall j, (i - 2 <= j <= i)%nat ->
                (range_of (nth j df nan_candle) =? k 0)%F = true ->
                row = no_flags)
  /\ (row <> no_flags ->
      (3 <= i < length df)%nat
      /\ forall j, (i - 2 <= j <= i)%nat ->
                   exists r, range_of (nth j df nan_candle) = Some r
                             /\ ~ (r == 0)%Q)
  /\ (length (flag_list no_flags) = 27%nat
      /\ forallb negb (flag_list no_flags) = true).
Proof.
  intros row.
  destruct (pattern_row_cases flt df inds i) as [H|(Hi & Hs & H)];
    fold row in H.
  - repeat split; auto; try (intros; congruence).
  - destruct (not_skipped _ _ Hs) as (V0 & V1 & V2 & V3 & R0 & R1 & R2).
    split; [intros; lia|].
    split; [|split; [|split]].
    + intros j Hj Hbad. exfalso.
      destruct (last_four Hj) as [-> | [-> | [-> | ->]]]; congruence.
    + intros j Hj Hbad. exfalso.
      destruct (last_three Hj) as [-> | [-> | ->]]; congruence.
    + intros _. split; [exact Hi|].
      intros j Hj.
      destruct (last_three Hj) as [-> | [-> | ->]]; apply valid_range; assumption.
    + split; reflexivity.
Qed.

(** The claim as stated fails: the candle three rows before the last one
    has a well-ordered OHLC and a zero range, and the last row is still
    processed. *)
Lemma pattern_skip_counterexample :
  let fr := Sample.frame_of SampleFaulty.flat_third in
  candle_ordered (nth 8 (f_candles fr) nan_candle) = true
  /\ (range_of (nth 8 (f_candles fr) nan_candle) =? k 0)%F = true
  /\ skipped (f_candles fr) 11 = false
  /\ marubozu_bullish (nth 11 (f_flags fr) no_flags) = true.
Proof. vm_compute. repeat split. Qed.

(** ** What the cleaning passes keep *)

Lemma interpolate_from_keeps (col : list fnum) :
  forall (prev : option (nat * Q)) (j : nat) (v : Q),
  nth_error col j = Some (Some v) ->
  nth_error (interpolate_from prev col) j = Some (Some v).
Proof.
  induction col as [|x col IH]; intros prev j v H.
  - destruct j; discriminate.
  - destruct j as [|j]; simpl in H.
    + injection H as ->. reflexivity.
    + destruct x as [q|]; simpl.
      * apply IH. exact H.
      * destruct prev as [[d0 v0]|]; simpl; apply IH; exact H.
Qed.

Lemma bfill_keeps (col : list fnum) :
  forall (j : nat) (v : Q),
  nth_error col j = Some (Some v) -> nth_error (bfill col) j = Some (Some v).
Proof.
  induction col as [|x col IH]; intros j v H.
  - destruct j; discriminate.
  - destruct j as [|j]; simpl in H.
    + injection H as ->. reflexivity.
    + destruct x as [q|]; simpl.
      * apply IH. exact H.
      * specialize (IH j v H).
        destruct (bfill col) as [|[y|] t]; simpl in *; exact IH.
Qed.

Lemma ffill_from_keeps (col : list fnum) :
  forall (prev : fnum) (j : nat) (v : Q),
  nth_error col j = Some (Some v) ->
  nth_error (ffill_from prev col) j = Some (Some v).
Proof.
  induction col as [|x col IH]; intros prev j v H.
  - destruct j; discriminate.
  - destruct j as [|j]; simpl in H.
    + injection H as ->. reflexivity.
    + destruct x as [q|]; simpl; apply IH; exact H.
Qed.

Lemma repair_keeps (col : list fnum) (j : nat) (v : Q) :
  nth_error col j = Some (Some v) -> nth_error (repair col) j = Some (Some v).
Proof.
  intros H. unfold repair, ffill, interpolate.
  apply ffill_from_keeps, bfill_keeps, interpolate_from_keeps. exact H.
Qed.

Lemma replace_zero_keeps (col : list fnum) (j : nat) (v : Q) :
  nth_error col j = Some (Some v) -> Qeq_bool v 0 = false ->
  nth_error (replace_zero col) j = Some (Some v).
Proof.
  intros H Hv. unfold replace_zero.
  rewrite (map_nth_error _ _ _ H).
  cbv beta iota delta [F.eq F.cmp k]. rewrite Hv. reflexivity.
Qed.

Lemma assign_nth_error (set : fnum -> Candle -> Candle) (df : list Candle) :
  forall (new_col : list fnum) (j : nat) (c : Candle) (v : fnum),
  nth_error df j = Some c -> nth_error new_col j = Some v ->
  nth_error (assign set new_col df) j = Some (set v c).
Proof.
  induction df as [|c0 df IH]; intros new_col j c v Hc Hv.
  - destruct j; discriminate.
  - destruct new_col as [|v0 new_col]; [destruct j; discriminate|].
    destruct j as [|j]; simpl in *.
    + injection Hc as ->. injection Hv as ->. reflexivity.
    + apply IH; assumption.
Qed.

(** A cleaning pass leaves a row as it is when the repair keeps the cell
    that the row has in the cleaned column. *)
Lemma clean_with_keeps (dirty : list fnum -> bool)
  (fix_ : list fnum -> list fnum) (good : Q -> Prop)
  (get : Candle -> fnum) (set : fnum -> Candle -> Candle) :
  (forall c, set (get c) c = c) ->
  (forall col j v, nth_error col j = Some (Some v) -> good v ->
                   nth_error (fix_ col) j = Some (Some v)) ->
  forall (df : list Candle) (j : nat) (c : Candle) (v : Q),
  nth_error df j = Some c -> get c = Some v -> good v ->
  nth_error (clean_with dirty fix_ get set df) j = Some c.
Proof.
  intros Hset Hfix df j c v Hc Hv Hg. unfold clean_with.
  destruct (dirty (map get df)); [|exact Hc].
  rewrite (assign_nth_error set df (fix_ (map get df)) j Hc
             (v := Some v)).
  - rewrite <- Hv. f_equal. apply Hset.
  - apply Hfix; [|exact Hg].
    rewrite (map_nth_error _ _ _ Hc), Hv. reflexivity.
Qed.

Definition nonzero (v : Q) : Prop := Qeq_bool v 0 = false.

Lemma clean_numeric_keeps (df : list Candle) (j : nat) (c : Candle)
  (o h l cl vol : Q) :
  nth_error df j = Some c ->
  open c = Some o -> high c = Some h -> low c = Some l ->
  close c = Some cl -> volume c = Some vol ->
  nth_error (clean_numeric df) j = Some c.
Proof.
  intros Hc Ho Hh Hl Hcl Hvol. unfold clean_numeric.
  repeat match goal with
         | |- nth_error (clean_with has_nan repair ?get ?set _) _ = _ =>
             eapply (@clean_with_keeps has_nan repair (fun _ => True)
                       get set);
             [ intros []; reflexivity
             | intros; apply repair_keeps; assumption
             | | eassumption | exact I ]
         end.
  exact Hc.
Qed.

Lemma clean_prices_keeps (df : list Candle) (j : nat) (c : Candle)
  (o h l cl : Q) :
  nth_error df j = Some c ->
  open c = Some o -> high c = Some h -> low c = Some l ->
  close c = Some cl ->
  nonzero o -> nonzero h -> nonzero l -> nonzero cl ->
  nth_error (clean_prices df) j = Some c.
Proof.
  intros Hc Ho Hh Hl Hcl Zo Zh Zl Zcl. unfold clean_prices, clean_nonpositive.
  repeat match goal with
         | |- nth_error (clean_with has_nonpositive _ ?get ?set _) _ = _ =>
             eapply (@clean_with_keeps has_nonpositive _ nonzero get set);
             [ intros []; reflexivity
             | intros; apply repair_keeps, replace_zero_keeps; assumption
             | | eassumption | assumption ]
         end.
  eapply (@clean_with_keeps has_nan repair (fun _ => True) close set_close);
    [ intros []; reflexivity
    | intros; apply repair_keeps; assumption
    | exact Hc | eassumption | exact I ].
Qed.

Lemma classified_is_ordered (data : list ohlc) (name : string) :
  detect_candlestick_patterns data = Some name ->
  exists (current prev : ohlc) (rest : list ohlc) (o h l c po ph pl pc : Q),
    rev data = current :: prev :: rest
    /\ d_open current = Some o /\ d_high current = Some h
    /\ d_low current = Some l /\ d_close current = Some c
    /\ d_open prev = Some po /\ d_high prev = Some ph
    /\ d_low prev = Some pl /\ d_close prev = Some pc
    /\ ohlc_ordered o h l c = true /\ ohlc_ordered po ph pl pc = true.
Proof.
  unfold detect_candlestick_patterns.
  destruct (rev data) as [|current [|prev rest]]; try discriminate.
  destruct (forallb _ _); [|discriminate].
  destruct (d_open current) as [o|] eqn:Eo; [|discriminate].
  destruct (d_high current) as [h|] eqn:Eh; [|discriminate].
  destruct (d_low current) as [l|] eqn:El; [|discriminate].
  destruct (d_close current) as [c|] eqn:Ec; [|discriminate].
  destruct (d_open prev) as [po|] eqn:Epo; [|discriminate].
  destruct (d_high prev) as [ph|] eqn:Eph; [|discriminate].
  destruct (d_low prev) as [pl|] eqn:Epl; [|discriminate].
  destruct (d_close prev) as [pc|] eqn:Epc; [|discriminate].
  unfold classify_candle.
  destruct (ohlc_ordered o h l c) eqn:O1; [|discriminate].
  destruct (ohlc_ordered po ph pl pc) eqn:O2; [|discriminate].
  intros _.
  exists current, prev, rest, o, h, l, c, po, ph, pl, pc.
  repeat split; auto.
Qed.

(** C4, as the code has it.  The cleaning passes of [get_signal] and of
    [add_indicators] repair missing and zero cells only: a row whose open,
    high, low, close and volume are present, with non-zero prices, leaves
    them unchanged, whatever the order of its prices.  The pattern engine
    sets a flag on a row only when the open, high, low and close of that
    row and of the three rows before it are present and strictly positive.
    The OHLC ordering is checked by the single-candle classifier alone,
    which names a pattern only when its last two candles are well
    ordered. *)
Theorem cleaning_and_pattern_guard (flt : Faults) (df : list Candle)
  (inds : list Ind) (i : nat) (data : list ohlc) :
  (forall (rows : list Candle) (j : nat) (c : Candle) (o h l cl vol : Q),
      nth_error rows j = Some c ->
      open c = Some o -> high c = Some h -> low c = Some l ->
      close c = Some cl -> volume c = Some vol ->
      nonzero o -> nonzero h -> nonzero l -> nonzero cl ->
      nth_error (clean_prices (clean_numeric rows)) j = Some c)
  /\ (nth i (add_price_action_patterns flt df inds) no_flags <> no_flags ->
      (3 <= i < length df)%nat
      /\ forall j, (i - 3 <= j <= i)%nat ->
           exists o h l cl : Q,
             open (nth j df nan_candle) = Some o
             /\ high (nth j df nan_candle) = Some h
             /\ low (nth j df nan_candle) = Some l
             /\ close (nth j df nan_candle) = Some cl
             /\ (0 < o /\ 0 < h /\ 0 < l /\ 0 < cl)%Q)
  /\ (forall name : string,
         detect_candlestick_patterns data = Some name ->
         exists (current prev : ohlc) (rest : list ohlc)
                (o h l c po ph pl pc : Q),
           rev data = current :: prev :: rest
           /\ d_open current = Some o /\ d_high current = Some h
           /\ d_low current = Some l /\ d_close current = Some c
           /\ d_open prev = Some po /\ d_high prev = Some ph
           /\ d_low prev = Some pl /\ d_close prev = Some pc
           /\ ohlc_ordered o h l c = true
           /\ ohlc_ordered po ph pl pc = true).
Proof.
  split; [|split].
  - intros rows j c o h l cl vol Hc Ho Hh Hl Hcl Hvol Zo Zh Zl Zcl.
    eapply clean_prices_keeps; eauto.
    eapply clean_numeric_keeps; eauto.
  - intros Hrow.
    destruct (pattern_row_cases flt df inds i) as [H|(Hi & Hs & _)];
      [contradiction|].
    split; [exact Hi|].
    destruct (not_skipped _ _ Hs) as (V0 & V1 & V2 & V3 & _).
    intros j Hj.
    destruct (last_four Hj) as [-> | [-> | [-> | ->]]];
      apply not_invalid_candle; assumption.
  - intros name. apply classified_is_ordered.
Qed.

(** The claim as stated fails: the last candle of the window closes above
    its own high, the cleaning passes leave it that way, the pattern engine
    sets flags on it, and the window is answered with BUY. *)
Lemma ordering_counterexample :
  let raw := map to_candle SampleFaulty.inverted in
  let fr := Sample.frame_of SampleFaulty.inverted in
  nth_error (clean_prices (clean_numeric raw)) 11 = nth_error raw 11
  /\ nth_error (f_candles fr) 11 = nth_error raw 11
  /\ candle_ordered (nth 11 (f_candles fr) nan_candle) = false
  /\ marubozu_bullish (nth 11 (f_flags fr) no_flags) = true
  /\ bullish_breakout (nth 11 (f_flags fr) no_flags) = true
  /\ fst (get_signal no_faults Sample.strategy SampleFaulty.inverted)
     = Some "BUY"%string.
Proof. vm_compute. repeat split. Qed.

(** ** Momentum and volatility *)

Lemma neg_index_nth_error {A} (l : list A) (n : nat) (a : A) :
  (1 <= n <= length l)%nat -> nth_error l (length l - n) = Some a ->
  neg_index l n = Ok a.
Proof.
  intros H E. unfold neg_index. rewrite E.
  destruct (Nat.leb_spec n (length l)); [reflexivity|lia].
Qed.

Lemma collect_returns_step (prev_price curr_price : price)
  (rest : list price) :
  collect_returns (prev_price :: curr_price :: rest)
  = if is_zero_or_none prev_price
    then collect_returns (curr_price :: rest)
    else
      return_val <- py_rel_change curr_price prev_price ;;
      returns <- collect_returns (curr_price :: rest) ;;
      Ok (return_val :: returns).
Proof. reflexivity. Qed.

Lemma pairs_step (a b : price) (rest : list price) :
  MathSpec.pairs (a :: b :: rest) = (a, b) :: MathSpec.pairs (b :: rest).
Proof. reflexivity. Qed.

Lemma collect_returns_spec (xs : list price) :
  collect_returns xs
  = if forallb MathSpec.defined
         (filter MathSpec.formable (MathSpec.pairs xs))
    then Ok (MathSpec.simple_returns xs)
    else Raise TypeError.
Proof.
  unfold MathSpec.simple_returns.
  induction xs as [|a xs IH]; [reflexivity|].
  destruct xs as [|b rest]; [reflexivity|].
  rewrite collect_returns_step, IH, pairs_step.
  set (l := MathSpec.pairs (b :: rest)).
  cbn [filter].
  replace (MathSpec.formable (a, b)) with (negb (is_zero_or_none a))
    by reflexivity.
  destruct (is_zero_or_none a) eqn:Ea; cbn [negb]; [reflexivity|].
  cbn [map forallb].
  replace (MathSpec.defined (a, b))
    with (match b with Some _ => true | None => false end) by reflexivity.
  destruct a as [p|]; [|discriminate].
  destruct b as [c|]; cbn [py_rel_change bind andb MathSpec.simple_return];
    [|reflexivity].
  destruct (forallb _ _); reflexivity.
Qed.

Section MomentumVolatility.

Variable np_std : list Q -> Q.

(** C6.  For a window size above zero and every series of prices, a price
    being a number or [None].  Momentum is 0 on a series shorter than
    [window + 1] and when the past price [price[t-window]] is zero or
    [None]; otherwise it is
    [(price[t] - price[t-window]) / price[t-window]] when the current price
    [price[t]] is a number, and a [TypeError] when it is [None].
    Volatility is 0 on a series shorter than [window]; otherwise it goes
    through the consecutive pairs of the trailing window, leaves out the
    pairs whose earlier price is zero or [None], raises a [TypeError] when
    one of the pairs left has a later price [None], and else returns the
    standard deviation of the simple returns of the pairs left, or 0 when
    there is none. *)
Theorem momentum_and_volatility (window : nat) :
  (0 < window)%nat ->
  (forall prices : list price,
      (length prices < window + 1)%nat ->
      calculate_price_momentum prices window = Ok 0%Q)
  /\ (forall (prices : list price) (past : price),
         (window + 1 <= length prices)%nat ->
         nth_error prices (length prices - 1 - window) = Some past ->
         is_zero_or_none past = true ->
         calculate_price_momentum prices window = Ok 0%Q)
  /\ (forall (prices : list price) (c p : Q),
         (window + 1 <= length prices)%nat ->
         nth_error prices (length prices - 1) = Some (Some c) ->
         nth_error prices (length prices - 1 - window) = Some (Some p) ->
         Qeq_bool p 0 = false ->
         calculate_price_momentum prices window = Ok ((c - p) / p)%Q)
  /\ (forall (prices : list price) (p : Q),
         (window + 1 <= length prices)%nat ->
         nth_error prices (length prices - 1) = Some None ->
         nth_error prices (length prices - 1 - window) = Some (Some p) ->
         Qeq_bool p 0 = false ->
         calculate_price_momentum prices window = Raise TypeError)
  /\ (forall prices : list price,
         (length prices < window)%nat ->
         calculate_volatility np_std prices window = Ok 0%Q)
  /\ (forall prices : list price,
         (window <= length prices)%nat ->
         let recent := MathSpec.trailing window prices in
         calculate_volatility np_std prices window
         = if forallb MathSpec.defined
                (filter MathSpec.formable (MathSpec.pairs recent))
           then Ok match MathSpec.simple_returns recent with
                   | [] => 0%Q
                   | (_ :: _) as returns => np_std returns
                   end
           else Raise TypeError).
Proof.
  intros Hw. split; [|split; [|split; [|split; [|split]]]].
  - intros prices H. unfold calculate_price_momentum.
    destruct (Nat.ltb_spec (length prices) (window + 1)); [reflexivity|lia].
  - intros prices past H Hp Hz. unfold calculate_price_momentum.
    destruct (Nat.ltb_spec (length prices) (window + 1)); [lia|].
    destruct (nth_error prices (length prices - 1)) as [cur|] eqn:Ec.
    2:{ apply nth_error_None in Ec. lia. }
    rewrite (neg_index_nth_error prices (n := 1) (a := cur)) by (auto; lia).
    replace (length prices - 1 - window)%nat
      with (length prices - (window + 1))%nat in Hp by lia.
    rewrite (neg_index_nth_error prices (n := window + 1) (a := past))
      by (auto; lia).
    cbn [bind]. rewrite Hz. reflexivity.
  - intros prices c p H Hc Hp Hz. unfold calculate_price_momentum.
    destruct (Nat.ltb_spec (length prices) (window + 1)); [lia|].
    rewrite (neg_index_nth_error prices (n := 1) (a := Some c))
      by (auto; lia).
    replace (length prices - 1 - window)%nat
      with (length prices - (window + 1))%nat in Hp by lia.
    rewrite (neg_index_nth_error prices (n := window + 1) (a := Some p))
      by (auto; lia).
    cbn [bind is_zero_or_none]. rewrite Hz. reflexivity.
  - intros prices p H Hc Hp Hz. unfold calculate_price_momentum.
    destruct (Nat.ltb_spec (length prices) (window + 1)); [lia|].
    rewrite (neg_index_nth_error prices (n := 1) (a := None))
      by (auto; lia).
    replace (length prices - 1 - window)%nat
      with (length prices - (window + 1))%nat in Hp by lia.
    rewrite (neg_index_nth_error prices (n := window + 1) (a := Some p))
      by (auto; lia).
    cbn [bind is_zero_or_none]. rewrite Hz. reflexivity.
  - intros prices H. unfold calculate_volatility.
    destruct (Nat.ltb_spec (length prices) window); [reflexivity|lia].
  - intros prices H recent. unfold calculate_volatility.
    destruct (Nat.ltb_spec (length prices) window); [lia|].
    unfold last_slice. destruct window as [|w]; [lia|].
    rewrite collect_returns_spec. fold (MathSpec.trailing (S w) prices).
    fold recent.
    destruct (forallb _ _); [|reflexivity].
    cbn [bind]. destruct (MathSpec.simple_returns recent); reflexivity.
Qed.

End MomentumVolatility.

Lemma momentum_and_volatility_witness :
  (0 < 2)%nat
  /\ calculate_price_momentum [Some 100; Some 101; Some 102]%Q 2
     = Ok ((102 - 100) / 100)%Q
  /\ calculate_price_momentum [Some 100; Some 101]%Q 2 = Ok 0%Q
  /\ calculate_price_momentum [None; Some 101; None]%Q 2 = Ok 0%Q
  /\ calculate_volatility (fun _ => 1%Q) [Some 100]%Q 2 = Ok 0%Q
  /\ calculate_volatility (fun _ => 1%Q) [Some 100; None; Some 102]%Q 2
     = Ok 0%Q
  /\ calculate_volatility (fun _ => 1%Q) [Some 100; Some 102; None]%Q 2
     = Raise TypeError.
Proof.
  assert (Hw : (0 < 2)%nat) by lia.
  split; [exact Hw|].
  destruct (@momentum_and_volatility (fun _ => 1%Q) 2 Hw)
    as (Hshort & Hzero & Hm & _ & Hv & Hvol).
  split; [|split; [|split; [|split; [|split]]]].
  - apply Hm; [simpl; lia|reflexivity|reflexivity|reflexivity].
  - apply Hshort. simpl; lia.
  - apply (Hzero _ None); [simpl; lia|reflexivity|reflexivity].
  - apply Hv. simpl; lia.
  - rewrite Hvol by (simpl; lia). reflexivity.
  - rewrite Hvol by (simpl; lia). reflexivity.
Defined.

(** The current price is [None] and the past price is not: the
    subtraction raises.  The same happens in the loop of
    [calculate_volatility]. *)
Lemma momentum_counterexample :
  calculate_price_momentum [Some 5; Some 6; None]%Q 2 = Raise TypeError
  /\ calculate_volatility (fun _ => 0%Q) [Some 5; Some 6; None]%Q 2
     = Raise TypeError.
Proof. split; reflexivity. Qed.

(** ** The facade *)

Lemma get_signal_body_verdict (flt : Faults) (self : Strategy)
  (klines : list kline) :
  get_signal_body flt self klines
  = (v <- verdict_of flt self klines ;; Ok (apply_verdict self v)).
Proof.
  unfold get_signal_body, verdict_of.
  destruct (_ || _); [reflexivity|].
  destruct (negb _); [reflexivity|].
  destruct (numeric_nan _); [reflexivity|].
  destruct (fault_facade flt); [reflexivity|].
  destruct (_ <? _)%nat; [reflexivity|].
  destruct (f_sigs _); reflexivity.
Qed.

Lemma verdict_with_warning (flt : Faults) (self : Strategy)
  (klines : list kline) :
  verdict_of flt (with_warning self) klines = verdict_of flt self klines.
Proof.
  unfold verdict_of, add_indicators, min_required, indicators, zone_loop,
    zone_row, generate_price_action_signals, first_scored.
  cbn [with_warning lookback_period volatility_window momentum_window].
  reflexivity.
Qed.

Lemma verdict_with_signal (flt : Faults) (self : Strategy)
  (klines : list kline) (signal : string) (history : list HistoryEntry) :
  verdict_of flt (with_signal self signal history) klines
  = verdict_of flt self klines.
Proof.
  unfold verdict_of, add_indicators, min_required, indicators, zone_loop,
    zone_row, generate_price_action_signals, first_scored.
  cbn [with_signal lookback_period volatility_window momentum_window].
  reflexivity.
Qed.

Lemma verdict_after (flt : Faults) (self : Strategy) (klines : list kline)
  (v : Verdict) :
  verdict_of flt (snd (apply_verdict self v)) klines
  = verdict_of flt self klines.
Proof.
  destruct v; simpl snd;
    [apply verdict_with_warning|reflexivity|apply verdict_with_signal].
Qed.

Lemma get_signal_verdict (flt : Faults) (self : Strategy)
  (klines : list kline) :
  get_signal flt self klines
  = match verdict_of flt self klines with
    | Ok v => apply_verdict self v
    | Raise _ => (None, self)
    end.
Proof.
  unfold get_signal. rewrite get_signal_body_verdict.
  destruct (verdict_of flt self klines); reflexivity.
Qed.

Lemma frame_width_attained (klines : list kline) :
  klines <> [] -> exists r, In r klines /\ frame_width klines = length r.
Proof.
  induction klines as [|r rest IH]; [congruence|]. intros _.
  unfold frame_width in *. cbn [map fold_right].
  destruct rest as [|r' rest'].
  - exists r. split; [left; reflexivity|]. simpl. apply Nat.max_0_r.
  - destruct IH as (r0 & Hin & E); [discriminate|].
    destruct (Nat.max_dec (length r)
                (fold_right Nat.max 0%nat (map (@length fnum) (r' :: rest'))))
      as [H|H]; rewrite H.
    + exists r. split; [left; reflexivity|reflexivity].
    + exists r0. split; [right; exact Hin|exact E].
Qed.

Lemma min_required_pos (self : Strategy) : (5 <= min_required self)%nat.
Proof. unfold min_required. lia. Qed.

Lemma label_of_cases (latest : Sig) :
  label_of latest = "BUY"%string \/ label_of latest = "SELL"%string
  \/ label_of latest = "HOLD"%string.
Proof.
  unfold label_of. destruct (buy_signal latest); [auto|].
  destruct (sell_signal latest); auto.
Qed.

Lemma verdict_answer_label (flt : Faults) (self : Strategy)
  (klines : list kline) (signal : string) (entry : option HistoryEntry) :
  verdict_of flt self klines = Ok (Answer signal entry) ->
  signal = "BUY"%string \/ signal = "SELL"%string \/ signal = "HOLD"%string.
Proof.
  unfold verdict_of.
  destruct (_ || _); [discriminate|].
  destruct (negb _); [discriminate|].
  destruct (numeric_nan _); [discriminate|].
  destruct (fault_facade flt); [discriminate|].
  destruct (_ <? _)%nat; [discriminate|].
  destruct (f_sigs _); [|discriminate].
  intros H. injection H as <- _. apply label_of_cases.
Qed.

(** C8.  Calling [get_signal] twice on the same window, the second time on
    the instance as the first call left it, gives the same result; and
    either neither call records a history entry, or both record the same
    one: the same label, price, momentum, strength and reasons. *)
Theorem get_signal_idempotent (flt : Faults) (self : Strategy)
  (klines : list kline) :
  let first := get_signal flt self klines in
  let second := get_signal flt (snd first) klines in
  fst second = fst first
  /\ ((signal_history (snd first) = signal_history self
       /\ signal_history (snd second) = signal_history (snd first))
      \/ exists e : HistoryEntry,
           fst first = Some (h_signal e)
           /\ signal_history (snd first)
              = history_append e (signal_history self)
           /\ signal_history (snd second)
              = history_append e (signal_history (snd first))).
Proof.
  intros first second. unfold second, first.
  rewrite !get_signal_verdict.
  destruct (verdict_of flt self klines) as [v|e] eqn:E.
  - rewrite verdict_after, E.
    destruct v as [| |signal [entry|]]; simpl; split; auto.
    right. exists entry. repeat split; auto.
    f_equal.
    unfold verdict_of in E.
    destruct (_ || _); [discriminate|].
    destruct (negb _); [discriminate|].
    destruct (numeric_nan _); [discriminate|].
    destruct (fault_facade flt); [discriminate|].
    destruct (_ <? _)%nat; [discriminate|].
    destruct (f_sigs _); [|discriminate].
    injection E as E1 E2. unfold entry_of in E2.
    destruct (_ && _); [|discriminate].
    injection E2 as <-. simpl. symmetry. exact E1.
  - simpl. rewrite E. simpl. auto.
Qed.

(** * Further properties of the code *)

(** ** The instance across calls *)

Lemma history_append_length (e : HistoryEntry) (h : list HistoryEntry) :
  length (history_append e h) = Nat.min (S (length h)) 100.
Proof.
  unfold history_append. rewrite length_skipn, length_app. simpl. lia.
Qed.

Lemma history_append_room (e : HistoryEntry) (h : list HistoryEntry) :
  (length h < 100)%nat -> history_append e h = (h ++ [e])%list.
Proof.
  intros H. unfold history_append. rewrite length_app. simpl.
  replace (length h + 1 - 100)%nat with 0%nat by lia. reflexivity.
Qed.

Lemma history_append_full (e : HistoryEntry) (h : list HistoryEntry) :
  length h = 100%nat -> history_append e h = (tl h ++ [e])%list.
Proof.
  intros H. unfold history_append. rewrite length_app. simpl.
  replace (length h + 1 - 100)%nat with 1%nat by lia.
  destruct h as [|x h]; [discriminate|]. reflexivity.
Qed.

Lemma apply_verdict_history (self : Strategy) (v : Verdict) :
  signal_history (snd (apply_verdict self v)) = signal_history self
  \/ exists e, signal_history (snd (apply_verdict self v))
               = history_append e (signal_history self).
Proof.
  destruct v as [| |signal [e|]]; simpl; auto. right. exists e. reflexivity.
Qed.

Lemma get_signal_history (flt : Faults) (self : Strategy)
  (klines : list kline) :
  signal_history (snd (get_signal flt self klines)) = signal_history self
  \/ exists e, signal_history (snd (get_signal flt self klines))
               = history_append e (signal_history self).
Proof.
  rewrite get_signal_verdict.
  destruct (verdict_of flt self klines); [apply apply_verdict_history|auto].
Qed.




(** ** Rows of the signal table *)

Lemma length_assign (set : fnum -> Candle -> Candle) (df : list Candle) :
  forall new_col : list fnum, length (assign set new_col df) = length df.
Proof.
  induction df as [|c df IH]; intros [|v col]; simpl; auto.
Qed.

Lemma length_clean_with (dirty : list fnum -> bool)
  (fix_ : list fnum -> list fnum) (get : Candle -> fnum)
  (set : fnum -> Candle -> Candle) (df : list Candle) :
  length (clean_with dirty fix_ get set df) = length df.
Proof.
  unfold clean_with. destruct (dirty _); [apply length_assign|reflexivity].
Qed.

Lemma length_clean_prices (df : list Candle) :
  length (clean_prices df) = length df.
Proof.
  unfold clean_prices, clean_nonpositive.
  rewrite !length_clean_with. reflexivity.
Qed.

Lemma length_clean_numeric (df : list Candle) :
  length (clean_numeric df) = length df.
Proof.
  unfold clean_numeric. rewrite !length_clean_with. reflexivity.
Qed.

Lemma enriched_frame (flt : Faults) (self : Strategy) (df : list Candle)
  (sigs : list Sig) :
  f_sigs (add_indicators flt self df) = Some sigs ->
  exists inds zones flags,
    sigs = generate_price_action_signals flt self (clean_prices df) inds
             zones flags
    /\ f_candles (add_indicators flt self df) = clean_prices df
    /\ length sigs = length df.
Proof.
  unfold add_indicators.
  destruct (_ <? _)%nat; [discriminate|].
  destruct (fault_enrich flt); [discriminate|].
  simpl. intros H. injection H as <-.
  eexists; eexists; eexists. split; [reflexivity|]. split; [reflexivity|].
  unfold generate_price_action_signals.
  rewrite row_loop_length, repeat_length. apply length_clean_prices.
Qed.

Lemma generated_row_cases (flt : Faults) (self : Strategy)
  (df : list Candle) (inds : list Ind) (zones : list ZoneCount)
  (flags : list Flags) (i : nat) :
  let row :=
    nth i (generate_price_action_signals flt self df inds zones flags)
        initial_sig in
  row = initial_sig
  \/ ((first_scored self <= i < length df)%nat
      /\ reaches_decision df inds i = true
      /\ exists b s rs,
           row_scores df inds zones flags i = (b, s, rs)
           /\ row = decide b s rs initial_sig).
Proof.
  intros row. unfold row, generate_price_action_signals.
  destruct (row_loop_cases initial_sig (fault_signals flt)
              (signal_write df inds zones flags) (first_scored self)
              (length df) (repeat initial_sig (length df)) i)
    as [H|(Hi & _ & _ & H)].
  - left. rewrite H. apply nth_repeat_same.
  - right. rewrite nth_repeat_same in H.
    set (r := nth i _ initial_sig) in *. clearbody r.
    unfold signal_write in H.
    destruct (reaches_decision df inds i); [|discriminate].
    destruct (row_scores df inds zones flags i) as [[b s] rs].
    simpl in H. injection H as <-.
    split; [exact Hi|]. split; [reflexivity|].
    exists b, s, rs. auto.
Qed.



Lemma first_match_in (patterns : list (string * bool * Z)) (name : string)
  (score : Z) :
  first_match patterns = Some (name, score) ->
  In (name, true, score) patterns.
Proof.
  induction patterns as [|[[n d] sc] rest IH]; [discriminate|]. simpl.
  destruct d.
  - intros H. injection H as -> ->. left. reflexivity.
  - intros H. right. apply IH. exact H.
Qed.

Lemma first_match_none (patterns : list (string * bool * Z)) :
  first_match patterns = None ->
  forall n d sc, In (n, d, sc) patterns -> d = false.
Proof.
  induction patterns as [|[[n0 d0] sc0] rest IH]; intros H n d sc Hin.
  - destruct Hin.
  - simpl in H. destruct d0; [discriminate|].
    destruct Hin as [E|Hin]; [congruence|]. eapply IH; eauto.
Qed.

Lemma score_parts (p1 p2 p3 p4 : Z * list reason) :
  score_part 7 p1 -> score_part 9 p2 -> score_part 6 p3 ->
  score_part 3 p4 ->
  score_part 25 ((fst p1 + fst p2 + fst p3 + fst p4)%Z,
                 (snd p1 ++ snd p2 ++ snd p3 ++ snd p4)%list).
Proof.
  destruct p1 as [s1 r1], p2 as [s2 r2], p3 as [s3 r3], p4 as [s4 r4].
  unfold score_part. cbn [fst snd].
  intros (B1 & E1 & L1) (B2 & E2 & L2) (B3 & E3 & L3) (B4 & E4 & L4).
  split; [lia|]. split; [|lia]. split.
  - intros H.
    assert (s1 = 0 /\ s2 = 0 /\ s3 = 0 /\ s4 = 0)%Z as (Z1 & Z2 & Z3 & Z4)
      by lia.
    rewrite (proj1 E1 Z1), (proj1 E2 Z2), (proj1 E3 Z3), (proj1 E4 Z4).
    reflexivity.
  - intros H.
    apply app_eq_nil in H. destruct H as (H1 & H).
    apply app_eq_nil in H. destruct H as (H2 & H).
    apply app_eq_nil in H. destruct H as (H3 & H4).
    rewrite (proj2 E1 H1), (proj2 E2 H2), (proj2 E3 H3), (proj2 E4 H4).
    reflexivity.
Qed.

Lemma zone_part (m : option (string * Z)) (bonus : bool)
  (mk : string -> reason) (extra : reason) :
  match m with Some (_, sc) => (3 <= sc <= 5)%Z | None => True end ->
  score_part 7
    (let '(s, r) :=
       match m with
       | Some (name, score) => (score, [mk name])
       | None => (0%Z, [])
       end in
     if bonus then ((s + 2)%Z, (r ++ [extra])%list) else (s, r)).
Proof.
  unfold score_part.
  destruct m as [[n sc]|], bonus; cbn [fst snd app]; intros H;
    (split; [lia|split; [split; intros; try discriminate; try lia;
                         reflexivity|lia]]).
Qed.

Lemma level_part (m : option (string * Z)) (bonus : bool)
  (mk : string -> reason) (extra : reason) :
  match m with Some (_, sc) => (4 <= sc <= 5)%Z | None => True end ->
  score_part 9
    (let '(s, r) :=
       match m with
       | Some (name, score) => (score, [mk name])
       | None => (0%Z, [])
       end in
     if bonus then ((s + 4)%Z, (r ++ [extra])%list) else (s, r)).
Proof.
  unfold score_part.
  destruct m as [[n sc]|], bonus; cbn [fst snd app]; intros H;
    (split; [lia|split; [split; intros; try discriminate; try lia;
                         reflexivity|lia]]).
Qed.

Lemma continuation_part (n1 n2 : string) (d1 d2 : bool) :
  let cont := all_matches [(n1, d1, 3%Z); (n2, d2, 3%Z)] in
  score_part 6 (fold_right Z.add 0%Z (map snd cont),
                map (fun p : string * Z => PlainReason (fst p)) cont).
Proof.
  unfold score_part, all_matches.
  destruct d1, d2; cbn [flat_map app map fold_right fst snd];
    (split; [lia|split; [split; intros; try discriminate; try lia;
                         reflexivity|lia]]).
Qed.

Lemma momentum_part (strong near bounce : bool) (r2 r3 : reason) :
  score_part 3
    (if strong then
       if near then (2%Z, [r2])
       else if bounce then (3%Z, [r3]) else (0%Z, [])
     else (0%Z, [])).
Proof.
  unfold score_part.
  destruct strong, near, bounce; cbn [fst snd];
    (split; [lia|split; [split; intros; try discriminate; try lia;
                         reflexivity|lia]]).
Qed.

Lemma nothing_part (hi : Z) : (0 <= hi)%Z -> score_part hi (0%Z, []).
Proof. unfold score_part. cbn [fst snd]. intros. intuition lia. Qed.

Ltac scores_of_list E :=
  apply first_match_in in E; simpl in E;
  repeat (destruct E as [E|E]; [injection E as _ _ <-; lia|]);
  destruct E.

(** The score of a side is the sum of four parts: a zone pattern (at most
    one of the list, 3 to 5) with its spinning bonus (2), a level pattern
    (at most one, 4 or 5) with its volume bonus (4), the continuation
    patterns (3 each) and the momentum confirmation (2 or 3). *)
Lemma buy_conditions_bounds (z : ZoneCount) (current prev : Candle)
  (ind prev_ind : Ind) (f prev_f : Flags) :
  score_part 25 (buy_conditions z current prev ind prev_ind f prev_f).
Proof.
  unfold buy_conditions.
  set (P1 := if in_support_zone ind && _ then _ else _).
  set (P2 := if (resistance ind >? k 0)%F then _ else _).
  set (C := all_matches _).
  set (P4 := if negb (F.isna (price_momentum ind)) && _ then _ else _).
  assert (H1 : score_part 7 P1).
  { unfold P1. destruct (in_support_zone ind && _);
      [|apply nothing_part; lia].
    apply zone_part.
    match goal with
    | |- match first_match ?l with _ => _ end =>
        destruct (first_match l) as [[n sc]|] eqn:E; [|exact I]
    end.
    scores_of_list E. }
  assert (H2 : score_part 9 P2).
  { unfold P2. destruct (resistance ind >? k 0)%F;
      [|apply nothing_part; lia].
    apply (level_part _ _ (fun name => LevelReason name (resistance ind))).
    match goal with
    | |- match first_match ?l with _ => _ end =>
        destruct (first_match l) as [[n sc]|] eqn:E; [|exact I]
    end.
    scores_of_list E. }
  assert (H3 : score_part 6
                 (fold_right Z.add 0%Z (map snd C),
                  map (fun p : string * Z => PlainReason (fst p)) C))
    by apply continuation_part.
  assert (H4 : score_part 3 P4) by apply momentum_part.
  clearbody P1 P2 C P4.
  pose proof (score_parts H1 H2 H3 H4) as H.
  destruct P1 as [s1 r1], P2 as [s2 r2], P4 as [s4 r4]. exact H.
Qed.

Lemma sell_conditions_bounds (z : ZoneCount) (current prev : Candle)
  (ind prev_ind : Ind) (f prev_f : Flags) :
  score_part 25 (sell_conditions z current prev ind prev_ind f prev_f).
Proof.
  unfold sell_conditions.
  set (P1 := if in_resistance_zone ind && _ then _ else _).
  set (P2 := if (support ind >? k 0)%F then _ else _).
  set (C := all_matches _).
  set (P4 := if negb (F.isna (price_momentum ind)) && _ then _ else _).
  assert (H1 : score_part 7 P1).
  { unfold P1. destruct (in_resistance_zone ind && _);
      [|apply nothing_part; lia].
    apply zone_part.
    match goal with
    | |- match first_match ?l with _ => _ end =>
        destruct (first_match l) as [[n sc]|] eqn:E; [|exact I]
    end.
    scores_of_list E. }
  assert (H2 : score_part 9 P2).
  { unfold P2. destruct (support ind >? k 0)%F;
      [|apply nothing_part; lia].
    apply (level_part _ _ (fun name => LevelReason name (support ind))).
    match goal with
    | |- match first_match ?l with _ => _ end =>
        destruct (first_match l) as [[n sc]|] eqn:E; [|exact I]
    end.
    scores_of_list E. }
  assert (H3 : score_part 6
                 (fold_right Z.add 0%Z (map snd C),
                  map (fun p : string * Z => PlainReason (fst p)) C))
    by apply continuation_part.
  assert (H4 : score_part 3 P4) by apply momentum_part.
  clearbody P1 P2 C P4.
  pose proof (score_parts H1 H2 H3 H4) as H.
  destruct P1 as [s1 r1], P2 as [s2 r2], P4 as [s4 r4]. exact H.
Qed.

Lemma row_scores_parts (df : list Candle) (inds : list Ind)
  (zones : list ZoneCount) (flags : list Flags) (i : nat)
  (b s : Z) (rs : list reason) :
  row_scores df inds zones flags i = (b, s, rs) ->
  exists br sr,
    score_part 25 (b, br) /\ score_part 25 (s, sr) /\ rs = (br ++ sr)%list.
Proof.
  unfold row_scores.
  set (B := buy_conditions _ _ _ _ _ _ _).
  set (S := sell_conditions _ _ _ _ _ _ _).
  assert (HB : score_part 25 B) by apply buy_conditions_bounds.
  assert (HS : score_part 25 S) by apply sell_conditions_bounds.
  clearbody B S. destruct B as [b0 br], S as [s0 sr].
  intros H. injection H as <- <- <-. exists br, sr. auto.
Qed.



Lemma decide_nothing (row : Sig) : decide 0 0 [] row = row.
Proof. reflexivity. Qed.



(** ** Flags that exclude each other *)

Lemma F_lt_inv (x y : fnum) :
  (x <? y)%F = true -> exists a b, x = Some a /\ y = Some b /\ (a < b)%Q.
Proof.
  destruct x as [a|], y as [b|]; try discriminate.
  intros H. exists a, b. split; [reflexivity|]. split; [reflexivity|].
  apply Qltb_lt. exact H.
Qed.

Lemma F_lt_asym (x y : fnum) : (x <? y)%F = true -> (y <? x)%F = false.
Proof.
  intros H. destruct (F_lt_inv _ _ H) as (a & b & -> & -> & Hlt).
  destruct (F.lt (Some b) (Some a)) eqn:E; [|reflexivity].
  apply Qltb_lt in E. lra.
Qed.

Lemma F_mul_inv (x : fnum) (c v : Q) :
  (x * k c)%F = Some v -> exists a, x = Some a /\ v = (a * c)%Q.
Proof.
  destruct x as [a|]; [|discriminate].
  intros H. injection H as <-. exists a. auto.
Qed.

Lemma body_nonneg (c : Candle) (b : Q) : body_of c = Some b -> (0 <= b)%Q.
Proof.
  unfold body_of, F.abs.
  destruct (close c - open c)%F as [d|]; [|discriminate].
  intros H. injection H as <-. apply Qabs_nonneg.
Qed.

(** Two opposite strict tests on the same pair of cells. *)
Lemma opposite_tests (x y : fnum) :
  (x <? y)%F = true -> (x >? y)%F = true -> False.
Proof.
  intros H1 H2. unfold F.gt in H2. apply F_lt_asym in H1. congruence.
Qed.

(** A shadow cannot be above 2.5 bodies and under 0.4 bodies. *)
Lemma long_and_short (c : Candle) (shadow : fnum) :
  (shadow >? body_of c * k 2.5)%F = true ->
  (shadow <? body_of c * k 0.4)%F = true -> False.
Proof.
  unfold F.gt. intros H1 H2.
  destruct (F_lt_inv _ _ H1) as (v1 & u & E1 & -> & L1).
  destruct (F_lt_inv _ _ H2) as (u' & v2 & Eu & E2 & L2).
  injection Eu as <-.
  destruct (F_mul_inv _ _ E1) as (b & Eb & ->).
  destruct (F_mul_inv _ _ E2) as (b' & Eb' & ->).
  rewrite Eb in Eb'. injection Eb' as <-.
  pose proof (body_nonneg _ Eb). lra.
Qed.

Lemma flag_pattern_shape (df : list Candle) (i : nat) :
  let current := nth i df nan_candle in
  (fst (flag_pattern df i) = true ->
   (close current >? open current)%F = true
   /\ snd (flag_pattern df i) = false)
  /\ (snd (flag_pattern df i) = true ->
      (close current <? open current)%F = true
      /\ fst (flag_pattern df i) = false).
Proof.
  unfold flag_pattern.
  destruct (5 <=? i)%nat; [|split; simpl; discriminate].
  destruct (F.abs _ >? k 0.02)%F; [|split; simpl; discriminate].
  destruct (_ <? _)%F; [|split; simpl; discriminate].
  match goal with
  | |- context [if ?c then (true, false) else _] => destruct c eqn:E1
  end.
  - apply andb_true_iff in E1. destruct E1 as (E1 & _).
    apply andb_true_iff in E1. destruct E1 as (_ & E1).
    split; simpl; [auto|discriminate].
  - match goal with
    | |- context [if ?c then (false, true) else _] => destruct c eqn:E2
    end; [|split; simpl; discriminate].
    apply andb_true_iff in E2. destruct E2 as (E2 & _).
    apply andb_true_iff in E2. destruct E2 as (_ & E2).
    split; simpl; [discriminate|auto].
Qed.

Lemma pennant_pattern_shape (df : list Candle) (i : nat) :
  let current := nth i df nan_candle in
  (fst (pennant_pattern df i) = true ->
   (close current >? open current)%F = true
   /\ snd (pennant_pattern df i) = false)
  /\ (snd (pennant_pattern df i) = true ->
      (close current <? open current)%F = true
      /\ fst (pennant_pattern df i) = false).
Proof.
  unfold pennant_pattern.
  destruct (6 <=? i)%nat; [|split; simpl; discriminate].
  destruct (_ <? _)%F; [|split; simpl; discriminate].
  destruct (F.abs _ >? k 0.02)%F; [|split; simpl; discriminate].
  match goal with
  | |- context [if ?c then (true, false) else _] => destruct c eqn:E1
  end.
  - apply andb_true_iff in E1. destruct E1 as (E1 & _).
    apply andb_true_iff in E1. destruct E1 as (_ & E1).
    split; simpl; [auto|discriminate].
  - match goal with
    | |- context [if ?c then (false, true) else _] => destruct c eqn:E2
    end; [|split; simpl; discriminate].
    apply andb_true_iff in E2. destruct E2 as (E2 & _).
    apply andb_true_iff in E2. destruct E2 as (_ & E2).
    split; simpl; [discriminate|auto].
Qed.

(** Splits every conjunction of tests that is known to hold. *)
Ltac split_tests :=
  repeat match goal with
         | H : _ && _ = true |- _ =>
             apply andb_true_iff in H; destruct H
         | H : negb _ = true |- _ => apply negb_true_iff in H
         end.

(** Proves [a && b = false] from a contradiction between the tests of
    [a] and those of [b]. *)
Ltac exclusive tac :=
  match goal with
  | |- ?a && ?b = false =>
      let Ea := fresh "Ea" in
      let Eb := fresh "Eb" in
      destruct a eqn:Ea; [|reflexivity];
      destruct b eqn:Eb; [|reflexivity];
      exfalso; split_tests; tac
  end.

Ltac opposite :=
  solve [ congruence
        | match goal with
          | H1 : (?x <? ?y)%F = true, H2 : (?x >? ?y)%F = true |- _ =>
              exact (opposite_tests _ _ H1 H2)
          | H1 : (?s >? body_of ?c * k 2.5)%F = true,
            H2 : (?s <? body_of ?c * k 0.4)%F = true |- _ =>
              exact (long_and_short _ _ H1 H2)
          end ].

Lemma detect_pairs (df : list Candle) (inds : list Ind) (i : nat) :
  let f := detect df inds i in
  pin_bar_bullish f && pin_bar_bearish f = false
  /\ engulfing_bullish f && engulfing_bearish f = false
  /\ morning_star f && evening_star f = false
  /\ tweezer_bottom f && tweezer_top f = false
  /\ three_white_soldiers f && three_black_crows f = false
  /\ marubozu_bullish f && marubozu_bearish f = false
  /\ spinning_top f && spinning_bottom f = false
  /\ inside_bar f && outside_bar f = false
  /\ bullish_flag f && bearish_flag f = false
  /\ bullish_pennant f && bearish_pennant f = false.
Proof.
  unfold detect.
  pose proof (flag_pattern_shape df i) as (Hf1 & Hf2).
  pose proof (pennant_pattern_shape df i) as (Hp1 & Hp2).
  destruct (flag_pattern df i) as [bf rf], (pennant_pattern df i) as [bp rp].
  cbn [fst snd] in *.
  cbn [pin_bar_bullish pin_bar_bearish engulfing_bullish engulfing_bearish
       morning_star evening_star tweezer_bottom tweezer_top
       three_white_soldiers three_black_crows marubozu_bullish
       marubozu_bearish spinning_top spinning_bottom inside_bar outside_bar
       bullish_flag bearish_flag bullish_pennant bearish_pennant].
  repeat split; try (exclusive opposite).
  - destruct bf; [|reflexivity]. destruct (Hf1 eq_refl) as (_ & ->).
    reflexivity.
  - destruct bp; [|reflexivity]. destruct (Hp1 eq_refl) as (_ & ->).
    reflexivity.
Qed.


(** A body under a tenth of a positive range is not above nine tenths of
    it. *)
Lemma small_and_full (c : Candle) :
  small_body_of c = true -> (body_of c >? range_of c * k 0.9)%F = true ->
  False.
Proof.
  unfold small_body_of, F.gt. intros Hs Hb.
  apply andb_true_iff in Hs. destruct Hs as (H1 & H2).
  destruct (F_lt_inv _ _ H1) as (b & v1 & Eb & E1 & L1).
  destruct (F_lt_inv _ _ H2) as (z & r & Ez & Er & L2).
  destruct (F_lt_inv _ _ Hb) as (v2 & b' & E2 & Eb' & L3).
  rewrite Eb in Eb'. injection Eb' as <-.
  injection Ez as <-.
  destruct (F_mul_inv _ _ E1) as (r1 & Er1 & ->).
  destruct (F_mul_inv _ _ E2) as (r2 & Er2 & ->).
  rewrite Er in Er1, Er2. injection Er1 as <-. injection Er2 as <-. lra.
Qed.

Lemma small_and_meaningful (c : Candle) :
  small_body_of c = true -> (body_of c >? range_of c * k 0.1)%F = true ->
  False.
Proof.
  unfold small_body_of. intros Hs Hb.
  apply andb_true_iff in Hs. destruct Hs as (H1 & _).
  exact (opposite_tests _ _ H1 Hb).
Qed.

Lemma detect_indecision (df : list Candle) (inds : list Ind) (i : nat) :
  let f := detect df inds i in
  gravestone_doji f || dragonfly_doji f || doji f = true ->
  pin_bar_bullish f = false /\ pin_bar_bearish f = false
  /\ marubozu_bullish f = false /\ marubozu_bearish f = false
  /\ spinning_top f = false /\ spinning_bottom f = false.
Proof.
  unfold detect.
  destruct (flag_pattern df i) as [bf rf], (pennant_pattern df i) as [bp rp].
  cbn [gravestone_doji dragonfly_doji doji pin_bar_bullish pin_bar_bearish
       marubozu_bullish marubozu_bearish spinning_top spinning_bottom].
  intros H.
  assert (Hs : small_body_of (nth i df nan_candle) = true).
  { destruct (small_body_of _); [reflexivity|]. simpl in H. discriminate. }
  clear H.
  pose proof (small_and_full _ Hs) as Hfull.
  pose proof (small_and_meaningful _ Hs) as Hmean.
  repeat split;
    match goal with
    | |- ?a = false =>
        let E := fresh "E" in
        destruct a eqn:E; [exfalso; split_tests; auto|reflexivity]
    end.
Qed.



Lemma green_not_red (c : Candle) :
  (close c <? open c)%F = true -> (close c >? open c)%F = false.
Proof. intros H. unfold F.gt. apply F_lt_asym. exact H. Qed.

Lemma detect_composites (df : list Candle) (inds : list Ind) (i : nat) :
  let f := detect df inds i in
  let current := nth i df nan_candle in
  let ind := nth i inds nan_ind in
  (bullish_rejection f = true -> in_support_zone ind = true)
  /\ (bearish_rejection f = true -> in_resistance_zone ind = true)
  /\ (bullish_breakout f = true ->
      (resistance ind >? k 0)%F = true
      /\ (close current >? open current)%F = true)
  /\ (bearish_breakout f = true ->
      (support ind >? k 0)%F = true
      /\ (close current >? open current)%F = false).
Proof.
  unfold detect.
  pose proof (flag_pattern_shape df i) as (Hf1 & Hf2).
  pose proof (pennant_pattern_shape df i) as (Hp1 & Hp2).
  destruct (flag_pattern df i) as [bf rf], (pennant_pattern df i) as [bp rp].
  cbn [fst snd] in *.
  cbn [bullish_rejection bearish_rejection bullish_breakout
       bearish_breakout existsb id].
  pose proof (@green_not_red (nth i df nan_candle)) as Hred.
  split; [|split; [|split]]; intros Hc;
    apply andb_true_iff in Hc; destruct Hc as (H0 & Hc); try exact H0;
    (split; [exact H0|]);
    rewrite ?orb_false_r in Hc;
    repeat (apply orb_true_iff in Hc; destruct Hc as [Hc|Hc]);
    unfold id in *; split_tests; subst; auto;
    try (destruct (Hf1 eq_refl); assumption);
    try (destruct (Hp1 eq_refl); assumption);
    try (destruct (Hf2 eq_refl); auto);
    try (destruct (Hp2 eq_refl); auto).
Qed.


(** ** Bounds of the zone counters *)

Lemma count_rows_le {A} (p : A -> bool) (w : list A) :
  (count_rows p w <= Z.of_nat (length w))%Z.
Proof.
  unfold count_rows. pose proof (filter_length_le p w). lia.
Qed.

Lemma count_rows_disjoint {A} (p q : A -> bool) (w : list A) :
  (forall a, p a && q a = false) ->
  (count_rows p w + count_rows q w <= Z.of_nat (length w))%Z.
Proof.
  intros H. unfold count_rows.
  induction w as [|a w IH]; cbn [filter length]; [lia|].
  specialize (H a). destruct (p a), (q a); cbn [andb length] in *;
    try discriminate; lia.
Qed.

Lemma length_slice {A} (a b : nat) (l : list A) :
  (length (slice a b l) <= b - a)%nat.
Proof. unfold slice. rewrite length_firstn. lia. Qed.

Lemma resistance_counts_le (level : fnum) (recent : list Candle) :
  (0 <= fst (resistance_counts level recent) <= Z.of_nat (length recent))%Z
  /\ (0 <= snd (resistance_counts level recent)
      <= 3 * Z.of_nat (length recent))%Z.
Proof.
  unfold resistance_counts, strength_of. cbn [fst snd].
  set (lo := (level * k (1 - zone_width))%F).
  set (hi := (level * k (1 + zone_width))%F).
  set (T := count_rows _ recent).
  set (Z := count_rows (fun c => (close c >=? lo)%F && (close c <=? hi)%F)
                       recent).
  set (R := count_rows (fun c => (high c >=? lo)%F && (close c <? lo)%F)
                       recent).
  assert (HT : (0 <= T <= Z.of_nat (length recent))%Z)
    by (split; [apply count_rows_nonneg|apply count_rows_le]).
  assert (HZ : (0 <= Z)%Z) by apply count_rows_nonneg.
  assert (HR : (0 <= R)%Z) by apply count_rows_nonneg.
  assert (HR' : (R <= Z.of_nat (length recent))%Z) by apply count_rows_le.
  assert (HZR : (Z + R <= Z.of_nat (length recent))%Z).
  { apply count_rows_disjoint. intros c.
    unfold F.ge, F.le, F.lt, F.cmp, F.Qltb.
    destruct (close c) as [a|], lo as [l|], hi as [h|], (high c) as [b|];
      try reflexivity; rewrite ?andb_false_r; try reflexivity;
      destruct (Qle_bool l a); simpl; rewrite ?andb_false_r; reflexivity. }
  lia.
Qed.

Lemma support_counts_le (level : fnum) (recent : list Candle) :
  (0 <= fst (support_counts level recent) <= Z.of_nat (length recent))%Z
  /\ (0 <= snd (support_counts level recent)
      <= 3 * Z.of_nat (length recent))%Z.
Proof.
  unfold support_counts, strength_of. cbn [fst snd].
  set (lo := (level * k (1 - zone_width))%F).
  set (hi := (level * k (1 + zone_width))%F).
  set (T := count_rows _ recent).
  set (Z := count_rows (fun c => (close c >=? lo)%F && (close c <=? hi)%F)
                       recent).
  set (R := count_rows (fun c => (low c <=? hi)%F && (close c >? hi)%F)
                       recent).
  assert (HT : (0 <= T <= Z.of_nat (length recent))%Z)
    by (split; [apply count_rows_nonneg|apply count_rows_le]).
  assert (HZ : (0 <= Z)%Z) by apply count_rows_nonneg.
  assert (HR : (0 <= R)%Z) by apply count_rows_nonneg.
  assert (HZR : (Z + R <= Z.of_nat (length recent))%Z).
  { apply count_rows_disjoint. intros c.
    unfold F.gt, F.ge, F.le, F.lt, F.cmp, F.Qltb.
    destruct (close c) as [a|], lo as [l|], hi as [h|], (low c) as [b|];
      try reflexivity; rewrite ?andb_false_r; try reflexivity;
      destruct (Qle_bool a h); simpl; rewrite ?andb_false_r; reflexivity. }
  lia.
Qed.


(** ** The repair of a column *)

Lemma length_interpolate_from (col : list fnum) :
  forall prev, length (interpolate_from prev col) = length col.
Proof.
  induction col as [|[v|] col IH]; intros prev; simpl; auto.
  destruct prev as [[d0 v0]|]; simpl; auto.
Qed.

Lemma length_bfill (col : list fnum) : length (bfill col) = length col.
Proof.
  induction col as [|[v|] col IH]; simpl; auto.
  destruct (bfill col) as [|[y|] t]; simpl in *; auto.
Qed.

Lemma length_ffill_from (col : list fnum) :
  forall prev, length (ffill_from prev col) = length col.
Proof.
  induction col as [|[v|] col IH]; intros prev; simpl; auto.
Qed.

Lemma length_repair (col : list fnum) : length (repair col) = length col.
Proof.
  unfold repair, ffill, interpolate.
  rewrite length_ffill_from, length_bfill, length_interpolate_from.
  reflexivity.
Qed.

Lemma interpolate_from_full (col : list fnum) :
  forall p, has_nan (interpolate_from (Some p) col) = false.
Proof.
  induction col as [|[v|] col IH]; intros [d0 v0]; simpl; auto.
Qed.

Lemma interpolate_from_clean (col : list fnum) :
  has_nan col = false -> forall prev, interpolate_from prev col = col.
Proof.
  induction col as [|[v|] col IH]; intros H prev; simpl in *;
    [reflexivity| |discriminate].
  rewrite IH by exact H. reflexivity.
Qed.

Lemma bfill_clean (col : list fnum) : has_nan col = false -> bfill col = col.
Proof.
  induction col as [|[v|] col IH]; intros H; simpl in *;
    [reflexivity| |discriminate].
  rewrite IH by exact H. reflexivity.
Qed.

Lemma ffill_from_clean (col : list fnum) :
  has_nan col = false -> forall prev, ffill_from prev col = col.
Proof.
  induction col as [|[v|] col IH]; intros H prev; simpl in *;
    [reflexivity| |discriminate].
  rewrite IH by exact H. reflexivity.
Qed.

Lemma repair_clean (col : list fnum) : has_nan col = false -> repair col = col.
Proof.
  intros H. unfold repair, ffill, interpolate.
  rewrite (interpolate_from_clean _ H), (bfill_clean _ H).
  apply ffill_from_clean. exact H.
Qed.

Lemma interpolate_all_nan (col : list fnum) :
  all_nan col = true -> interpolate_from None col = col.
Proof.
  unfold all_nan.
  induction col as [|[v|] col IH]; intros H; simpl in *;
    [reflexivity|discriminate|].
  rewrite IH by exact H. reflexivity.
Qed.

Lemma bfill_all_nan (col : list fnum) : all_nan col = true -> bfill col = col.
Proof.
  unfold all_nan.
  induction col as [|[v|] col IH]; intros H; simpl in *;
    [reflexivity|discriminate|].
  rewrite IH by exact H.
  destruct col as [|[y|] t]; simpl in *; try reflexivity; discriminate.
Qed.

Lemma ffill_all_nan (col : list fnum) :
  all_nan col = true -> ffill_from None col = col.
Proof.
  unfold all_nan.
  induction col as [|[v|] col IH]; intros H; simpl in *;
    [reflexivity|discriminate|].
  rewrite IH by exact H. reflexivity.
Qed.

Lemma repair_all_nan (col : list fnum) : all_nan col = true -> repair col = col.
Proof.
  intros H. unfold repair, ffill, interpolate.
  rewrite (interpolate_all_nan _ H), (bfill_all_nan _ H).
  apply ffill_all_nan. exact H.
Qed.

Lemma bfill_interpolate_full (col : list fnum) :
  all_nan col = false -> has_nan (bfill (interpolate_from None col)) = false.
Proof.
  unfold all_nan.
  induction col as [|[v|] col IH]; intros H; simpl in *; [discriminate| |].
  - rewrite bfill_clean by apply interpolate_from_full.
    apply interpolate_from_full.
  - specialize (IH H).
    assert (Hlen : length (bfill (interpolate_from None col)) = length col)
      by (rewrite length_bfill, length_interpolate_from; reflexivity).
    destruct (bfill (interpolate_from None col)) as [|[y|] t] eqn:E;
      simpl in *; auto.
    destruct col; [discriminate H|discriminate Hlen].
Qed.

Lemma repair_full (col : list fnum) :
  all_nan col = false -> has_nan (repair col) = false.
Proof.
  intros H. unfold repair, ffill, interpolate.
  rewrite ffill_from_clean by (apply bfill_interpolate_full; exact H).
  apply bfill_interpolate_full. exact H.
Qed.


Lemma next_valid_in (col : list fnum) :
  forall d v, next_valid col = Some (d, v) -> In (Some v) col.
Proof.
  induction col as [|[x|] col IH]; intros d v H; simpl in *;
    [discriminate| |].
  - injection H as _ <-. left. reflexivity.
  - destruct (next_valid col) as [[d1 v1]|]; [|discriminate].
    injection H as _ <-. right. eapply IH. reflexivity.
Qed.

Lemma gap_fraction (d0 d1 : nat) :
  (0 <= inject_Z (Z.of_nat d0) / inject_Z (Z.of_nat (d0 + d1 + 1)) <= 1)%Q.
Proof.
  assert (Hpos : (0 < inject_Z (Z.of_nat (d0 + d1 + 1)))%Q).
  { change 0%Q with (inject_Z 0). rewrite <- Zlt_Qlt. lia. }
  split.
  - apply Qle_shift_div_l; [exact Hpos|].
    rewrite Qmult_0_l. change 0%Q with (inject_Z 0).
    rewrite <- Zle_Qle. lia.
  - apply Qle_shift_div_r; [exact Hpos|].
    rewrite Qmult_1_l. rewrite <- Zle_Qle. lia.
Qed.

Lemma interpolate_from_convex (P : Q -> Prop) (col : list fnum) :
  convex P ->
  (forall v, In (Some v) col -> P v) ->
  forall prev,
    match prev with Some (_, v0) => P v0 | None => True end ->
    forall v, In (Some v) (interpolate_from prev col) -> P v.
Proof.
  intros HP. induction col as [|[x|] col IH]; intros Hcol prev Hprev v Hin;
    simpl in Hin.
  - destruct Hin.
  - destruct Hin as [E|Hin].
    + injection E as <-. apply Hcol. left. reflexivity.
    + apply (IH (fun w Hw => Hcol w (or_intror Hw)) (Some (1%nat, x)));
        [apply Hcol; left; reflexivity|exact Hin].
  - destruct prev as [[d0 v0]|].
    + simpl in Hin. destruct Hin as [E|Hin].
      * injection E as <-.
        destruct (next_valid col) as [[d1 v1]|] eqn:En; [|exact Hprev].
        apply HP; [exact Hprev| |apply gap_fraction].
        apply Hcol. right. eapply next_valid_in. exact En.
      * apply (IH (fun w Hw => Hcol w (or_intror Hw)) (Some (S d0, v0)));
          [exact Hprev|exact Hin].
    + simpl in Hin. destruct Hin as [E|Hin]; [discriminate|].
      apply (IH (fun w Hw => Hcol w (or_intror Hw)) None); [exact I|exact Hin].
Qed.

Lemma bfill_in (col : list fnum) :
  forall v, In (Some v) (bfill col) -> In (Some v) col.
Proof.
  induction col as [|[x|] col IH]; intros v H; simpl in *; auto.
  - destruct H as [E|H]; [left; exact E|right; apply IH; exact H].
  - destruct (bfill col) as [|[y|] t] eqn:E; simpl in *.
    + destruct H as [E'|[]]. discriminate.
    + destruct H as [E'|H].
      * injection E' as <-. right. apply IH. left. reflexivity.
      * right. apply IH. exact H.
    + destruct H as [E'|H]; [discriminate|]. right. apply IH. exact H.
Qed.

Lemma ffill_from_in (col : list fnum) :
  forall prev v, In (Some v) (ffill_from prev col) ->
                 prev = Some v \/ In (Some v) col.
Proof.
  induction col as [|[x|] col IH]; intros prev v H; simpl in *.
  - destruct H.
  - destruct H as [E|H]; [right; left; exact E|].
    destruct (IH _ _ H) as [E|Hin]; [right; left; exact E|right; right; exact Hin].
  - destruct H as [E|H]; [left; exact E|].
    destruct (IH _ _ H) as [E|Hin]; [left; exact E|right; right; exact Hin].
Qed.

Lemma repair_convex (P : Q -> Prop) (col : list fnum) :
  convex P -> (forall v, In (Some v) col -> P v) ->
  forall v, In (Some v) (repair col) -> P v.
Proof.
  intros HP Hcol v Hin. unfold repair, ffill, interpolate in Hin.
  apply ffill_from_in in Hin. destruct Hin as [E|Hin]; [discriminate|].
  apply bfill_in in Hin.
  exact (interpolate_from_convex col HP Hcol None I v Hin).
Qed.

Lemma interval_convex (lo hi : Q) : convex (fun v => (lo <= v <= hi)%Q).
Proof. unfold convex. intros a b t Ha Hb Ht. nra. Qed.

Lemma positive_convex : convex (fun v => (0 < v)%Q).
Proof. unfold convex. intros a b t Ha Hb Ht. nra. Qed.

Lemma replace_zero_in (col : list fnum) (v : Q) :
  In (Some v) (replace_zero col) -> In (Some v) col /\ Qeq_bool v 0 = false.
Proof.
  unfold replace_zero. rewrite in_map_iff. intros ([x|] & E & Hin).
  - cbv beta iota delta [F.eq F.cmp k] in E.
    destruct (Qeq_bool x 0) eqn:Ex; [discriminate|].
    injection E as <-. auto.
  - discriminate.
Qed.

Lemma all_nan_false (col : list fnum) (v : Q) :
  In (Some v) col -> all_nan col = false.
Proof.
  intros H. unfold all_nan.
  destruct (forallb F.isna col) eqn:E; [|reflexivity].
  rewrite forallb_forall in E. specialize (E _ H). discriminate.
Qed.

Lemma no_nan_cell (col : list fnum) (cell : fnum) :
  has_nan col = false -> In cell col -> exists v, cell = Some v.
Proof.
  intros H Hin. destruct cell as [v|]; [exists v; reflexivity|].
  exfalso. unfold has_nan in H.
  assert (existsb F.isna col = true)
    by (apply existsb_exists; exists None; auto).
  congruence.
Qed.


(** ** When the facade rejects a window for its NaNs *)

Lemma map_assign_same (get : Candle -> fnum)
  (set : fnum -> Candle -> Candle) :
  (forall v c, get (set v c) = v) ->
  forall (df : list Candle) (new_col : list fnum),
    length new_col = length df -> map get (assign set new_col df) = new_col.
Proof.
  intros Hgs. induction df as [|c df IH]; intros [|v col] H; simpl in *;
    try discriminate; [reflexivity|].
  rewrite Hgs, IH by lia. reflexivity.
Qed.

Lemma map_assign_other (get : Candle -> fnum)
  (set : fnum -> Candle -> Candle) :
  (forall v c, get (set v c) = get c) ->
  forall (df : list Candle) (new_col : list fnum),
    map get (assign set new_col df) = map get df.
Proof.
  intros Hgs. induction df as [|c df IH]; intros [|v col]; simpl;
    try reflexivity.
  rewrite Hgs, IH. reflexivity.
Qed.

Lemma clean_pass_same (get : Candle -> fnum)
  (set : fnum -> Candle -> Candle) (df : list Candle) :
  (forall v c, get (set v c) = v) ->
  map get (clean_with has_nan repair get set df) = cleaned (map get df).
Proof.
  intros Hgs. unfold clean_with, cleaned.
  destruct (has_nan (map get df)); [|reflexivity].
  apply map_assign_same; [exact Hgs|].
  rewrite length_repair, length_map. reflexivity.
Qed.

Lemma clean_pass_other (get get' : Candle -> fnum)
  (set : fnum -> Candle -> Candle) (df : list Candle) :
  (forall v c, get' (set v c) = get' c) ->
  map get' (clean_with has_nan repair get set df) = map get' df.
Proof.
  intros Hgs. unfold clean_with.
  destruct (has_nan (map get df)); [|reflexivity].
  apply map_assign_other. exact Hgs.
Qed.

Lemma cleaned_has_nan (col : list fnum) :
  has_nan (cleaned col) = negb (match col with [] => true | _ => false end)
                          && all_nan col.
Proof.
  unfold cleaned. destruct (has_nan col) eqn:E.
  - destruct (all_nan col) eqn:Ea.
    + rewrite (repair_all_nan _ Ea), E.
      destruct col; [discriminate E|reflexivity].
    + rewrite (repair_full _ Ea), andb_false_r. reflexivity.
  - rewrite E. destruct col as [|[v|] col]; simpl in *;
      try reflexivity; discriminate.
Qed.

Ltac field_laws := intros ? []; reflexivity.

Lemma clean_numeric_columns (df : list Candle) :
  map open (clean_numeric df) = cleaned (map open df)
  /\ map high (clean_numeric df) = cleaned (map high df)
  /\ map low (clean_numeric df) = cleaned (map low df)
  /\ map close (clean_numeric df) = cleaned (map close df)
  /\ map volume (clean_numeric df) = cleaned (map volume df).
Proof.
  unfold clean_numeric.
  repeat split;
    repeat first
      [ rewrite clean_pass_same by field_laws
      | rewrite clean_pass_other by field_laws ];
    reflexivity.
Qed.

(** After the cleaning loop of [get_signal] a numeric column still holds
    a NaN exactly when the window is not empty and that column holds no
    number at all. *)
Lemma nan_rejection (df : list Candle) :
  numeric_nan (clean_numeric df)
  = negb (match df with [] => true | _ => false end)
    && existsb (fun get => all_nan (map get df))
               [open; high; low; close; volume].
Proof.
  unfold numeric_nan. cbn [existsb].
  destruct (clean_numeric_columns df) as (-> & -> & -> & -> & ->).
  rewrite !cleaned_has_nan.
  destruct df as [|c df]; [reflexivity|].
  cbn [map negb andb]. reflexivity.
Qed.

(** ** Local extremes *)

Lemma is_level_spec (reaches : Q -> Q -> bool) (xs : list Q)
  (strength i : nat) :
  (strength <= i)%nat ->
  (is_level reaches xs strength i = true
   <-> forall j, (i - strength <= j <= i + strength)%nat -> j <> i ->
                 reaches (nth j xs 0%Q) (nth i xs 0%Q) = false).
Proof.
  intros Hi. unfold is_level. rewrite forallb_forall. split.
  - intros H j Hj Hne.
    specialize (H j). rewrite in_seq in H.
    assert (Hin : (i - strength <= j
                   < i - strength + (i + strength + 1 - (i - strength)))%nat)
      by lia.
    specialize (H Hin). apply orb_true_iff in H. destruct H as [H|H].
    + apply Nat.eqb_eq in H. contradiction.
    + apply negb_true_iff in H. exact H.
  - intros H j Hj. rewrite in_seq in Hj.
    destruct (Nat.eqb_spec j i) as [E|E]; [reflexivity|].
    simpl. apply negb_true_iff. apply H; [lia|exact E].
Qed.

Lemma level_indices_spec (reaches : Q -> Q -> bool) (xs : list Q)
  (strength i : nat) :
  In i (level_indices reaches xs strength)
  <-> (strength <= i)%nat /\ (i + strength < length xs)%nat
      /\ forall j, (i - strength <= j <= i + strength)%nat -> j <> i ->
                   reaches (nth j xs 0%Q) (nth i xs 0%Q) = false.
Proof.
  unfold level_indices. rewrite filter_In, in_seq. split.
  - intros (Hr & Hl). split; [lia|]. split; [lia|].
    apply is_level_spec; [lia|exact Hl].
  - intros (H1 & H2 & H3). split; [lia|].
    apply is_level_spec; [exact H1|exact H3].
Qed.

Lemma reaches_high_false (a b : Q) :
  reaches_high a b = false <-> (a < b)%Q.
Proof.
  unfold reaches_high. rewrite <- Qltb_lt. unfold F.Qltb.
  destruct (Qle_bool b a); simpl; split; congruence.
Qed.

Lemma reaches_low_false (a b : Q) :
  reaches_low a b = false <-> (b < a)%Q.
Proof.
  unfold reaches_low. rewrite <- Qltb_lt. unfold F.Qltb.
  destruct (Qle_bool a b); simpl; split; congruence.
Qed.



(** ** The report of [analyze_support_resistance_action] *)

Lemma py_int_ge_1 (x : Q) : (1 <= x)%Q -> (1 <= py_int x)%Z.
Proof.
  unfold py_int, Qle. simpl. intros H.
  apply Z.quot_le_lower_bound; lia.
Qed.

Lemma action_strength_range (move level : Q) :
  (0 < level)%Q -> (level * 0.002 < move)%Q ->
  (1 <= action_strength move level <= 5)%Z.
Proof.
  intros Hl Hm. unfold action_strength.
  assert (H : (1 <= move / level * 500)%Q).
  { assert (Hd : (0.002 <= move / level)%Q).
    { apply Qle_shift_div_l; [exact Hl|]. lra. }
    lra. }
  apply py_int_ge_1 in H. lia.
Qed.

Lemma resistance_action_report (c r : Q) (high_price prev_close : fnum) :
  let a := resistance_action c r high_price prev_close no_action in
  sound_report a
  /\ support_breakdown a = false /\ support_rejection a = false.
Proof.
  unfold resistance_action, sound_report, flagged.
  destruct (F.Qltb 0 r) eqn:Hr;
    [|simpl; repeat split; auto; try lia; discriminate].
  apply Qltb_lt in Hr.
  destruct (F.Qltb (r * 1.002) c) eqn:Hb.
  - apply Qltb_lt in Hb.
    assert (Hs : (1 <= action_strength (c - r) r <= 5)%Z)
      by (apply action_strength_range; [exact Hr|lra]).
    cbn [resistance_breakout resistance_rejection support_breakdown
         support_rejection strength action_type no_action orb andb].
    repeat split; auto; try discriminate; lia.
  - destruct (_ && _ && _) eqn:Hj;
      [|simpl; repeat split; auto; try lia; discriminate].
    apply andb_true_iff in Hj. destruct Hj as (Hj & _).
    apply andb_true_iff in Hj. destruct Hj as (_ & Hj).
    apply Qltb_lt in Hj.
    assert (Hs : (1 <= action_strength (r - c) r <= 5)%Z)
      by (apply action_strength_range; [exact Hr|lra]).
    cbn [resistance_breakout resistance_rejection support_breakdown
         support_rejection strength action_type no_action orb andb].
    repeat split; auto; try discriminate; lia.
Qed.

Lemma support_action_report (c s : Q) (low_price prev_close : fnum)
  (a : Analysis) :
  sound_report a ->
  support_breakdown a = false -> support_rejection a = false ->
  sound_report (support_action c s low_price prev_close a).
Proof.
  intros (A1 & A2 & A3 & A4 & A5) Hb0 Hr0.
  unfold support_action.
  destruct (F.Qltb 0 s) eqn:Hs;
    [|unfold sound_report; auto].
  apply Qltb_lt in Hs.
  destruct (F.Qltb c (s * 0.998)) eqn:Hb.
  - apply Qltb_lt in Hb.
    assert (Hst : (1 <= action_strength (s - c) s <= 5)%Z)
      by (apply action_strength_range; [exact Hs|lra]).
    unfold sound_report, flagged.
    cbn [resistance_breakout resistance_rejection support_breakdown
         support_rejection strength action_type].
    rewrite Hr0, !orb_true_r. cbn [andb orb].
    repeat split; auto; try discriminate; lia.
  - destruct (_ && _ && _) eqn:Hj; [|unfold sound_report; auto].
    apply andb_true_iff in Hj. destruct Hj as (Hj & _).
    apply andb_true_iff in Hj. destruct Hj as (_ & Hj).
    apply Qltb_lt in Hj.
    assert (Hst : (1 <= action_strength (c - s) s <= 5)%Z)
      by (apply action_strength_range; [exact Hs|lra]).
    unfold sound_report, flagged.
    cbn [resistance_breakout resistance_rejection support_breakdown
         support_rejection strength action_type].
    rewrite Hb0, !orb_true_r. cbn [andb orb].
    repeat split; auto; try discriminate; lia.
Qed.


(** ** Construction *)


(** ** The single-candle classifier *)

Open Scope string_scope.

Lemma classify_candle_names (o h l c po ph pl pc : Q) (name : string) :
  classify_candle o h l c po ph pl pc = Some name ->
  ((name = "BULLISH_HAMMER" \/ name = "BULLISH_ENGULFING") /\ (o < c)%Q)
  \/ ((name = "BEARISH_HANGING_MAN" \/ name = "BEARISH_ENGULFING")
      /\ (c < o)%Q)
  \/ (name = "DOJI" /\ (0 < h - l)%Q /\ (Qabs (c - o) < (h - l) * 0.1)%Q).
Proof.
  unfold classify_candle.
  destruct (negb (ohlc_ordered o h l c)); [discriminate|].
  destruct (negb (ohlc_ordered po ph pl pc)); [discriminate|].
  destruct (Qeq_bool (h - l) 0); [discriminate|].
  assert (Hdoji : forall n,
             (if F.Qltb 0 (h - l) && F.Qltb (Qabs (c - o)) ((h - l) * 0.1)
              then Some "DOJI" else None) = Some n ->
             n = "DOJI" /\ (0 < h - l)%Q
             /\ (Qabs (c - o) < (h - l) * 0.1)%Q).
  { intros n. destruct (_ && _) eqn:E; [|discriminate].
    apply andb_true_iff in E. destruct E as (E1 & E2).
    apply Qltb_lt in E1, E2. intros H. injection H as <-. auto. }
  destruct (F.Qltb o c) eqn:G.
  - apply Qltb_lt in G.
    destruct (_ && _ && _);
      [intros H; injection H as <-; left; auto|].
    destruct (_ && _ && _ && _ && _);
      [intros H; injection H as <-; left; auto|].
    intros H. right. right. apply Hdoji. exact H.
  - destruct (F.Qltb c o) eqn:R.
    + apply Qltb_lt in R.
      destruct (_ && _ && _);
        [intros H; injection H as <-; right; left; auto|].
      destruct (_ && _ && _ && _ && _);
        [intros H; injection H as <-; right; left; auto|].
      intros H. right. right. apply Hdoji. exact H.
    + intros H. right. right. apply Hdoji. exact H.
Qed.

Close Scope string_scope.


(** ** No look-ahead *)

Section RowLoopAgree.

Context {R : Type}.
Variable d : R.
Variable fault : nat -> bool.

Lemma run_loop_stop (write : nat -> R -> option R) (pre : list nat)
  (j : nat) (post : list nat) (tbl : list R) :
  fault j = true ->
  fst (run_loop (row_step d fault write) (pre ++ j :: post) tbl)
  = fst (run_loop (row_step d fault write) pre tbl).
Proof.
  intros Hj. revert tbl. induction pre as [|a pre IH]; intros tbl; simpl.
  - unfold row_step at 1. rewrite Hj. reflexivity.
  - destruct (row_step d fault write a tbl); [apply IH|reflexivity].
Qed.

Lemma row_loop_faulted (write : nat -> R -> option R) (a n : nat)
  (init : list R) (i j : nat) :
  (a <= j <= i)%nat -> (i < n)%nat -> fault j = true ->
  nth i (row_loop d fault write a n init) d = nth i init d.
Proof.
  intros Hj Hi Hf. unfold row_loop.
  assert (E : seq a (n - a)
              = seq a (j - a) ++ j :: seq (S j) (n - S j)).
  { replace (n - a)%nat with ((j - a) + S (n - S j))%nat by lia.
    rewrite seq_app. simpl. repeat f_equal; lia. }
  rewrite E, run_loop_stop by exact Hf.
  destruct (run_loop_cases d fault write (seq_NoDup (j - a) a) init i)
    as [H|(Hin & _)]; [exact H|].
  apply in_seq in Hin. lia.
Qed.

Lemma first_fault (a i : nat) :
  (forall j, (a <= j <= i)%nat -> fault j = false)
  \/ (exists j, (a <= j <= i)%nat /\ fault j = true).
Proof.
  induction i as [|i IH].
  - destruct (fault 0%nat) eqn:E.
    + destruct (Nat.eq_dec a 0) as [->|Ha].
      * right. exists 0%nat. split; [lia|exact E].
      * left. intros j Hj. lia.
    + left. intros j Hj. replace j with 0%nat by lia. exact E.
  - destruct IH as [IH|(j & Hj & Hf)].
    + destruct (fault (S i)) eqn:E.
      * destruct (Nat.le_gt_cases a (S i)) as [Ha|Ha].
        -- right. exists (S i). split; [lia|exact E].
        -- left. intros j Hj. lia.
      * left. intros j Hj.
        destruct (Nat.eq_dec j (S i)) as [->|Hne]; [exact E|].
        apply IH. lia.
    + right. exists j. split; [lia|exact Hf].
Qed.

(** Row [i] of the table depends on the loop only through what iteration
    [i] writes and on the faults up to [i]. *)
Lemma row_loop_agree (write write' : nat -> R -> option R)
  (a n n' : nat) (init init' : list R) (i : nat) :
  (i < n)%nat -> (n <= n')%nat ->
  (i < length init)%nat -> (i < length init')%nat ->
  nth i init d = nth i init' d ->
  (forall r, write i r = write' i r) ->
  nth i (row_loop d fault write a n init) d
  = nth i (row_loop d fault write' a n' init') d.
Proof.
  intros Hi Hn Hl Hl' Hinit Hw.
  destruct (Nat.le_gt_cases a i) as [Ha|Ha].
  - destruct (first_fault a i) as [Hf|(j & Hj & Hf)].
    + rewrite !row_loop_at by (auto; lia).
      rewrite Hw, Hinit. reflexivity.
    + rewrite (@row_loop_faulted write a n init i j) by (auto; lia).
      rewrite (@row_loop_faulted write' a n' init' i j) by (auto; lia).
      exact Hinit.
  - rewrite !row_loop_before by lia. exact Hinit.
Qed.

End RowLoopAgree.

Lemma pct_change_prefix (n : nat) (col : list fnum) (x : fnum) (i : nat) :
  (i < length col)%nat ->
  nth_cell i (pct_change n (col ++ [x])) = nth_cell i (pct_change n col).
Proof.
  intros H. unfold nth_cell, pct_change.
  rewrite !nth_map_seq by (rewrite ?length_app; simpl; lia).
  unfold nth_cell. rewrite !app_nth1 by lia. reflexivity.
Qed.

Lemma indicators_prefix (self : Strategy) (df : list Candle) (c : Candle)
  (i : nat) :
  (i < length df)%nat ->
  nth i (indicators self (df ++ [c])) nan_ind
  = nth i (indicators self df) nan_ind.
Proof.
  intros H. unfold indicators.
  rewrite !nth_map_seq by (rewrite ?length_app; simpl; lia).
  rewrite !map_app. simpl map.
  rewrite !rolling_prefix by (rewrite length_map; exact H).
  rewrite pct_change_prefix by (rewrite length_map; exact H).
  rewrite app_nth1 by exact H. reflexivity.
Qed.

Lemma length_indicators (self : Strategy) (df : list Candle) :
  length (indicators self df) = length df.
Proof. unfold indicators. rewrite length_map, length_seq. reflexivity. Qed.

Lemma zone_loop_prefix (self : Strategy) (df : list Candle) (c : Candle)
  (i : nat) :
  (i < length df)%nat ->
  nth i (zone_loop self (df ++ [c]) (indicators self (df ++ [c]))) zero_zone
  = nth i (zone_loop self df (indicators self df)) zero_zone.
Proof.
  intros H. unfold zone_loop. symmetry.
  apply row_loop_agree;
    rewrite ?length_app, ?repeat_length, ?nth_repeat_same;
    simpl; try lia; try reflexivity.
  intros r. rewrite zone_row_prefix by exact H. reflexivity.
Qed.

Lemma skipped_prefix (df : list Candle) (c : Candle) (i : nat) :
  (i < length df)%nat -> skipped (df ++ [c]) i = skipped df i.
Proof.
  intros H. unfold skipped. rewrite !app_nth1 by lia. reflexivity.
Qed.

Lemma detect_prefix (df : list Candle) (c : Candle) (inds inds' : list Ind)
  (i : nat) :
  (i < length df)%nat -> nth i inds' nan_ind = nth i inds nan_ind ->
  detect (df ++ [c]) inds' i = detect df inds i.
Proof.
  intros H E. unfold detect, flag_pattern, pennant_pattern.
  rewrite E. rewrite !slice_prefix by lia.
  rewrite !app_nth1 by lia. reflexivity.
Qed.

Lemma patterns_prefix (flt : Faults) (self : Strategy) (df : list Candle)
  (c : Candle) (i : nat) :
  (i < length df)%nat ->
  nth i (add_price_action_patterns flt (df ++ [c])
           (indicators self (df ++ [c]))) no_flags
  = nth i (add_price_action_patterns flt df (indicators self df)) no_flags.
Proof.
  intros H. unfold add_price_action_patterns. symmetry.
  apply row_loop_agree;
    rewrite ?length_app, ?repeat_length, ?nth_repeat_same;
    simpl; try lia; try reflexivity.
  intros r. unfold pattern_write.
  rewrite skipped_prefix by exact H.
  rewrite (@detect_prefix df c (indicators self df)) by
    (auto using indicators_prefix).
  reflexivity.
Qed.

Lemma signal_write_prefix (df : list Candle) (c : Candle)
  (inds inds' : list Ind) (zones zones' : list ZoneCount)
  (flags flags' : list Flags) (i : nat) (row : Sig) :
  (i < length df)%nat ->
  (forall j, (j <= i)%nat -> nth j inds' nan_ind = nth j inds nan_ind) ->
  nth i zones' zero_zone = nth i zones zero_zone ->
  (forall j, (j <= i)%nat -> nth j flags' no_flags = nth j flags no_flags) ->
  signal_write (df ++ [c]) inds' zones' flags' i row
  = signal_write df inds zones flags i row.
Proof.
  intros H Hi Hz Hf. unfold signal_write, reaches_decision, row_scores.
  rewrite Hz, !Hi, !Hf by lia. rewrite !app_nth1 by lia. reflexivity.
Qed.

Lemma clean_with_skip (dirty : list fnum -> bool)
  (fix_ : list fnum -> list fnum) (get : Candle -> fnum)
  (set : fnum -> Candle -> Candle) (df : list Candle) :
  dirty (map get df) = false -> clean_with dirty fix_ get set df = df.
Proof. intros H. unfold clean_with. rewrite H. reflexivity. Qed.

Lemma tidy_clean (df : list Candle) : tidy df = true -> clean_prices df = df.
Proof.
  unfold tidy. cbn [forallb]. intros H.
  repeat (apply andb_true_iff in H; destruct H as (H & ?)).
  repeat match goal with
         | E : negb ?b = true |- _ => apply negb_true_iff in E
         | E : _ && _ = true |- _ =>
             apply andb_true_iff in E; destruct E as (E & ?)
         end.
  unfold clean_prices, clean_nonpositive.
  rewrite (@clean_with_skip has_nan repair close set_close df)
    by assumption.
  rewrite (@clean_with_skip has_nonpositive _ open set_open df)
    by assumption.
  rewrite (@clean_with_skip has_nonpositive _ high set_high df)
    by assumption.
  rewrite (@clean_with_skip has_nonpositive _ low set_low df)
    by assumption.
  apply clean_with_skip. assumption.
Qed.

Lemma tidy_prefix (df : list Candle) (c : Candle) :
  tidy (df ++ [c]) = true -> tidy df = true.
Proof.
  unfold tidy, has_nan, has_nonpositive. cbn [forallb].
  rewrite !map_app, !existsb_app, !negb_orb.
  intros H.
  repeat (apply andb_true_iff in H; destruct H as (H & ?)).
  repeat match goal with
         | E : _ && _ = true |- _ =>
             apply andb_true_iff in E; destruct E as (E & ?)
         end.
  repeat (apply andb_true_iff; split); assumption.
Qed.



(** ** The answers of the facade *)

Lemma length_add_indicators (flt : Faults) (self : Strategy)
  (df : list Candle) :
  length (f_candles (add_indicators flt self df)) = length df.
Proof.
  unfold add_indicators.
  destruct (_ <? _)%nat; [reflexivity|].
  destruct (fault_enrich flt); simpl; apply length_clean_prices.
Qed.

Lemma add_indicators_signals (flt : Faults) (self : Strategy)
  (df : list Candle) :
  (min_required self <= length df)%nat -> fault_enrich flt = false ->
  exists sigs, f_sigs (add_indicators flt self df) = Some sigs.
Proof.
  intros H E. unfold add_indicators.
  destruct (Nat.ltb_spec (length df) (min_required self)); [lia|].
  rewrite E. simpl. eauto.
Qed.

(** C7.  Under every fault plan [get_signal] returns: its result is
    ["BUY"], ["SELL"], ["HOLD"] or [None], and an exception raised in its
    body is turned into [None] with the instance left alone.  It returns
    [None] for a window shorter than
    [max(lookback_period, volatility_window, momentum_window) + 5], for a
    window whose frame has not exactly 12 columns, the columns of the frame
    being the fields of the longest record, and whenever a numeric column
    still holds a NaN after the interpolation of the facade, which is when
    one of open, high, low, close and volume holds no number at all.  When
    neither [add_indicators] nor the code after it raises, no other window
    is answered [None]. *)
Theorem get_signal_total (flt : Faults) (self : Strategy)
  (klines : list kline) :
  let result := fst (get_signal flt self klines) in
  let df := map to_candle klines in
  let unusable :=
    existsb (fun get => all_nan (map get df))
            [open; high; low; close; volume] in
  (result = Some "BUY"%string \/ result = Some "SELL"%string
   \/ result = Some "HOLD"%string \/ result = None)
  /\ (forall e, get_signal_body flt self klines = Raise e ->
                get_signal flt self klines = (None, self))
  /\ ((length klines
       < Nat.max (Nat.max (lookback_period self) (volatility_window self))
                 (momentum_window self) + 5)%nat ->
      result = None)
  /\ (frame_width klines <> 12%nat -> result = None)
  /\ (Forall (fun r : kline => length r <> 12%nat) klines -> result = None)
  /\ (numeric_nan (clean_numeric df) = true -> result = None)
  /\ (unusable = true -> result = None)
  /\ (fault_enrich flt = false -> fault_facade flt = false ->
      (result = None
       <-> (length klines < min_required self)%nat
           \/ frame_width klines <> 12%nat \/ unusable = true)).
Proof.
  intros result df unusable.
  assert (Hwidth : frame_width klines <> 12%nat -> result = None).
  { intros Hw. unfold result, get_signal, get_signal_body.
    destruct (_ || _); [reflexivity|].
    destruct (Nat.eqb_spec (frame_width klines) 12); [contradiction|].
    reflexivity. }
  assert (Hshort : (length klines < min_required self)%nat -> result = None).
  { intros Hs. unfold result, get_signal, get_signal_body.
    destruct (Nat.ltb_spec (length klines) (min_required self)); [|lia].
    rewrite orb_true_r. reflexivity. }
  assert (Hnan : numeric_nan (clean_numeric df) = true -> result = None).
  { intros Hn. unfold result, get_signal, get_signal_body.
    destruct (_ || _); [reflexivity|].
    destruct (negb _); [reflexivity|].
    fold df. rewrite Hn. reflexivity. }
  assert (Hcol : (min_required self <= length klines)%nat ->
                 numeric_nan (clean_numeric df) = unusable).
  { intros Hlen. rewrite nan_rejection. fold unusable.
    pose proof (min_required_pos self) as Hm.
    assert (Hdf : length df = length klines) by apply length_map.
    destruct df; [simpl in Hdf; lia|reflexivity]. }
  assert (Hunusable : unusable = true -> result = None).
  { intros Hu.
    destruct (Nat.lt_ge_cases (length klines) (min_required self)) as [H|H];
      [apply Hshort; exact H|].
    apply Hnan. rewrite (Hcol H). exact Hu. }
  split; [|split; [|split; [|split; [|split; [|split; [|split]]]]]].
  - unfold result. rewrite get_signal_verdict.
    destruct (verdict_of flt self klines) as [[| |signal entry]|e] eqn:E;
      simpl; auto.
    destruct (verdict_answer_label _ _ _ E) as [-> | [-> | ->]]; auto.
  - intros e He. unfold get_signal. rewrite He. reflexivity.
  - exact Hshort.
  - exact Hwidth.
  - intros Hall. destruct klines as [|r rest] eqn:Ek.
    + apply Hshort. pose proof (min_required_pos self). simpl. lia.
    + rewrite <- Ek in *. apply Hwidth.
      destruct (@frame_width_attained klines) as (r0 & Hin & ->);
        [rewrite Ek; discriminate|].
      rewrite Forall_forall in Hall. apply Hall. exact Hin.
  - exact Hnan.
  - exact Hunusable.
  - intros Fe Ff. split.
    2:{ intros [H | [H | H]]; auto. }
    intros Hres.
    destruct (Nat.lt_ge_cases (length klines) (min_required self))
      as [Hlen|Hlen]; [left; exact Hlen|].
    right.
    destruct (Nat.eq_dec (frame_width klines) 12) as [Hw|Hw];
      [|left; exact Hw].
    right.
    destruct unusable eqn:Hu; [reflexivity|].
    exfalso. revert Hres. unfold result, get_signal, get_signal_body.
    pose proof (min_required_pos self) as Hm.
    destruct (Nat.eqb_spec (length klines) 0); [lia|].
    destruct (Nat.ltb_spec (length klines) (min_required self)); [lia|].
    rewrite Hw. cbn [orb negb Nat.eqb].
    fold df. rewrite (Hcol Hlen). rewrite Ff.
    assert (Hdf : length (clean_numeric df) = length klines).
    { rewrite length_clean_numeric. apply length_map. }
    rewrite length_add_indicators, Hdf.
    destruct (Nat.ltb_spec (length klines) 2); [lia|].
    destruct (@add_indicators_signals flt self (clean_numeric df))
      as (sigs & ->); [lia|exact Fe|].
    simpl. discriminate.
Qed.

Lemma get_signal_total_witness :
  (length (firstn 5 Sample.flat)
   < Nat.max (Nat.max (lookback_period Sample.strategy)
                      (volatility_window Sample.strategy))
             (momentum_window Sample.strategy) + 5)%nat
  /\ fst (get_signal no_faults Sample.strategy (firstn 5 Sample.flat)) = None
  /\ fst (get_signal no_faults Sample.strategy Sample.breakout) <> None.
Proof.
  assert (H : (length (firstn 5 Sample.flat)
               < Nat.max (Nat.max (lookback_period Sample.strategy)
                                  (volatility_window Sample.strategy))
                         (momentum_window Sample.strategy) + 5)%nat)
    by (vm_compute; lia).
  split; [exact H|]. split.
  - exact (proj1 (proj2 (proj2
      (@get_signal_total no_faults Sample.strategy (firstn 5 Sample.flat))))
      H).
  - intros E.
    apply (proj2 (proj2 (proj2 (proj2 (proj2 (proj2 (proj2
      (@get_signal_total no_faults Sample.strategy Sample.breakout))))))))
      in E; [|reflexivity|reflexivity].
    destruct E as [E | [E | E]].
    + revert E. vm_compute. lia.
    + apply E. reflexivity.
    + revert E. vm_compute. discriminate.
Defined.

(** Eleven records of six fields and one of twelve make a frame of twelve
    columns, and the window is answered; a window whose every close is 0
    passes the NaN check of the facade, loses its whole close column to the
    cleaning of [add_indicators], and is answered too. *)
Lemma facade_counterexample :
  forallb (fun r : kline => (length r =? 6)%nat)
          (firstn 11 SampleEdge.ragged) = true
  /\ fst (get_signal no_faults Sample.strategy SampleEdge.ragged)
     = Some "BUY"%string
  /\ all_nan
       (map close
          (f_candles
             (add_indicators no_faults Sample.strategy
                (clean_numeric (map to_candle SampleEdge.zero_close)))))
     = true
  /\ fst (get_signal no_faults Sample.strategy SampleEdge.zero_close)
     = Some "HOLD"%string.
Proof. vm_compute. repeat split; reflexivity. Qed.
